(** * KensenichLego: placement resolver, edit history, simulation bridge
      and import/export, embedded from the TypeScript sources

    Sources embedded here:
    - [types.ts]                     the data model;
    - [constants.ts]                 dimensions, [COLORS], [BRICK_CATALOG];
    - [App.tsx]                      [PhysicsBrick], [handlePointerMove],
                                     [handleClick], the history handlers and
                                     the save/export/import handlers;
    - [services/geminiService.ts]    [generateBuildFromPrompt].

    Number model.  A JavaScript [number] that holds a coordinate or a size
    is embedded as an exact rational ([Q]): the developments on geometry
    and grid alignment are about the arithmetic the program writes down.
    Where the rounding of binary64 arithmetic is itself the subject (the
    vertical snap and its clean-up to two decimals) the resolver is
    embedded a second time with every operation rounded ([Binary64],
    [handlePointerMove64]).  Counts of studs and quarter turns are embedded
    as [Z].  Numeric equality of coordinates is [Qeq] (written [==]). *)

From Stdlib Require Import ZArith NArith QArith Qround Qpower Qabs Lqa Lia.
From Stdlib Require Import List String Ascii Bool Zquot.
Import ListNotations.

Set Implicit Arguments.

(* ================================================================== *)
(** * The JavaScript operations the sources rely on *)
(* ================================================================== *)

Module JS.

Definition number := Q.

(** [Math.round(x)]: the integer nearest to [x], ties towards +infinity. *)
Definition Math_round (x : Q) : Q := inject_Z (Qfloor (x + 0.5)).

(** [parseFloat(x.toFixed(2))]: [toFixed] picks the integer [n] with
    [n / 100] closest to the magnitude of [x], the larger one on a tie,
    and keeps the sign. *)
Definition toFixed2_magnitude (x : Q) : Q :=
  inject_Z (Qfloor (x * 100 + 0.5)) / 100.

Definition parseFloat_toFixed2 (x : Q) : Q :=
  if Qlt_le_dec x 0 then - toFixed2_magnitude (- x) else toFixed2_magnitude x.

(** [a % b] on integers: the remainder has the sign of the dividend. *)
Definition rem (a b : Z) : Z := Z.rem a b.

(** [a !== 0] after a remainder, as a boolean. *)
Definition nonzero (a : Z) : bool := negb (a =? 0)%Z.

(** [arr[i]]: [undefined] (here [None]) outside [0 .. length-1]. *)
Definition index {A} (arr : list A) (i : Z) : option A :=
  if (i <? 0)%Z then None else nth_error arr (Z.to_nat i).

(** [arr.slice(0, e)]: a negative [e] counts from the end. *)
Definition slice0 {A} (arr : list A) (e : Z) : list A :=
  let len := Z.of_nat (List.length arr) in
  let final := if (e <? 0)%Z then Z.max (len + e) 0 else Z.min e len in
  firstn (Z.to_nat final) arr.

(** [s || d] on strings: the empty string is falsy. *)
Definition or_string (s : option string) (d : string) : string :=
  match s with
  | Some EmptyString | None => d
  | Some v => v
  end.

(** [n || 0] on an optional integer: [undefined] and [0] are falsy. *)
Definition or_zero (n : option Z) : Z :=
  match n with
  | Some v => if (v =? 0)%Z then 0%Z else v
  | None => 0%Z
  end.

(** [arr.find(p)]. *)
Definition find {A} (p : A -> bool) (arr : list A) : option A :=
  List.find p arr.

End JS.

(* ================================================================== *)
(** * Binary64 rounding *)
(* ================================================================== *)

(** A finite binary64 number is the rational it denotes.  [round q] is the
    binary64 number nearest to [q], ties to the even significand: with [e]
    the exponent of the unit in the last place of [q] (53 significant bits,
    never below the subnormal exponent -1074), the significand is [q / 2^e]
    rounded to the nearest integer.  Overflow to [Infinity] is not
    modelled: it takes a magnitude of [2^1024], and the facts below bound
    their inputs. *)
Module Binary64.

(** [floor (log2 |q|)], for [q] other than 0. *)
Definition ilog2 (q : Q) : Z :=
  let l := (Z.log2 (Z.abs (Qnum q)) - Z.log2 (Z.pos (Qden q)))%Z in
  if Qle_bool (2 ^ l) (Qabs q) then l else (l - 1)%Z.

(** The nearest integer, ties to even. *)
Definition nearestEven (r : Q) : Z :=
  let f := Qfloor r in
  match Qcompare (r - inject_Z f) (1 # 2) with
  | Lt => f
  | Gt => (f + 1)%Z
  | Eq => if Z.even f then f else (f + 1)%Z
  end.

Definition exponent (q : Q) : Z := Z.max (ilog2 q - 52) (-1074).

Definition round (q : Q) : Q :=
  let q := Qred q in
  if Qeq_bool q 0 then 0
  else inject_Z (nearestEven (q / 2 ^ exponent q)) * 2 ^ exponent q.

(** The arithmetic of two binary64 numbers: the exact result, rounded. *)
Definition add (a b : Q) : Q := round (a + b).
Definition mul (a b : Q) : Q := round (a * b).
Definition div (a b : Q) : Q := round (a / b).

End Binary64.

(* ================================================================== *)
(** * types.ts *)
(* ================================================================== *)

Inductive BrickCategory := basic | plate | technic | slope.

Record BrickTypeDefinition := {
  bt_id : string;
  bt_name : string;
  bt_category : BrickCategory;
  bt_width : Z;            (* in studs *)
  bt_depth : Z;            (* in studs *)
  bt_height : Q;           (* relative to standard brick *)
  bt_hasStuds : bool;
  bt_hasHoles : option bool
}.

Record PlacedBrick := {
  pb_id : string;
  pb_typeId : string;
  pb_position : Q * Q * Q; (* x, y, z in grid units *)
  pb_rotation : Z;         (* multipliers of 90 deg around the Y axis *)
  pb_color : string
}.

Record BrickColor := {
  bc_id : string;
  bc_name : string;
  bc_hex : string
}.

Inductive ToolMode := view | place | delete | paint | rotate.

(* ================================================================== *)
(** * constants.ts *)
(* ================================================================== *)

Open Scope string_scope.
Open Scope list_scope.
Open Scope Q_scope.

Definition STUD_SIZE : Q := 1.
Definition BRICK_HEIGHT : Q := 1.2.
Definition PLATE_HEIGHT : Q := 0.4.

Definition COLORS : list BrickColor := [
  {| bc_id := "red";    bc_name := "Bright Red";        bc_hex := "#ef4444" |};
  {| bc_id := "blue";   bc_name := "Bright Blue";       bc_hex := "#3b82f6" |};
  {| bc_id := "yellow"; bc_name := "Bright Yellow";     bc_hex := "#eab308" |};
  {| bc_id := "green";  bc_name := "Dark Green";        bc_hex := "#15803d" |};
  {| bc_id := "black";  bc_name := "Black";             bc_hex := "#171717" |};
  {| bc_id := "white";  bc_name := "White";             bc_hex := "#f3f4f6" |};
  {| bc_id := "grey";   bc_name := "Medium Stone Grey"; bc_hex := "#9ca3af" |};
  {| bc_id := "orange"; bc_name := "Bright Orange";     bc_hex := "#f97316" |};
  {| bc_id := "purple"; bc_name := "Medium Lilac";      bc_hex := "#a855f7" |};
  {| bc_id := "lime";   bc_name := "Lime";              bc_hex := "#84cc16" |}
].

Definition mkType (i n : string) (c : BrickCategory) (w d : Z) (h : Q)
    (studs : bool) (holes : option bool) : BrickTypeDefinition :=
  {| bt_id := i; bt_name := n; bt_category := c; bt_width := w; bt_depth := d;
     bt_height := h; bt_hasStuds := studs; bt_hasHoles := holes |}.

Definition BRICK_CATALOG : list BrickTypeDefinition := [
  (* Basic Bricks *)
  mkType "brick_1x1" "Brick 1x1" basic 1 1 1 true None;
  mkType "brick_1x2" "Brick 1x2" basic 1 2 1 true None;
  mkType "brick_1x4" "Brick 1x4" basic 1 4 1 true None;
  mkType "brick_2x2" "Brick 2x2" basic 2 2 1 true None;
  mkType "brick_2x4" "Brick 2x4" basic 2 4 1 true None;
  (* Plates *)
  mkType "plate_1x1" "Plate 1x1" plate 1 1 0.33 true None;
  mkType "plate_1x2" "Plate 1x2" plate 1 2 0.33 true None;
  mkType "plate_2x2" "Plate 2x2" plate 2 2 0.33 true None;
  mkType "plate_2x4" "Plate 2x4" plate 2 4 0.33 true None;
  mkType "plate_4x4" "Plate 4x4" plate 4 4 0.33 true None;
  (* Technic *)
  mkType "technic_1x2" "Technic Beam 2" technic 1 2 1 false (Some true);
  mkType "technic_1x4" "Technic Beam 4" technic 1 4 1 false (Some true);
  mkType "technic_1x8" "Technic Beam 8" technic 1 8 1 false (Some true)
].

(** [BRICK_CATALOG.find(b => b.id === id)] and its [COLORS] counterpart. *)
Definition findType (id : string) : option BrickTypeDefinition :=
  JS.find (fun b => String.eqb (bt_id b) id) BRICK_CATALOG.

Definition findColor (id : string) : option BrickColor :=
  JS.find (fun c => String.eqb (bc_id c) id) COLORS.

(** [BRICK_CATALOG[0]] and [COLORS[0]]: both tables are non-empty literals. *)
Definition BRICK_CATALOG_0 : BrickTypeDefinition :=
  hd (mkType "" "" basic 0 0 0 false None) BRICK_CATALOG.

Definition COLORS_0 : BrickColor :=
  hd {| bc_id := ""; bc_name := ""; bc_hex := "" |} COLORS.

(* ================================================================== *)
(** * App.tsx: the simulation bridge ([PhysicsBrick]) *)
(* ================================================================== *)

(** The argument of [useBox].  The yaw [brick.rotation * Math.PI / 2] is
    kept as its number of quarter turns. *)
Record BoxBody := {
  body_mass : Q;
  body_position : Q * Q * Q;
  body_quarterTurns : Z;
  body_args : Q * Q * Q
}.

Definition PhysicsBrick (brick : PlacedBrick) : BoxBody :=
  let def := findType (pb_typeId brick) in
  (* Calculate dimensions for collider *)
  let w := match def with Some t => inject_Z (bt_width t) * STUD_SIZE | None => 1 end in
  let d := match def with Some t => inject_Z (bt_depth t) * STUD_SIZE | None => 1 end in
  let h := match def with Some t => bt_height t * BRICK_HEIGHT | None => 1 end in
  (* Swap W/D if rotated *)
  let isRotated := JS.nonzero (JS.rem (pb_rotation brick) 2) in
  let finalW := if isRotated then d else w in
  let finalD := if isRotated then w else d in
  let '(px, py, pz) := pb_position brick in
  {| body_mass := 1;
     body_position := (px, py + h / 2, pz);
     body_quarterTurns := pb_rotation brick;
     body_args := (finalW - 0.02, h, finalD - 0.02) |}.

(** Physics mode of [SceneContent]: one body per brick of the build. *)
Definition simulationBodies (bricks : list PlacedBrick) : list BoxBody :=
  map PhysicsBrick bricks.

(* ================================================================== *)
(** * App.tsx: the placement resolver ([handlePointerMove]) *)
(* ================================================================== *)

Record Vector3 := { v_x : Q; v_y : Q; v_z : Q }.

Definition multiplyScalar (v : Vector3) (s : Q) : Vector3 :=
  {| v_x := v_x v * s; v_y := v_y v * s; v_z := v_z v * s |}.

Definition add (a b : Vector3) : Vector3 :=
  {| v_x := v_x a + v_x b; v_y := v_y a + v_y b; v_z := v_z a + v_z b |}.

(** What the handlers read of a pointer event: [e.point], [e.face.normal],
    and the [userData.brickId] of the nearest ancestor tagged [isBrick]
    (the result of the walk up the parent chain), if any. *)
Record PointerEvent := {
  e_point : Vector3;
  e_normal : Vector3;
  e_brickId : option string
}.

(** The vertical part of the resolver, lines 171-178. *)
Definition resolveY (targetY : Q) : Q :=
  (* Snap to PLATE_HEIGHT (0.4) to allow fine stacking *)
  let y := JS.Math_round (targetY / PLATE_HEIGHT) * PLATE_HEIGHT in
  (* Ensure we don't go below ground *)
  let y := if Qlt_le_dec y 0 then 0 else y in
  (* Cleanup floating point artifacts *)
  JS.parseFloat_toFixed2 y.

(** [handlePointerMove]: the argument handed to [setHoverPos], or [None]
    when [setHoverPos] is not reached (simulation running, or the selected
    type is not in the catalogue, where reading [currentBrick.depth]
    throws). *)
Definition handlePointerMove (isSimulating : bool) (selectedTypeId : string)
    (rotation : Z) (e : PointerEvent) : option (Q * Q * Q) :=
  if isSimulating then None else
  let epsilon := 0.01 in
  let targetPos := add (e_point e) (multiplyScalar (e_normal e) epsilon) in
  (* Snap to grid *)
  let x := JS.Math_round (v_x targetPos) in
  let z := JS.Math_round (v_z targetPos) in
  let y := resolveY (v_y targetPos) in
  (* Handle Brick Centering *)
  match findType selectedTypeId with
  | None => None
  | Some currentBrick =>
      let isRotated := JS.nonzero (JS.rem rotation 2) in
      let effectiveWidth := if isRotated then bt_depth currentBrick else bt_width currentBrick in
      let effectiveDepth := if isRotated then bt_width currentBrick else bt_depth currentBrick in
      let finalX := if (JS.rem effectiveWidth 2 =? 0)%Z then x + 0.5 else x in
      let finalZ := if (JS.rem effectiveDepth 2 =? 0)%Z then z + 0.5 else z in
      Some (finalX, y, finalZ)
  end.

(* ================================================================== *)
(** * App.tsx: the placement resolver in binary64 arithmetic *)
(* ================================================================== *)

(** The same lines of [handlePointerMove] with every operation rounded as
    the program executes it: a decimal literal is the binary64 number
    nearest to it, [*], [/] and [+] round their exact result,
    [Math.round] and the comparison are exact, [toFixed(2)] writes the
    decimal with two digits nearest to the exact value of the number and
    [parseFloat] reads the text as the binary64 number nearest to that
    decimal. *)
Definition PLATE_HEIGHT64 : Q := Binary64.round PLATE_HEIGHT.

Definition resolveY64 (targetY : Q) : Q :=
  (* Snap to PLATE_HEIGHT (0.4) to allow fine stacking *)
  let y := Binary64.mul (JS.Math_round (Binary64.div targetY PLATE_HEIGHT64))
                        PLATE_HEIGHT64 in
  (* Ensure we don't go below ground *)
  let y := if Qlt_le_dec y 0 then 0 else y in
  (* Cleanup floating point artifacts *)
  Binary64.round (JS.parseFloat_toFixed2 y).



(* ================================================================== *)
(** * The JSON text layer: [JSON.stringify] and [JSON.parse] *)
(* ================================================================== *)

(** Text is a sequence of bytes (UTF-8).  [stringify] follows the
    serialisation of ECMA-262 (no indentation, members in order); [parse]
    is a recursive-descent reader of the JSON grammar with its white space.
    A number is written with the digits of its exact decimal expansion, in
    plain notation or with an exponent as [NumberToString] chooses; the
    reader accepts both. *)
Module JSON.

#[local] Unset Elimination Schemes.

Inductive value :=
| Null
| Bool (b : bool)
| Number (q : Q)
| Str (s : string)
| Array (items : list value)
| Object (members : list (string * value)).

#[local] Set Elimination Schemes.

Definition text := list ascii.

Definition lit (s : string) : text := list_ascii_of_string s.

(** ** Numbers *)

Definition digit_char (d : N) : ascii := ascii_of_N (48 + d).

Definition digit_value (c : ascii) : option N :=
  let n := N_of_ascii c in
  if ((48 <=? n) && (n <=? 57))%N then Some (n - 48)%N else None.

(** The [k] low decimal digits of [n], most significant first. *)
Fixpoint digits_of (k : nat) (n : N) : list N :=
  match k with
  | O => []
  | S k' => (n / 10 ^ N.of_nat k')%N :: digits_of k' (n mod 10 ^ N.of_nat k')%N
  end.

Fixpoint strip_zeros (ds : list N) : list N :=
  match ds with
  | 0%N :: r => strip_zeros r
  | _ => ds
  end.

(** The digits of [n] without leading zeros; a single [0] for zero. *)
Definition digits_N_of (n : N) : list N :=
  match strip_zeros (digits_of (N.to_nat (N.size n)) n) with
  | [] => [0%N]
  | ds => ds
  end.

Definition fixed_digits (k : nat) (n : N) : text := map digit_char (digits_of k n).

Definition print_N (n : N) : text := map digit_char (digits_N_of n).

(** The least scale [k], within [tries] attempts, at which
    [num / den * 10^k] is an integer: mantissa and scale. *)
Fixpoint find_scale (den num : Z) (k tries : nat) : option (Z * nat) :=
  match tries with
  | O => None
  | S t =>
      if (num mod den =? 0)%Z then Some ((num / den)%Z, k)
      else find_scale den (num * 10)%Z (S k) t
  end.

Definition decimal_of (q : Q) : option (Z * nat) :=
  find_scale (Zpos (Qden q)) (Qnum q) 0 (S (Pos.size_nat (Qden q))).

(** A rational that is a JavaScript number has a finite decimal expansion. *)
Definition isDecimal (q : Q) : bool :=
  match decimal_of q with Some _ => true | None => false end.

(** [ds] without its trailing zeros. *)
Fixpoint drop_trailing_zeros (ds : list N) : list N :=
  match ds with
  | [] => []
  | d :: r =>
      match drop_trailing_zeros r with
      | [] => if (d =? 0)%N then [] else [d]
      | r' => d :: r'
      end
  end.

(** Exponent notation of [a / 10^k], [a] not zero: the first significant
    digit, the others behind a point when there are any, then [e], the
    sign of the decimal exponent and its digits. *)
Definition print_exponent (a : N) (k : nat) : text :=
  let ds := digits_N_of a in
  let e := (Z.of_nat (List.length ds) - 1 - Z.of_nat k)%Z in
  match drop_trailing_zeros ds with
  | [] => lit "0"
  | d :: fs =>
      digit_char d
      :: match fs with
         | [] => []
         | _ :: _ => "."%char :: map digit_char fs
         end
      ++ "e"%char :: (if (e <? 0)%Z then "-"%char else "+"%char)
      :: print_N (Z.to_N (Z.abs e))
  end.

(** [NumberToString] for a finite number.  With [n] the number of digits
    before the decimal point (not positive for a number below 1: the
    number is at least [10^(n-1)] and less than [10^n]), the notation is
    plain when [-6 < n <= 21] and uses an exponent otherwise: [1e+21],
    [1e-7].  What has no finite expansion is, like the non-finite numbers,
    written [null]. *)
Definition print_number (q : Q) : text :=
  match decimal_of q with
  | None => lit "null"
  | Some (m, k) =>
      let a := Z.to_N (Z.abs m) in
      let p := (10 ^ N.of_nat k)%N in
      let n := (Z.of_nat (List.length (digits_N_of a)) - Z.of_nat k)%Z in
      (if (m <? 0)%Z then ["-"%char] else [])
        ++ (if negb (a =? 0)%N && ((21 <? n) || (n <=? -6))%Z
            then print_exponent a k
            else print_N (a / p)
                 ++ match k with
                    | O => []
                    | S _ => "."%char :: fixed_digits k (a mod p)
                    end)
  end.

Fixpoint span_digits (t : text) : list N * text :=
  match t with
  | c :: r =>
      match digit_value c with
      | Some d => let (ds, r') := span_digits r in (d :: ds, r')
      | None => ([], t)
      end
  | [] => ([], [])
  end.

Definition digits_N (ds : list N) : N :=
  fold_left (fun a d => (a * 10 + d)%N) ds 0%N.

(** At least one digit. *)
Definition digits1 (t : text) : option (list N * text) :=
  match span_digits t with
  | ([], _) => None
  | r => Some r
  end.

(** [int]: a single [0], or digits. *)
Definition parse_int (t : text) : option (list N * text) :=
  match t with
  | "0"%char :: r => Some ([0%N], r)
  | _ => digits1 t
  end.

Definition parse_frac (t : text) : option (list N * text) :=
  match t with
  | "."%char :: r => digits1 r
  | _ => Some ([], t)
  end.

Definition parse_exp (t : text) : option (Z * text) :=
  match t with
  | ("e" | "E")%char :: r =>
      let '(neg, r1) :=
        match r with
        | "-"%char :: r' => (true, r')
        | "+"%char :: r' => (false, r')
        | _ => (false, r)
        end in
      match digits1 r1 with
      | Some (ds, r2) =>
          let e := Z.of_N (digits_N ds) in
          Some (if neg : bool then (- e)%Z else e, r2)
      | None => None
      end
  | _ => Some (0%Z, t)
  end.

Definition pow10 (e : Z) : Q :=
  if (e <? 0)%Z then / inject_Z (10 ^ (- e)) else inject_Z (10 ^ e).

(** The part of a number after its sign. *)
Definition parse_unsigned (neg : bool) (t1 : text) : option (Q * text) :=
  match parse_int t1 with
  | None => None
  | Some (ds, t2) =>
      match parse_frac t2 with
      | None => None
      | Some (fs, t3) =>
          match parse_exp t3 with
          | None => None
          | Some (e, t4) =>
              let m := Z.of_N (digits_N (ds ++ fs)) in
              let q := inject_Z (if neg then - m else m)%Z
                       * pow10 (e - Z.of_nat (List.length fs)) in
              Some (Qred q, t4)
          end
      end
  end.

Definition parse_number (t : text) : option (Q * text) :=
  match t with
  | "-"%char :: r => parse_unsigned true r
  | _ => parse_unsigned false t
  end.

(** ** Strings *)

Definition hex_char (d : N) : ascii :=
  if (d <? 10)%N then ascii_of_N (48 + d) else ascii_of_N (87 + d).

Definition hex_value (c : ascii) : option N :=
  let n := N_of_ascii c in
  if ((48 <=? n) && (n <=? 57))%N then Some (n - 48)%N
  else if ((97 <=? n) && (n <=? 102))%N then Some (n - 87)%N
  else if ((65 <=? n) && (n <=? 70))%N then Some (n - 55)%N
  else None.

(** [QuoteJSONString], one unit at a time. *)
Definition quote_char (c : ascii) : text :=
  let n := N_of_ascii c in
  if (n =? 8)%N then lit "\b"
  else if (n =? 9)%N then lit "\t"
  else if (n =? 10)%N then lit "\n"
  else if (n =? 12)%N then lit "\f"
  else if (n =? 13)%N then lit "\r"
  else if (n =? 34)%N then ["\"%char; c]
  else if (n =? 92)%N then ["\"%char; c]
  else if (n <? 32)%N then lit "\u00" ++ [hex_char (n / 16); hex_char (n mod 16)]
  else [c].

Definition quote (s : string) : text :=
  "034"%char :: flat_map quote_char (list_ascii_of_string s) ++ ["034"%char].

(** The bytes of the UTF-8 encoding of a code point.  A surrogate that
    stands alone, which a JavaScript string can hold, is written in the
    same three-byte form. *)
Definition utf8 (cp : N) : text :=
  if (cp <? 128)%N then [ascii_of_N cp]
  else if (cp <? 2048)%N then
    [ascii_of_N (192 + cp / 64); ascii_of_N (128 + cp mod 64)]
  else if (cp <? 65536)%N then
    [ascii_of_N (224 + cp / 4096);
     ascii_of_N (128 + (cp / 64) mod 64);
     ascii_of_N (128 + cp mod 64)]
  else
    [ascii_of_N (240 + cp / 262144);
     ascii_of_N (128 + (cp / 4096) mod 64);
     ascii_of_N (128 + (cp / 64) mod 64);
     ascii_of_N (128 + cp mod 64)].

(** The four hexadecimal digits of a [\u] escape. *)
Definition hex4 (h1 h2 h3 h4 : ascii) : option N :=
  match hex_value h1, hex_value h2, hex_value h3, hex_value h4 with
  | Some a, Some b, Some c, Some d => Some (((a * 16 + b) * 16 + c) * 16 + d)%N
  | _, _, _, _ => None
  end.

(** An escape after its backslash.  A leading surrogate followed by the
    escape of a trailing one is one code point of a supplementary plane. *)
Definition parse_escape (t : text) : option (text * text) :=
  match t with
  | "034"%char :: r => Some (["034"%char], r)
  | "\"%char :: r => Some (["\"%char], r)
  | "/"%char :: r => Some (["/"%char], r)
  | "b"%char :: r => Some ([ascii_of_N 8], r)
  | "f"%char :: r => Some ([ascii_of_N 12], r)
  | "n"%char :: r => Some ([ascii_of_N 10], r)
  | "r"%char :: r => Some ([ascii_of_N 13], r)
  | "t"%char :: r => Some ([ascii_of_N 9], r)
  | "u"%char :: h1 :: h2 :: h3 :: h4 :: r =>
      match hex4 h1 h2 h3 h4 with
      | Some hi =>
          if ((55296 <=? hi) && (hi <=? 56319))%N then
            match r with
            | "\"%char :: "u"%char :: l1 :: l2 :: l3 :: l4 :: r' =>
                match hex4 l1 l2 l3 l4 with
                | Some lo =>
                    if ((56320 <=? lo) && (lo <=? 57343))%N then
                      Some (utf8 (65536 + (hi - 55296) * 1024 + (lo - 56320)), r')
                    else Some (utf8 hi, r)
                | None => Some (utf8 hi, r)
                end
            | _ => Some (utf8 hi, r)
            end
          else Some (utf8 hi, r)
      | None => None
      end
  | _ => None
  end.

(** The characters of a string after its opening quote, up to and
    including the closing one. *)
Fixpoint parse_chars (fuel : nat) (t : text) : option (text * text) :=
  match fuel with
  | O => None
  | S f =>
      match t with
      | [] => None
      | c :: r =>
          if Ascii.eqb c "034"%char then Some ([], r)
          else if Ascii.eqb c "\"%char then
            match parse_escape r with
            | Some (bytes, r1) =>
                match parse_chars f r1 with
                | Some (cs, r2) => Some (bytes ++ cs, r2)
                | None => None
                end
            | None => None
            end
          else if (N_of_ascii c <? 32)%N then None
          else
            match parse_chars f r with
            | Some (cs, r2) => Some (c :: cs, r2)
            | None => None
            end
      end
  end.

Definition parse_string (t : text) : option (string * text) :=
  match t with
  | "034"%char :: r =>
      match parse_chars (S (List.length r)) r with
      | Some (cs, r') => Some (string_of_list_ascii cs, r')
      | None => None
      end
  | _ => None
  end.

(** ** Values *)

Fixpoint join (parts : list text) : text :=
  match parts with
  | [] => []
  | [p] => p
  | p :: rest => p ++ ","%char :: join rest
  end.

Fixpoint print (v : value) : text :=
  match v with
  | Null => lit "null"
  | Bool true => lit "true"
  | Bool false => lit "false"
  | Number q => print_number q
  | Str s => quote s
  | Array items => "["%char :: join (map print items) ++ ["]"%char]
  | Object members =>
      "{"%char
        :: join (map (fun kv => quote (fst kv) ++ ":"%char :: print (snd kv)) members)
        ++ ["}"%char]
  end.

Definition is_ws (c : ascii) : bool :=
  let n := N_of_ascii c in
  ((n =? 32) || (n =? 9) || (n =? 10) || (n =? 13))%N.

Fixpoint skip_ws (t : text) : text :=
  match t with
  | c :: r => if is_ws c then skip_ws r else t
  | [] => []
  end.

Fixpoint parse_value (fuel : nat) (t : text) : option (value * text) :=
  match fuel with
  | O => None
  | S f =>
      match skip_ws t with
      | "n"%char :: "u"%char :: "l"%char :: "l"%char :: r => Some (Null, r)
      | "t"%char :: "r"%char :: "u"%char :: "e"%char :: r => Some (Bool true, r)
      | "f"%char :: "a"%char :: "l"%char :: "s"%char :: "e"%char :: r => Some (Bool false, r)
      | "034"%char :: r =>
          match parse_string ("034"%char :: r) with
          | Some (s, r') => Some (Str s, r')
          | None => None
          end
      | "["%char :: r =>
          match skip_ws r with
          | "]"%char :: r' => Some (Array [], r')
          | _ =>
              match parse_elements f r with
              | Some (vs, r') => Some (Array vs, r')
              | None => None
              end
          end
      | "{"%char :: r =>
          match skip_ws r with
          | "}"%char :: r' => Some (Object [], r')
          | _ =>
              match parse_members f r with
              | Some (ms, r') => Some (Object ms, r')
              | None => None
              end
          end
      | t' =>
          match parse_number t' with
          | Some (q, r) => Some (Number q, r)
          | None => None
          end
      end
  end

(** The elements of a non-empty array, up to and including the closing bracket. *)
with parse_elements (fuel : nat) (t : text) : option (list value * text) :=
  match fuel with
  | O => None
  | S f =>
      match parse_value f t with
      | Some (v, r) =>
          match skip_ws r with
          | ","%char :: r' =>
              match parse_elements f r' with
              | Some (vs, r'') => Some (v :: vs, r'')
              | None => None
              end
          | "]"%char :: r' => Some ([v], r')
          | _ => None
          end
      | None => None
      end
  end

(** The members of a non-empty object, up to and including the closing brace. *)
with parse_members (fuel : nat) (t : text) : option (list (string * value) * text) :=
  match fuel with
  | O => None
  | S f =>
      match parse_string (skip_ws t) with
      | Some (k, r) =>
          match skip_ws r with
          | ":"%char :: r1 =>
              match parse_value f r1 with
              | Some (v, r2) =>
                  match skip_ws r2 with
                  | ","%char :: r' =>
                      match parse_members f r' with
                      | Some (ms, r'') => Some ((k, v) :: ms, r'')
                      | None => None
                      end
                  | "}"%char :: r' => Some ([(k, v)], r')
                  | _ => None
                  end
              | None => None
              end
          | _ => None
          end
      | None => None
      end
  end.

(** [JSON.stringify(v)] and [JSON.parse(s)]; [None] is a [SyntaxError]. *)
Definition stringify (v : value) : string := string_of_list_ascii (print v).

Definition parse (s : string) : option value :=
  let t := list_ascii_of_string s in
  match parse_value (S (List.length t)) t with
  | Some (v, r) =>
      match skip_ws r with
      | [] => Some v
      | _ => None
      end
  | None => None
  end.

(** Property read [o[k]]: with a repeated name, the last member wins. *)
Fixpoint get (k : string) (members : list (string * value)) : option value :=
  match members with
  | [] => None
  | (k', v) :: rest =>
      match get k rest with
      | Some v' => Some v'
      | None => if String.eqb k' k then Some v else None
      end
  end.

End JSON.

(** ** What the reader returns for what the writer wrote *)

Module JSONShape.
Import JSON.

(** Every number of the value has a finite decimal expansion. *)
Fixpoint wf (v : value) : bool :=
  match v with
  | Number q => isDecimal q
  | Array items => forallb wf items
  | Object members => forallb (fun kv => wf (snd kv)) members
  | _ => true
  end.

(** The value with every number in lowest terms, as [parse] builds it. *)
Fixpoint norm (v : value) : value :=
  match v with
  | Number q => Number (Qred q)
  | Array items => Array (map norm items)
  | Object members => Object (map (fun kv => (fst kv, norm (snd kv))) members)
  | _ => v
  end.

(** Recursion depth of the reader on the text of a value. *)
Fixpoint need (v : value) : nat :=
  match v with
  | Array items => S (list_sum (map (fun x => S (need x)) items))
  | Object members => S (list_sum (map (fun kv => S (need (snd kv))) members))
  | _ => 1
  end.

Definition print_member (kv : string * value) : text :=
  quote (fst kv) ++ ":"%char :: print (snd kv).

(** First characters of a printed value. *)
Definition value_start (c : ascii) : bool :=
  match digit_value c with
  | Some _ => true
  | None =>
      Ascii.eqb c "-" || Ascii.eqb c "n" || Ascii.eqb c "t" || Ascii.eqb c "f"
      || Ascii.eqb c "034" || Ascii.eqb c "[" || Ascii.eqb c "{"
  end.

Definition number_start (c : ascii) : bool :=
  match digit_value c with
  | Some _ => true
  | None => Ascii.eqb c "-"
  end.

(** Text that does not go on with a digit. *)
Definition no_digit (t : text) : Prop :=
  match t with
  | c :: _ => digit_value c = None
  | [] => True
  end.

(** Text that cannot continue a number: no digit, point or exponent mark. *)
Definition number_end (t : text) : bool :=
  match t with
  | [] => true
  | c :: _ =>
      match digit_value c with
      | Some _ => false
      | None => negb (Ascii.eqb c "." || Ascii.eqb c "e" || Ascii.eqb c "E")
      end
  end.

Definition needs (vs : list value) : nat := list_sum (map (fun x => S (need x)) vs).

Definition needs_members (ms : list (string * value)) : nat :=
  list_sum (map (fun kv => S (need (snd kv))) ms).

(** The reader, given [f] levels of recursion, reads back what the writer
    wrote: a value, the elements of an array, the members of an object. *)
Definition reads_value (f : nat) : Prop :=
  forall v rest, (need v <= f)%nat -> wf v = true -> number_end rest = true ->
  parse_value f (print v ++ rest) = Some (norm v, rest).

Definition reads_elements (f : nat) : Prop :=
  forall v vs rest, (needs (v :: vs) <= f)%nat -> forallb wf (v :: vs) = true ->
  parse_elements f (join (map print (v :: vs)) ++ "]"%char :: rest)
  = Some (map norm (v :: vs), rest).

Definition reads_members (f : nat) : Prop :=
  forall kv ms rest, (needs_members (kv :: ms) <= f)%nat ->
  forallb (fun kv => wf (snd kv)) (kv :: ms) = true ->
  parse_members f (join (map print_member (kv :: ms)) ++ "}"%char :: rest)
  = Some (map (fun kv => (fst kv, norm (snd kv))) (kv :: ms), rest).

Ltac ascii_cases c :=
  destruct c as [[|] [|] [|] [|] [|] [|] [|] [|]].

Ltac digit_cases d H :=
  let E := fresh "E" in
  assert (E : (d = 0 \/ d = 1 \/ d = 2 \/ d = 3 \/ d = 4 \/ d = 5 \/ d = 6
               \/ d = 7 \/ d = 8 \/ d = 9)%N) by lia;
  clear H; repeat (destruct E as [E|E]); subst d.

End JSONShape.

(* ================================================================== *)
(** * [encodeURIComponent] and the body of a [data:] URL *)
(* ================================================================== *)

Module URI.

(** The characters [encodeURIComponent] leaves as they are. *)
Definition unreserved (c : ascii) : bool :=
  let n := N_of_ascii c in
  ((65 <=? n) && (n <=? 90) || (97 <=? n) && (n <=? 122)
   || (48 <=? n) && (n <=? 57))%N
  || existsb (Ascii.eqb c) (list_ascii_of_string "-_.!~*'()").

Definition HEX (d : N) : ascii :=
  if (d <? 10)%N then ascii_of_N (48 + d) else ascii_of_N (55 + d).

Definition escape (c : ascii) : list ascii :=
  if unreserved c then [c]
  else let n := N_of_ascii c in ["%"%char; HEX (n / 16); HEX (n mod 16)].

Definition encodeURIComponent (s : string) : string :=
  string_of_list_ascii (flat_map escape (list_ascii_of_string s)).

(** Percent-decoding, as applied to the body of a [data:] URL: a [%] that
    two hexadecimal digits do not follow stands for itself. *)
Fixpoint percent_decode (t : list ascii) : list ascii :=
  match t with
  | [] => []
  | c :: r =>
      if Ascii.eqb c "%" then
        match r with
        | h1 :: h2 :: r' =>
            match JSON.hex_value h1, JSON.hex_value h2 with
            | Some a, Some b => ascii_of_N (a * 16 + b) :: percent_decode r'
            | _, _ => c :: percent_decode r
            end
        | _ => c :: percent_decode r
        end
      else c :: percent_decode r
  end.

Fixpoint after_comma (t : list ascii) : option (list ascii) :=
  match t with
  | [] => None
  | c :: r => if Ascii.eqb c "," then Some r else after_comma r
  end.

(** The content of the file a browser saves for a [data:] URL: what
    follows the first comma, percent-decoded. *)
Definition dataUrlBody (href : string) : option string :=
  if String.prefix "data:" href then
    match after_comma (list_ascii_of_string href) with
    | Some body => Some (string_of_list_ascii (percent_decode body))
    | None => None
    end
  else None.

End URI.

(* ================================================================== *)
(** * services/geminiService.ts: the AI import adapter *)
(* ================================================================== *)

(** One record of the parsed response ([rawData]).  The response schema
    makes every field required; [item.rotation] is kept optional because
    the adapter itself provides for its absence ([item.rotation || 0]). *)
Record RawItem := {
  partId : string;
  item_x : Q;
  item_y : Q;
  item_z : Q;
  item_rotation : option Z;
  colorId : string
}.

(** What the remote collaborator delivered: no credential ([getClient]
    returns [null]), a fault caught by the [try] (transport error, or a
    response text that is not a JSON array), or the parsed array. *)
Inductive RemoteOutcome :=
| ApiKeyMissing
| GeminiBuildError
| ResponseJSON (rawData : list RawItem).

Section WithUuid.

(** [uuidv4]: the identifier returned by the n-th call of a session. *)
Variable uuidv4 : nat -> string.

(** The body of [rawData.map((item: any) => ...)]. *)
Definition convertItem (id : string) (item : RawItem) : PlacedBrick :=
  (* Validate Color *)
  let color := JS.or_string (option_map bc_hex (findColor (colorId item))) (bc_hex COLORS_0) in
  (* Validate Part *)
  let part := match findType (partId item) with Some p => p | None => BRICK_CATALOG_0 end in
  {| pb_id := id;
     pb_typeId := bt_id part;
     pb_position := (item_x item, item_y item, item_z item);
     pb_rotation := JS.or_zero (item_rotation item);
     pb_color := color |}.

(** [rawData.map] with the identifier counter threaded through. *)
Fixpoint convertItems (calls : nat) (rawData : list RawItem) : list PlacedBrick :=
  match rawData with
  | [] => []
  | item :: rest => convertItem (uuidv4 calls) item :: convertItems (S calls) rest
  end.

(** [generateBuildFromPrompt]: [None] is the [null] result. *)
Definition generateBuildFromPrompt (calls : nat) (r : RemoteOutcome)
    : option (list PlacedBrick) :=
  match r with
  | ApiKeyMissing => None
  | GeminiBuildError => None
  | ResponseJSON rawData => Some (convertItems calls rawData)
  end.

(* ================================================================== *)
(** * App.tsx: application state and the history manager *)
(* ================================================================== *)

(** What a callback that runs later holds on to: the [bricks], [history]
    and [historyIndex] of the render in which it was created.  A call of
    [handleAiBuild] suspended at its [await] and the [onload] callback of a
    file read are closures of that render, and so is the [addToHistory]
    they call: they read these values whatever the cells hold by then. *)
Record Closure := {
  closure_bricks : list PlacedBrick;
  closure_history : list (list PlacedBrick);
  closure_historyIndex : Z
}.

(** The [useState] cells of [App] the handlers below read or write, the
    [hovered] cell of [SceneContent], the number of identifiers drawn so
    far, the suspended call of [handleAiBuild] if there is one
    ([isAiLoading] is [true] exactly then), and the file reads under
    way. *)
Record AppState := {
  bricks : list PlacedBrick;
  selectedTypeId : string;
  selectedColorId : string;
  tool : ToolMode;
  rotation : Z;
  hoverPos : Q * Q * Q;
  isSimulating : bool;
  history : list (list PlacedBrick);
  historyIndex : Z;
  hovered : bool;
  uuidCalls : nat;
  aiRequest : option Closure;
  fileReads : list Closure
}.

Definition initialState : AppState :=
  {| bricks := [];
     selectedTypeId := bt_id BRICK_CATALOG_0;
     selectedColorId := "red";
     tool := place;
     rotation := 0;
     hoverPos := (0, 0, 0);
     isSimulating := false;
     history := [];
     historyIndex := -1;
     hovered := false;
     uuidCalls := 0;
     aiRequest := None;
     fileReads := [] |}.

(** The three writes of [addToHistory], [undo] and [redo]. *)
Definition setHistoryState (s : AppState) (h : list (list PlacedBrick))
    (i : Z) (b : list PlacedBrick) : AppState :=
  {| bricks := b; selectedTypeId := selectedTypeId s;
     selectedColorId := selectedColorId s; tool := tool s;
     rotation := rotation s; hoverPos := hoverPos s;
     isSimulating := isSimulating s; history := h; historyIndex := i;
     hovered := hovered s; uuidCalls := uuidCalls s;
     aiRequest := aiRequest s; fileReads := fileReads s |}.

Definition setUuidCalls (s : AppState) (n : nat) : AppState :=
  {| bricks := bricks s; selectedTypeId := selectedTypeId s;
     selectedColorId := selectedColorId s; tool := tool s;
     rotation := rotation s; hoverPos := hoverPos s;
     isSimulating := isSimulating s; history := history s;
     historyIndex := historyIndex s; hovered := hovered s; uuidCalls := n;
     aiRequest := aiRequest s; fileReads := fileReads s |}.

Definition setRotation (s : AppState) (r : Z) : AppState :=
  {| bricks := bricks s; selectedTypeId := selectedTypeId s;
     selectedColorId := selectedColorId s; tool := tool s;
     rotation := r; hoverPos := hoverPos s;
     isSimulating := isSimulating s; history := history s;
     historyIndex := historyIndex s; hovered := hovered s;
     uuidCalls := uuidCalls s; aiRequest := aiRequest s;
     fileReads := fileReads s |}.

Definition setHover (s : AppState) (p : Q * Q * Q) (h : bool) : AppState :=
  {| bricks := bricks s; selectedTypeId := selectedTypeId s;
     selectedColorId := selectedColorId s; tool := tool s;
     rotation := rotation s; hoverPos := p;
     isSimulating := isSimulating s; history := history s;
     historyIndex := historyIndex s; hovered := h;
     uuidCalls := uuidCalls s; aiRequest := aiRequest s;
     fileReads := fileReads s |}.

Definition setSelection (s : AppState) (ty col : string) (t : ToolMode)
    (sim : bool) : AppState :=
  {| bricks := bricks s; selectedTypeId := ty;
     selectedColorId := col; tool := t;
     rotation := rotation s; hoverPos := hoverPos s;
     isSimulating := sim; history := history s;
     historyIndex := historyIndex s; hovered := hovered s;
     uuidCalls := uuidCalls s; aiRequest := aiRequest s;
     fileReads := fileReads s |}.

(** The suspended call: set by [handleAiBuild] when it reaches its
    [await], cleared when it resumes. *)
Definition setAiRequest (s : AppState) (c : option Closure) : AppState :=
  {| bricks := bricks s; selectedTypeId := selectedTypeId s;
     selectedColorId := selectedColorId s; tool := tool s;
     rotation := rotation s; hoverPos := hoverPos s;
     isSimulating := isSimulating s; history := history s;
     historyIndex := historyIndex s; hovered := hovered s;
     uuidCalls := uuidCalls s; aiRequest := c; fileReads := fileReads s |}.

(** The file reads under way: one more when [importFromFile] starts a
    read, one less when its [onload] has run. *)
Definition setFileReads (s : AppState) (reads : list Closure) : AppState :=
  {| bricks := bricks s; selectedTypeId := selectedTypeId s;
     selectedColorId := selectedColorId s; tool := tool s;
     rotation := rotation s; hoverPos := hoverPos s;
     isSimulating := isSimulating s; history := history s;
     historyIndex := historyIndex s; hovered := hovered s;
     uuidCalls := uuidCalls s; aiRequest := aiRequest s; fileReads := reads |}.

(** The closure of a callback created in state [s]. *)
Definition closureOf (s : AppState) : Closure :=
  {| closure_bricks := bricks s;
     closure_history := history s;
     closure_historyIndex := historyIndex s |}.

Definition addToHistory (newBricks : list PlacedBrick) (s : AppState) : AppState :=
  let newHistory := JS.slice0 (history s) (historyIndex s + 1) ++ [newBricks] in
  setHistoryState s newHistory (Z.of_nat (List.length newHistory) - 1) newBricks.

(** [addToHistory] as a callback with the closure [c] executes it: the
    history and the index read are those of the closure. *)
Definition addToHistory_in (c : Closure) (newBricks : list PlacedBrick)
    (s : AppState) : AppState :=
  let newHistory :=
    JS.slice0 (closure_history c) (closure_historyIndex c + 1) ++ [newBricks] in
  setHistoryState s newHistory (Z.of_nat (List.length newHistory) - 1) newBricks.

(** [undo] and [redo].  The result is [None] when the snapshot read,
    [history[i]], is [undefined]: [bricks] would then hold no array. *)
Definition undo (s : AppState) : option AppState :=
  if (historyIndex s >? 0)%Z then
    match JS.index (history s) (historyIndex s - 1) with
    | Some snapshot => Some (setHistoryState s (history s) (historyIndex s - 1) snapshot)
    | None => None
    end
  else if (historyIndex s =? 0)%Z then
    Some (setHistoryState s (history s) (-1) [])
  else Some s.

Definition redo (s : AppState) : option AppState :=
  if (historyIndex s <? Z.of_nat (List.length (history s)) - 1)%Z then
    match JS.index (history s) (historyIndex s + 1) with
    | Some snapshot => Some (setHistoryState s (history s) (historyIndex s + 1) snapshot)
    | None => None
    end
  else Some s.

Definition handlePlaceBrick (s : AppState) : AppState :=
  let colorHex := JS.or_string (option_map bc_hex (findColor (selectedColorId s))) "#fff" in
  let newBrick :=
    {| pb_id := uuidv4 (uuidCalls s);
       pb_typeId := selectedTypeId s;
       pb_position := hoverPos s;
       pb_rotation := rotation s;
       pb_color := colorHex |} in
  addToHistory (bricks s ++ [newBrick]) (setUuidCalls s (S (uuidCalls s))).

(** [{ ...b, color: colorHex }]. *)
Definition withColor (b : PlacedBrick) (colorHex : string) : PlacedBrick :=
  {| pb_id := pb_id b; pb_typeId := pb_typeId b; pb_position := pb_position b;
     pb_rotation := pb_rotation b; pb_color := colorHex |}.

Definition handleBrickClick (brickId : string) (s : AppState) : AppState :=
  match tool s with
  | delete =>
      let newBricks := filter (fun b => negb (String.eqb (pb_id b) brickId)) (bricks s) in
      addToHistory newBricks s
  | paint =>
      let colorHex := JS.or_string (option_map bc_hex (findColor (selectedColorId s))) "#fff" in
      let newBricks :=
        map (fun b => if String.eqb (pb_id b) brickId then withColor b colorHex else b)
            (bricks s) in
      addToHistory newBricks s
  | _ => s
  end.

(** [handleAiBuild] is an [async] function.  Its first half runs in the
    click on "Generate Build": with a prompt it sets [isAiLoading] and
    suspends at the [await], closed over the render of the click. *)
Definition handleAiBuild_await (aiPrompt : string) (s : AppState) : AppState :=
  match aiPrompt with
  | EmptyString => s
  | String _ _ =>
      setAiRequest s (Some (closureOf s))
  end.

(** Its second half runs when the remote collaborator has delivered [r],
    in whatever state the session is by then: [isAiLoading] is cleared and,
    unless the result is [null], [addToHistory([...bricks,
    ...generatedBricks])] is executed with the [bricks], [history] and
    [historyIndex] of the closure.  The identifiers are drawn when the
    response is converted. *)
Definition handleAiBuild_resume (r : RemoteOutcome) (s : AppState) : AppState :=
  match aiRequest s with
  | None => s
  | Some c =>
      match generateBuildFromPrompt (uuidCalls s) r with
      | Some generatedBricks =>
          addToHistory_in c (closure_bricks c ++ generatedBricks)
            (setUuidCalls (setAiRequest s None)
               (uuidCalls s + List.length generatedBricks))
      | None => setAiRequest s None
      end
  end.

(** [handleAiBuild] when nothing happens between the click and the
    response: the closure holds the cells as they are.  [aiPrompt] is the
    text of the prompt box and [r] what the remote collaborator delivers
    for it. *)
Definition handleAiBuild (aiPrompt : string) (r : RemoteOutcome) (s : AppState)
    : AppState :=
  match aiPrompt with
  | EmptyString => s
  | String _ _ =>
      match generateBuildFromPrompt (uuidCalls s) r with
      | Some generatedBricks =>
          addToHistory (bricks s ++ generatedBricks)
            (setUuidCalls s (uuidCalls s + List.length generatedBricks))
      | None => s
      end
  end.

Definition rotateBrick (s : AppState) : AppState :=
  setRotation s (JS.rem (rotation s + 1) 4).

(** [clearScene]: [confirmed] is the answer to the [confirm] dialog. *)
Definition clearScene (confirmed : bool) (s : AppState) : AppState :=
  if confirmed then addToHistory [] s else s.

(** The handlers of [SceneContent] in edit mode, acting on the state. *)
Definition onPointerMove (e : PointerEvent) (s : AppState) : AppState :=
  match handlePointerMove (isSimulating s) (selectedTypeId s) (rotation s) e with
  | Some p => setHover s p true
  | None => s
  end.

Definition handlePointerOut (s : AppState) : AppState :=
  setHover s (hoverPos s) false.

Definition handleClick (e : PointerEvent) (s : AppState) : AppState :=
  if isSimulating s then s else
  match tool s, hovered s with
  | place, true => handlePlaceBrick s
  | _, _ =>
      match e_brickId e with
      | Some (String c id' as brickId) =>
          match tool s with
          | delete | paint => handleBrickClick brickId s
          | _ => s
          end
      | _ => s
      end
  end.

(* ================================================================== *)
(** * App.tsx: export and import *)
(* ================================================================== *)

(** A brick as [JSON.stringify] sees it: an object whose properties are in
    creation order ([handlePlaceBrick], [convertItem]). *)
Definition brickToJSON (b : PlacedBrick) : JSON.value :=
  let '(x, y, z) := pb_position b in
  JSON.Object [
    ("id", JSON.Str (pb_id b));
    ("typeId", JSON.Str (pb_typeId b));
    ("position", JSON.Array [JSON.Number x; JSON.Number y; JSON.Number z]);
    ("rotation", JSON.Number (inject_Z (pb_rotation b)));
    ("color", JSON.Str (pb_color b))
  ].

Definition bricksToJSON (bs : list PlacedBrick) : JSON.value :=
  JSON.Array (map brickToJSON bs).

(** A parsed value read at the type [PlacedBrick[]] the handlers give it:
    the five properties the program reads, whatever their order.  [None]
    when the value has another shape. *)
Definition asInteger (q : Q) : option Z :=
  if Qeq_bool q (inject_Z (Qfloor q)) then Some (Qfloor q) else None.

Definition asPlacedBrick (v : JSON.value) : option PlacedBrick :=
  match v with
  | JSON.Object ms =>
      match JSON.get "id" ms, JSON.get "typeId" ms, JSON.get "position" ms,
            JSON.get "rotation" ms, JSON.get "color" ms with
      | Some (JSON.Str i), Some (JSON.Str ty),
        Some (JSON.Array [JSON.Number x; JSON.Number y; JSON.Number z]),
        Some (JSON.Number r), Some (JSON.Str c) =>
          match asInteger r with
          | Some rot =>
              Some {| pb_id := i; pb_typeId := ty; pb_position := (x, y, z);
                      pb_rotation := rot; pb_color := c |}
          | None => None
          end
      | _, _, _, _, _ => None
      end
  | _ => None
  end.

Fixpoint asBrickList (vs : list JSON.value) : option (list PlacedBrick) :=
  match vs with
  | [] => Some []
  | v :: rest =>
      match asPlacedBrick v, asBrickList rest with
      | Some b, Some bs => Some (b :: bs)
      | _, _ => None
      end
  end.

Definition asPlacedBricks (v : JSON.value) : option (list PlacedBrick) :=
  match v with
  | JSON.Array vs => asBrickList vs
  | _ => None
  end.

(** [exportToFile]: the [href] of the download anchor. *)
Definition exportToFile (s : AppState) : string :=
  ("data:text/json;charset=utf-8,"
   ++ URI.encodeURIComponent (JSON.stringify (bricksToJSON (bricks s))))%string.

(** [addToHistory(loadedBricks)] checks nothing: when the parsed value is
    no array of brick records it is written to the cells all the same.
    [UntypedCells] are the three cells [addToHistory] writes, holding
    values as they were parsed; the other cells are left as they are.  The
    handlers are typed at [PlacedBrick[]], and the sessions of this
    development do not follow the program beyond such a load. *)
Record UntypedCells := {
  untyped_bricks : JSON.value;
  untyped_history : list JSON.value;
  untyped_historyIndex : Z
}.

Definition addToHistory_untyped (c : Closure) (loaded : JSON.value) : UntypedCells :=
  let newHistory :=
    map bricksToJSON (JS.slice0 (closure_history c) (closure_historyIndex c + 1))
    ++ [loaded] in
  {| untyped_bricks := loaded;
     untyped_history := newHistory;
     untyped_historyIndex := Z.of_nat (List.length newHistory) - 1 |}.

(** The outcomes of [importFromFile] on the chosen file. *)
Inductive FileImport :=
| NoFileSelected                  (* [if (!file) return] *)
| InvalidFileFormat               (* [JSON.parse] threw: alert, state kept *)
| Loaded (s : AppState)           (* [addToHistory(loadedBricks)] *)
| Untyped (written : UntypedCells).
                                  (* [addToHistory] of a value that is no
                                     array of brick records *)

(** [importFromFile] when nothing happens between the choice of the file
    and the end of its read: [file] is the text of the file chosen, if
    any. *)
Definition importFromFile (file : option string) (s : AppState) : FileImport :=
  match file with
  | None => NoFileSelected
  | Some content =>
      match JSON.parse content with
      | None => InvalidFileFormat
      | Some loaded =>
          match asPlacedBricks loaded with
          | Some loadedBricks => Loaded (addToHistory loadedBricks s)
          | None => Untyped (addToHistory_untyped (closureOf s) loaded)
          end
      end
  end.

(** [arr] without its element at [i]. *)
Definition removeAt {A} (i : nat) (arr : list A) : list A :=
  firstn i arr ++ skipn (S i) arr.

(** The read of a file is asynchronous.  The first half of
    [importFromFile] runs in the change event of the file input: with a
    file chosen it registers [reader.onload], closed over the render of
    the event, and starts the read. *)
Definition importFromFile_read (chosen : bool) (s : AppState) : AppState :=
  if chosen then setFileReads s (fileReads s ++ [closureOf s]) else s.

(** [reader.onload] of the read number [i] among those under way, when
    the text [content] of its file is there, in whatever state the session
    is by then: [addToHistory(loadedBricks)] is executed with the
    [history] and [historyIndex] of the closure.  [NoFileSelected] stands
    for no such read. *)
Definition importFromFile_onload (i : nat) (content : string) (s : AppState)
    : FileImport :=
  match nth_error (fileReads s) i with
  | None => NoFileSelected
  | Some c =>
      match JSON.parse content with
      | None => InvalidFileFormat
      | Some loaded =>
          match asPlacedBricks loaded with
          | Some loadedBricks =>
              Loaded (addToHistory_in c loadedBricks
                        (setFileReads s (removeAt i (fileReads s))))
          | None => Untyped (addToHistory_untyped c loaded)
          end
      end
  end.


(* ================================================================== *)
(** * Sessions *)
(* ================================================================== *)

(** One interaction: a pointer event on the scene, a button of the
    toolbars, a catalogue or colour choice; for an AI request either the
    whole of it ([step_aiBuild], nothing happening in between) or its two
    halves with other interactions in between ([step_aiAwait], for which
    the button is enabled only while no request is pending, and
    [step_aiResume]); for a file import likewise the whole of it
    ([step_import]) or the start of the read and the run of its [onload],
    which loads the build ([step_importLoad]) or alerts
    ([step_importAlert]). *)
Inductive step : AppState -> AppState -> Prop :=
| step_pointerMove e s : step s (onPointerMove e s)
| step_pointerOut s : step s (handlePointerOut s)
| step_click e s : step s (handleClick e s)
| step_undo s s' : undo s = Some s' -> step s s'
| step_redo s s' : redo s = Some s' -> step s s'
| step_rotate s : step s (rotateBrick s)
| step_clear confirmed s : step s (clearScene confirmed s)
| step_aiBuild aiPrompt r s : step s (handleAiBuild aiPrompt r s)
| step_aiAwait aiPrompt s :
    aiRequest s = None -> step s (handleAiBuild_await aiPrompt s)
| step_aiResume r s : step s (handleAiBuild_resume r s)
| step_import content s s' :
    importFromFile (Some content) s = Loaded s' -> step s s'
| step_importRead s : step s (importFromFile_read true s)
| step_importLoad i content s s' :
    importFromFile_onload i content s = Loaded s' -> step s s'
| step_importAlert i content s :
    importFromFile_onload i content s = InvalidFileFormat ->
    step s (setFileReads s (removeAt i (fileReads s)))
| step_selectType t s :
    In t BRICK_CATALOG ->
    step s (setSelection s (bt_id t) (selectedColorId s) place (isSimulating s))
| step_selectColor c s :
    In c COLORS ->
    step s (setSelection s (selectedTypeId s) (bc_id c) (tool s) (isSimulating s))
| step_setTool t s :
    step s (setSelection s (selectedTypeId s) (selectedColorId s) t (isSimulating s))
| step_simulate s :
    step s (setSelection s (selectedTypeId s) (selectedColorId s) (tool s)
              (negb (isSimulating s))).

Inductive reachable : AppState -> Prop :=
| reachable_initial : reachable initialState
| reachable_step s s' : reachable s -> step s s' -> reachable s'.

End WithUuid.

(** The history record is within its bounds: index in [-1, length - 1]. *)
Definition history_ok (s : AppState) : Prop :=
  (-1 <= historyIndex s < Z.of_nat (List.length (history s)))%Z.

(** The build shown is the snapshot at the index, the empty build at -1. *)
Definition snapshot_ok (s : AppState) : Prop :=
  if (historyIndex s =? -1)%Z then bricks s = []
  else JS.index (history s) (historyIndex s) = Some (bricks s).

(** Both conditions on the history record. *)
Definition state_ok (s : AppState) : Prop := history_ok s /\ snapshot_ok s.

(** The cells a suspended call holds met both conditions when the call
    was made. *)
Definition closure_ok (c : Closure) : Prop :=
  (-1 <= closure_historyIndex c < Z.of_nat (List.length (closure_history c)))%Z
  /\ (if (closure_historyIndex c =? -1)%Z then closure_bricks c = []
      else JS.index (closure_history c) (closure_historyIndex c)
           = Some (closure_bricks c)).

(** The closures of the callbacks yet to run: the suspended AI call and
    the file reads under way. *)
Definition suspended (s : AppState) : list Closure :=
  match aiRequest s with
  | Some c => c :: fileReads s
  | None => fileReads s
  end.

Definition request_ok (s : AppState) : Prop := Forall closure_ok (suspended s).

(** No callback is yet to run, or the cells each of them holds are still
    those of the state: nothing was committed, undone or redone since it
    was created. *)
Definition upToDate (s : AppState) : Prop :=
  Forall (fun c => c = closureOf s) (suspended s).

(** Fractional part. *)
Definition frac (q : Q) : Q := q - inject_Z (Qfloor q).

(** Footprint after rotation: odd quarter turns swap width and depth. *)
Definition effectiveWidth (t : BrickTypeDefinition) (rotation : Z) : Z :=
  if Z.odd rotation then bt_depth t else bt_width t.

Definition effectiveDepth (t : BrickTypeDefinition) (rotation : Z) : Z :=
  if Z.odd rotation then bt_width t else bt_depth t.

(** The rotation invariant of [PlacedBrick]. *)
Definition validRotation (r : Z) : bool := ((0 <=? r) && (r <=? 3))%Z.

Definition validBrick (b : PlacedBrick) : bool := validRotation (pb_rotation b).





(** The coordinates are numbers a program can hold: finite decimals. *)
Definition decimalBrick (b : PlacedBrick) : bool :=
  let '(x, y, z) := pb_position b in
  JSON.isDecimal x && JSON.isDecimal y && JSON.isDecimal z.

(** Field for field the same brick; coordinates compared as numbers. *)
Definition sameBrick (a b : PlacedBrick) : Prop :=
  pb_id a = pb_id b /\ pb_typeId a = pb_typeId b
  /\ (let '(x, y, z) := pb_position a in
      let '(x', y', z') := pb_position b in
      x == x' /\ y == y' /\ z == z')
  /\ pb_rotation a = pb_rotation b /\ pb_color a = pb_color b.

(** The brick with its coordinates in lowest terms. *)
Definition normBrick (b : PlacedBrick) : PlacedBrick :=
  let '(x, y, z) := pb_position b in
  {| pb_id := pb_id b; pb_typeId := pb_typeId b;
     pb_position := (Qred x, Qred y, Qred z);
     pb_rotation := pb_rotation b; pb_color := pb_color b |}.

(* ================================================================== *)
(** * components/BrickGeometry.tsx *)
(* ================================================================== *)

(** The values [0, 1, ..., n - 1] of [for (let i = 0; i < n; i++)]. *)
Definition loop (n : Z) : list Z := map Z.of_nat (seq 0 (Z.to_nat n)).

(** [(i - (n - 1) / 2) * STUD_SIZE]: the centre of cell [i] of [n]. *)
Definition centred (i n : Z) : Q :=
  (inject_Z i - (inject_Z n - 1) / 2) * STUD_SIZE.

Record StudPosition := { stud_x : Q; stud_z : Q }.

(** [studs]: one position per cell of the footprint, [i] outermost. *)
Definition studs (type : BrickTypeDefinition) : list StudPosition :=
  if negb (bt_hasStuds type) then []
  else
    flat_map (fun i =>
      map (fun j => {| stud_x := centred i (bt_width type);
                       stud_z := centred j (bt_depth type) |})
          (loop (bt_depth type)))
      (loop (bt_width type)).

(** Truth of the optional [hasHoles]. *)
Definition truthy (b : option bool) : bool :=
  match b with
  | Some true => true
  | _ => false
  end.

Record HolePosition := { hole_x : Q; hole_z : Q }.

(** [holes]: along the depth axis, for beams one stud wide only. *)
Definition holes (type : BrickTypeDefinition) : list HolePosition :=
  if negb (truthy (bt_hasHoles type)) then []
  else if (bt_width type =? 1)%Z then
    map (fun j => {| hole_x := 0; hole_z := centred j (bt_depth type) |})
        (loop (bt_depth type))
  else [].

Inductive Geometry :=
| boxGeometry (width height depth : Q)
| cylinderGeometry (radiusTop radiusBottom height : Q).

(** A mesh of the group: its position in the group, whether it is turned
    a quarter about Z (the holes), and its geometry. *)
Record Mesh := {
  mesh_position : Q * Q * Q;
  mesh_turnedZ : bool;
  mesh_geometry : Geometry
}.

(** The group [BrickGeometry] returns: main body, studs, holes and the
    inner box of technic parts.  Its origin is bottom-centre. *)
Definition BrickGeometry (type : BrickTypeDefinition) : list Mesh :=
  let w := inject_Z (bt_width type) * STUD_SIZE in
  let d := inject_Z (bt_depth type) * STUD_SIZE in
  let h := bt_height type * BRICK_HEIGHT in
  [ {| mesh_position := (0, h / 2, 0); mesh_turnedZ := false;
       mesh_geometry := boxGeometry (w - 0.05) h (d - 0.05) |} ]
  ++ (if bt_hasStuds type then
        map (fun pos =>
               {| mesh_position := (stud_x pos, h + 0.1, stud_z pos);
                  mesh_turnedZ := false;
                  mesh_geometry := cylinderGeometry 0.3 0.3 0.2 |})
            (studs type)
      else [])
  ++ (if truthy (bt_hasHoles type) then
        map (fun pos =>
               {| mesh_position := (hole_x pos, h / 2, hole_z pos);
                  mesh_turnedZ := true;
                  mesh_geometry := cylinderGeometry 0.25 0.25 (w + 0.05) |})
            (holes type)
      else [])
  ++ (if truthy (bt_hasHoles type) then
        [ {| mesh_position := (0, h / 2, 0); mesh_turnedZ := false;
             mesh_geometry := boxGeometry (w - 0.1) (h - 0.2) (d - 0.1) |} ]
      else []).

(* ================================================================== *)
(** * App.tsx: what the scene shows *)
(* ================================================================== *)



(** The size along the world axes of a box of size [(a, h, b)] turned by
    [k] quarter turns about Y. *)
Definition turnedExtent (k : Z) (size : Q * Q * Q) : Q * Q * Q :=
  let '(a, h, b) := size in
  if Z.odd k then (b, h, a) else size.

(** Static bricks of edit mode: a brick whose type is not in the
    catalogue gives [null], the others a group with their geometry. *)
Definition renderedBricks (bs : list PlacedBrick)
    : list (PlacedBrick * BrickTypeDefinition) :=
  flat_map (fun brick =>
    match findType (pb_typeId brick) with
    | Some def => [(brick, def)]
    | None => []
    end) bs.

(** [PhysicsBrick] returns [null] after [useBox] has made the body. *)
Definition PhysicsBrick_rendered (brick : PlacedBrick) : bool :=
  match findType (pb_typeId brick) with
  | Some _ => true
  | None => false
  end.

(** [PhysicsFloor]: the height of the static plane. *)
Definition PhysicsFloor_y : Q := -0.01.

(** The ghost of [SceneContent]: shown with the place tool, a selected
    type of the catalogue and the pointer over the scene. *)
Record Ghost := {
  ghost_type : BrickTypeDefinition;
  ghost_position : Q * Q * Q;
  ghost_rotation : Z;
  ghost_color : string
}.

Definition ghost (s : AppState) : option Ghost :=
  match tool s, findType (selectedTypeId s) with
  | place, Some selectedBrickDef =>
      if hovered s then
        Some {| ghost_type := selectedBrickDef;
                ghost_position := hoverPos s;
                ghost_rotation := rotation s;
                ghost_color :=
                  JS.or_string (option_map bc_hex (findColor (selectedColorId s)))
                               "#ffffff" |}
      else None
  | _, _ => None
  end.

(** [filteredCatalog]. *)
Inductive FilterCategory := filter_all | filter_basic | filter_technic.

Definition filteredCatalog (filterCategory : FilterCategory)
    : list BrickTypeDefinition :=
  match filterCategory with
  | filter_all => BRICK_CATALOG
  | filter_basic =>
      filter (fun b => match bt_category b with
                       | basic | plate | slope => true
                       | technic => false
                       end) BRICK_CATALOG
  | filter_technic =>
      filter (fun b => match bt_category b with
                       | technic => true
                       | _ => false
                       end) BRICK_CATALOG
  end.

(* ================================================================== *)
(** * App.tsx: quick save *)
(* ================================================================== *)

(** [saveToLocalStorage]: the text stored under the save key. *)
Definition saveToLocalStorage (s : AppState) : string :=
  JSON.stringify (bricksToJSON (bricks s)).

(** The outcomes of [loadFromLocalStorage] on the stored item. *)
Inductive StorageLoad :=
| NothingSaved                        (* [if (saved)] fails *)
| FailedToLoad                        (* [JSON.parse] threw: logged, state kept *)
| Restored (s : AppState)             (* [addToHistory(loadedBricks)] *)
| RestoredUntyped (written : UntypedCells).

Definition loadFromLocalStorage (saved : option string) (s : AppState) : StorageLoad :=
  match saved with
  | None | Some EmptyString => NothingSaved
  | Some content =>
      match JSON.parse content with
      | None => FailedToLoad
      | Some loaded =>
          match asPlacedBricks loaded with
          | Some loadedBricks => Restored (addToHistory loadedBricks s)
          | None => RestoredUntyped (addToHistory_untyped (closureOf s) loaded)
          end
      end
  end.

(* ================================================================== *)
(** * Sessions without file import *)
(* ================================================================== *)

Section HandSessions.

Variable uuidv4 : nat -> string.

(** The interactions of [step] but the import of a file and the quick
    load, which bring identifiers from outside. *)
Inductive ownStep : AppState -> AppState -> Prop :=
| own_pointerMove e s : ownStep s (onPointerMove e s)
| own_pointerOut s : ownStep s (handlePointerOut s)
| own_click e s : ownStep s (handleClick uuidv4 e s)
| own_undo s s' : undo s = Some s' -> ownStep s s'
| own_redo s s' : redo s = Some s' -> ownStep s s'
| own_rotate s : ownStep s (rotateBrick s)
| own_clear confirmed s : ownStep s (clearScene confirmed s)
| own_aiBuild aiPrompt r s : ownStep s (handleAiBuild uuidv4 aiPrompt r s)
| own_aiAwait aiPrompt s :
    aiRequest s = None -> ownStep s (handleAiBuild_await aiPrompt s)
| own_aiResume r s : ownStep s (handleAiBuild_resume uuidv4 r s)
| own_selectType t s :
    In t BRICK_CATALOG ->
    ownStep s (setSelection s (bt_id t) (selectedColorId s) place (isSimulating s))
| own_selectColor c s :
    In c COLORS ->
    ownStep s (setSelection s (selectedTypeId s) (bc_id c) (tool s) (isSimulating s))
| own_setTool t s :
    ownStep s (setSelection s (selectedTypeId s) (selectedColorId s) t (isSimulating s))
| own_simulate s :
    ownStep s (setSelection s (selectedTypeId s) (selectedColorId s) (tool s)
                 (negb (isSimulating s))).

Inductive ownReachable : AppState -> Prop :=
| own_initial : ownReachable initialState
| own_step s s' : ownReachable s -> ownStep s s' -> ownReachable s'.

(** The whole session: the interactions of [step] and the quick load. *)
Inductive sessionStep : AppState -> AppState -> Prop :=
| session_interaction s s' : step uuidv4 s s' -> sessionStep s s'
| session_quickLoad saved s s' :
    loadFromLocalStorage saved s = Restored s' -> sessionStep s s'.

Inductive session : AppState -> Prop :=
| session_initial : session initialState
| session_next s s' : session s -> sessionStep s s' -> session s'.

(** Every identifier of the build was drawn from the generator, and no
    two bricks of the build share one. *)
Definition ownIds (calls : nat) (bs : list PlacedBrick) : Prop :=
  NoDup (map pb_id bs)
  /\ forall b, In b bs -> exists k, (k < calls)%nat /\ pb_id b = uuidv4 k.

Definition ownState (s : AppState) : Prop :=
  ownIds (uuidCalls s) (bricks s)
  /\ Forall (ownIds (uuidCalls s)) (history s).

(** The same of the build and the snapshots a suspended call holds. *)
Definition ownRequest (s : AppState) : Prop :=
  match aiRequest s with
  | Some c =>
      ownIds (uuidCalls s) (closure_bricks c)
      /\ Forall (ownIds (uuidCalls s)) (closure_history c)
  | None => True
  end.

End HandSessions.

(** What an interaction does to the snapshot list: nothing, or the
    truncation and the append of a committed edit. *)
Definition edited (s s' : AppState) : Prop :=
  history s' = history s
  \/ exists nb,
       history s' = firstn (Z.to_nat (historyIndex s + 1)) (history s) ++ [nb]
       /\ historyIndex s' = (historyIndex s + 1)%Z.




(** [undo] pressed [n] times; [None] as soon as one press fails. *)
Fixpoint undoTimes (n : nat) (s : AppState) : option AppState :=
  match n with
  | O => Some s
  | S n' =>
      match undo s with
      | Some s' => undoTimes n' s'
      | None => None
      end
  end.

(** [rotateBrick] pressed [n] times. *)
Fixpoint rotateTimes (n : nat) (s : AppState) : AppState :=
  match n with
  | O => s
  | S n' => rotateTimes n' (rotateBrick s)
  end.

(* ================================================================== *)
(** * Sample inputs *)
(* ================================================================== *)

(** A build with a part of odd footprint (1x1, on integer grid lines) and
    one of even footprint (2x4 rotated, on half grid lines), two plates up. *)
Definition twoParityBuild : list PlacedBrick := [
  {| pb_id := "a1"; pb_typeId := "brick_1x1"; pb_position := (3, 0, -2);
     pb_rotation := 0; pb_color := "#ef4444" |};
  {| pb_id := "b2"; pb_typeId := "brick_2x4"; pb_position := (2.5, 0.8, -1.5);
     pb_rotation := 1; pb_color := "#3b82f6" |}
].

Definition twoParityState : AppState :=
  setHistoryState initialState [twoParityBuild] 0 twoParityBuild.

(** The generator that numbers its identifiers. *)
Definition uuidSample (n : nat) : string :=
  ("id-" ++ JSON.stringify (JSON.Number (inject_Z (Z.of_nat n))))%string.

(** A pointer on bare ground at world (2.3, 0, -1.4), normal (0, 1, 0). *)
Definition groundPointer : PointerEvent :=
  {| e_point := {| v_x := 2.3; v_y := 0; v_z := -1.4 |};
     e_normal := {| v_x := 0; v_y := 1; v_z := 0 |};
     e_brickId := None |}.

(** A pointer on top of a brick whose top face is at height 1.2. *)
Definition stackedPointer : PointerEvent :=
  {| e_point := {| v_x := -0.7; v_y := 1.2; v_z := 4.49 |};
     e_normal := {| v_x := 0; v_y := 1; v_z := 0 |};
     e_brickId := Some "a1" |}.

(** The session after one brick was placed at the ground pointer. *)
Definition onePartState : AppState :=
  handlePlaceBrick uuidSample (onPointerMove groundPointer initialState).

(** A response with an unknown part, then a valid record. *)
Definition unknownPartItem : RawItem :=
  {| partId := "wheel_2x2"; item_x := 0; item_y := 0; item_z := 0;
     item_rotation := Some 1%Z; colorId := "blue" |}.

Definition validItem : RawItem :=
  {| partId := "plate_2x4"; item_x := 1.5; item_y := 1.2; item_z := -2;
     item_rotation := None; colorId := "green" |}.

(** A generator that is injective: the n-th identifier has n + 1 letters. *)
Fixpoint uuidTally (n : nat) : string :=
  match n with
  | O => "u"
  | S n' => String "i" (uuidTally n')
  end.

(** The session after a second brick was placed at the same pointer. *)
Definition twoPartState : AppState := handleClick uuidSample groundPointer onePartState.

(** The session with one brick in which an AI call was made and, while it
    is suspended, a second brick was placed. *)
Definition placedWhileWaiting : AppState :=
  handleClick uuidSample groundPointer (handleAiBuild_await "a castle" onePartState).

(** The two-part build with the delete tool, then the paint tool in blue. *)
Definition deleteToolState : AppState :=
  setSelection twoParityState "brick_1x1" "red" delete false.

Definition paintToolState : AppState :=
  setSelection twoParityState "brick_1x1" "blue" paint false.

(** A record whose rotation is outside 0..3. *)
Definition rotation7Item : RawItem :=
  {| partId := "brick_2x4"; item_x := 0; item_y := 0; item_z := 0;
     item_rotation := Some 7%Z; colorId := "red" |}.

Definition rotation7Brick : PlacedBrick :=
  {| pb_id := "c3"; pb_typeId := "brick_2x4"; pb_position := (0, 0, 0);
     pb_rotation := 7; pb_color := "#ef4444" |}.



(** The exported two-part build, and the session with one brick in which
    the read of that file was started and, before its end, a second brick
    was placed. *)
Definition parityFile : string := JSON.stringify (bricksToJSON twoParityBuild).

Definition placedWhileReading : AppState :=
  handleClick uuidSample groundPointer (importFromFile_read true onePartState).

(* ================================================================== *)
(** * Facts: the JSON text layer *)
(* ================================================================== *)

Module JSONFacts.
Import JSON JSONShape.

Lemma digit_value_char d : (d < 10)%N -> digit_value (digit_char d) = Some d.
Proof.
  intros H. unfold digit_value, digit_char.
  rewrite N_ascii_embedding by lia.
  replace ((48 <=? 48 + d) && (48 + d <=? 57))%N with true.
  - f_equal. lia.
  - symmetry. apply andb_true_intro. split; apply N.leb_le; lia.
Qed.

Lemma pow10_nonzero k : (10 ^ N.of_nat k)%N <> 0%N.
Proof. apply N.pow_nonzero. lia. Qed.

Lemma digits_of_lt k : forall n, (n < 10 ^ N.of_nat k)%N ->
  Forall (fun d => (d < 10)%N) (digits_of k n).
Proof.
  induction k as [|k IH]; intros n H; simpl; constructor.
  - apply N.Div0.div_lt_upper_bound.
    rewrite Nat2N.inj_succ, N.pow_succ_r' in H. lia.
  - apply IH. apply N.mod_lt, pow10_nonzero.
Qed.

Lemma digits_of_length k : forall n, List.length (digits_of k n) = k.
Proof. induction k; intros; simpl; auto. Qed.

Lemma fold_digits_of k : forall n a, (n < 10 ^ N.of_nat k)%N ->
  fold_left (fun a d => (a * 10 + d)%N) (digits_of k n) a = (a * 10 ^ N.of_nat k + n)%N.
Proof.
  induction k as [|k IH]; intros n a H; simpl digits_of; simpl fold_left.
  - simpl in H. simpl. lia.
  - rewrite IH by (apply N.mod_lt, pow10_nonzero).
    rewrite Nat2N.inj_succ, N.pow_succ_r'.
    pose proof (N.div_mod n (10 ^ N.of_nat k) (pow10_nonzero k)) as E. nia.
Qed.

Lemma size_bound n : (n < 10 ^ N.of_nat (N.to_nat (N.size n)))%N.
Proof.
  rewrite N2Nat.id.
  apply N.lt_le_trans with (2 ^ N.size n)%N.
  - apply N.size_gt.
  - apply N.pow_le_mono_l. lia.
Qed.

Lemma strip_zeros_value ds : digits_N (strip_zeros ds) = digits_N ds.
Proof.
  unfold digits_N. induction ds as [|d ds IH]; simpl; auto.
  destruct d; simpl; auto.
Qed.

Lemma strip_zeros_Forall (P : N -> Prop) ds : Forall P ds -> Forall P (strip_zeros ds).
Proof.
  induction 1 as [|d ds Hd Hds IH]; simpl; auto.
  destruct d; auto.
Qed.

Lemma strip_zeros_head ds : match strip_zeros ds with d :: _ => d <> 0%N | [] => True end.
Proof.
  induction ds as [|d ds IH]; simpl; auto.
  destruct d; simpl; auto. discriminate.
Qed.

Lemma digits_N_of_value n : digits_N (digits_N_of n) = n.
Proof.
  unfold digits_N_of.
  pose proof (strip_zeros_value (digits_of (N.to_nat (N.size n)) n)) as E.
  unfold digits_N at 2 in E. rewrite fold_digits_of in E by apply size_bound.
  simpl in E.
  destruct (strip_zeros _); [|exact E].
  unfold digits_N in *. simpl in *. lia.
Qed.

Lemma digits_N_of_lt n : Forall (fun d => (d < 10)%N) (digits_N_of n).
Proof.
  unfold digits_N_of.
  pose proof (strip_zeros_Forall (digits_of_lt _ (size_bound n))) as F.
  destruct (strip_zeros _); auto. constructor; [lia|constructor].
Qed.

(** The digits of a number: a lone zero, or a list led by a non-zero digit. *)
Lemma digits_N_of_shape n :
  digits_N_of n = [0%N] \/ exists d ds, digits_N_of n = d :: ds /\ d <> 0%N.
Proof.
  unfold digits_N_of.
  pose proof (strip_zeros_head (digits_of (N.to_nat (N.size n)) n)) as H.
  destruct (strip_zeros _) as [|d ds]; [left; reflexivity|right; eauto].
Qed.

Lemma span_digits_app ds : forall rest,
  Forall (fun d => (d < 10)%N) ds -> no_digit rest ->
  span_digits (map digit_char ds ++ rest) = (ds, rest).
Proof.
  induction ds as [|d ds IH]; intros rest F R; simpl.
  - destruct rest as [|c r]; simpl; auto. simpl in R. rewrite R. reflexivity.
  - inversion F; subst. rewrite digit_value_char by assumption.
    rewrite IH by assumption. reflexivity.
Qed.


Lemma number_end_no_digit t : number_end t = true -> no_digit t.
Proof.
  destruct t as [|c r]; simpl; auto.
  destruct (digit_value c); [discriminate|reflexivity].
Qed.

Lemma parse_frac_end t : number_end t = true -> parse_frac t = Some ([], t).
Proof.
  destruct t as [|c r]; [reflexivity|].
  ascii_cases c; intros H; try reflexivity; discriminate H.
Qed.

Lemma parse_exp_end t : number_end t = true -> parse_exp t = Some (0%Z, t).
Proof.
  destruct t as [|c r]; [reflexivity|].
  ascii_cases c; intros H; try reflexivity; discriminate H.
Qed.

Lemma parse_int_nonzero d t : (d < 10)%N -> d <> 0%N ->
  parse_int (digit_char d :: t) = digits1 (digit_char d :: t).
Proof.
  intros H N0. digit_cases d H; try reflexivity. congruence.
Qed.

Lemma parse_number_digit d t : (d < 10)%N ->
  parse_number (digit_char d :: t) = parse_unsigned false (digit_char d :: t).
Proof. intros H. digit_cases d H; reflexivity. Qed.

Lemma parse_int_print n tail : no_digit tail ->
  parse_int (print_N n ++ tail) = Some (digits_N_of n, tail).
Proof.
  intros T. unfold print_N.
  pose proof (digits_N_of_lt n) as F.
  destruct (digits_N_of_shape n) as [E|(d & ds & E & D)]; rewrite E in *.
  - reflexivity.
  - simpl map. simpl app. inversion F; subst.
    rewrite parse_int_nonzero by assumption.
    unfold digits1.
    change (digit_char d :: map digit_char ds ++ tail)
      with (map digit_char (d :: ds) ++ tail).
    rewrite span_digits_app by assumption. reflexivity.
Qed.

Lemma find_scale_spec den : (0 < den)%Z -> forall tries num k m k',
  find_scale den num k tries = Some (m, k') ->
  exists j, k' = (k + j)%nat /\ (num * 10 ^ Z.of_nat j = m * den)%Z.
Proof.
  intros Hden. induction tries as [|t IH]; intros num k m k' H; simpl in H.
  - discriminate.
  - destruct (num mod den =? 0)%Z eqn:E.
    + injection H as <- <-. exists 0%nat. split; [lia|].
      apply Z.eqb_eq in E. simpl.
      pose proof (Z.div_mod num den ltac:(lia)). nia.
    + apply IH in H. destruct H as (j & -> & Hj).
      exists (S j). split; [lia|].
      rewrite Nat2Z.inj_succ, Z.pow_succ_r by lia. lia.
Qed.

Lemma decimal_of_spec q m k : decimal_of q = Some (m, k) ->
  q * inject_Z (10 ^ Z.of_nat k) == inject_Z m.
Proof.
  unfold decimal_of. intros H.
  apply find_scale_spec in H; [|reflexivity].
  destruct H as (j & E & Hj). simpl in E. subst j.
  destruct q as [n d]. unfold Qeq. simpl in *. lia.
Qed.

Lemma N_pow10_Z k : Z.of_N (10 ^ N.of_nat k) = (10 ^ Z.of_nat k)%Z.
Proof. rewrite N2Z.inj_pow, nat_N_Z. reflexivity. Qed.

Lemma pow10_neg k : pow10 (0 - Z.of_nat k) == / inject_Z (10 ^ Z.of_nat k).
Proof.
  unfold pow10. destruct (0 - Z.of_nat k <? 0)%Z eqn:E.
  - replace (- (0 - Z.of_nat k))%Z with (Z.of_nat k) by lia. reflexivity.
  - apply Z.ltb_ge in E. assert (k = 0%nat) by lia. subst k. reflexivity.
Qed.

Lemma fold_digits_acc l : forall acc,
  fold_left (fun a d => (a * 10 + d)%N) l acc
  = (acc * 10 ^ N.of_nat (List.length l) + digits_N l)%N.
Proof.
  unfold digits_N. induction l as [|d l IH]; intros acc.
  - simpl. lia.
  - cbn [fold_left List.length].
    rewrite (IH (acc * 10 + d)%N), (IH (0 * 10 + d)%N).
    rewrite Nat2N.inj_succ, N.pow_succ_r'. ring.
Qed.

Lemma digits_N_cons d r :
  digits_N (d :: r) = (d * 10 ^ N.of_nat (List.length r) + digits_N r)%N.
Proof.
  unfold digits_N at 1. cbn [fold_left]. rewrite fold_digits_acc. ring.
Qed.

Lemma drop_trailing_zeros_cons d r :
  d <> 0%N -> drop_trailing_zeros (d :: r) = d :: drop_trailing_zeros r.
Proof.
  intros D. cbn [drop_trailing_zeros].
  destruct (drop_trailing_zeros r); [|reflexivity].
  destruct (N.eqb_spec d 0); [contradiction|reflexivity].
Qed.

Lemma drop_trailing_zeros_Forall (P : N -> Prop) ds :
  Forall P ds -> Forall P (drop_trailing_zeros ds).
Proof.
  induction 1 as [|d r Hd Hr IH]; cbn [drop_trailing_zeros]; [constructor|].
  destruct (drop_trailing_zeros r).
  - destruct (d =? 0)%N; repeat constructor. exact Hd.
  - constructor; assumption.
Qed.

(** The zeros dropped are a power of ten. *)
Lemma drop_trailing_zeros_value ds :
  exists x, List.length ds = (List.length (drop_trailing_zeros ds) + x)%nat
            /\ digits_N ds = (digits_N (drop_trailing_zeros ds) * 10 ^ N.of_nat x)%N.
Proof.
  induction ds as [|d r (x & L & V)].
  - exists 0%nat. split; reflexivity.
  - cbn [drop_trailing_zeros]. rewrite digits_N_cons, V.
    destruct (drop_trailing_zeros r) as [|d' r'].
    + cbn [List.length] in L. change (digits_N []) with 0%N.
      destruct (N.eqb_spec d 0) as [->|D].
      * exists (S x). split; [cbn [List.length]; lia|].
        change (digits_N []) with 0%N. lia.
      * exists x. split; [cbn [List.length]; lia|].
        rewrite L. cbn [Nat.add]. rewrite digits_N_cons.
        cbn [List.length]. change (digits_N []) with 0%N.
        change (N.of_nat 0) with 0%N. rewrite N.pow_0_r.
        generalize (10 ^ N.of_nat x)%N. intros P. lia.
    + exists x. split; [cbn [List.length] in *; lia|].
      rewrite (digits_N_cons d (d' :: r')), L.
      rewrite Nat2N.inj_add, N.pow_add_r.
      generalize (10 ^ N.of_nat x)%N (10 ^ N.of_nat (List.length (d' :: r')))%N.
      intros P P'. lia.
Qed.

Lemma pow10_shift x k :
  pow10 (Z.of_nat x - Z.of_nat k) * inject_Z (10 ^ Z.of_nat k)
  == inject_Z (10 ^ Z.of_nat x).
Proof.
  assert (P : forall j, ~ inject_Z (10 ^ Z.of_nat j) == 0).
  { intros j. unfold Qeq. simpl. pose proof (Z.pow_pos_nonneg 10 (Z.of_nat j)). lia. }
  unfold pow10. destruct (Z.of_nat x - Z.of_nat k <? 0)%Z eqn:E.
  - apply Z.ltb_lt in E.
    replace (- (Z.of_nat x - Z.of_nat k))%Z with (Z.of_nat (k - x)) by lia.
    assert (Hk : (10 ^ Z.of_nat k = 10 ^ Z.of_nat (k - x) * 10 ^ Z.of_nat x)%Z)
      by (rewrite <- Z.pow_add_r by lia; f_equal; lia).
    rewrite Hk, inject_Z_mult. field. apply P.
  - apply Z.ltb_ge in E.
    assert (Hx : (10 ^ Z.of_nat x
                  = 10 ^ (Z.of_nat x - Z.of_nat k) * 10 ^ Z.of_nat k)%Z)
      by (rewrite <- Z.pow_add_r by lia; f_equal; lia).
    rewrite Hx, inject_Z_mult. reflexivity.
Qed.

(** Plain notation read back. *)
Lemma parse_unsigned_plain a k neg rest :
  number_end rest = true ->
  parse_unsigned neg
    ((print_N (a / 10 ^ N.of_nat k)
      ++ match k with
         | O => []
         | S _ => "."%char :: fixed_digits k (a mod 10 ^ N.of_nat k)
         end) ++ rest)
  = Some (Qred (inject_Z (if neg then - Z.of_N a else Z.of_N a)
                * pow10 (0 - Z.of_nat k)), rest).
Proof.
  intros R. set (p := (10 ^ N.of_nat k)%N).
  assert (Hp : p <> 0%N) by apply pow10_nonzero.
  set (fracText := match k with O => [] | S _ => "."%char :: fixed_digits k (a mod p) end).
  unfold parse_unsigned. rewrite <- app_assoc.
  rewrite parse_int_print.
  2:{ subst fracText. destruct k; simpl; [apply number_end_no_digit, R|reflexivity]. }
  assert (Hfrac : parse_frac (fracText ++ rest) = Some (digits_of k (a mod p), rest)).
  { subst fracText. destruct k as [|k'].
    - simpl. apply parse_frac_end, R.
    - change (parse_frac ("."%char :: map digit_char (digits_of (S k') (a mod p)) ++ rest)
              = Some (digits_of (S k') (a mod p), rest)).
      cbv beta iota delta [parse_frac digits1].
      rewrite span_digits_app.
      + reflexivity.
      + apply digits_of_lt. apply N.mod_lt, Hp.
      + apply number_end_no_digit, R. }
  rewrite Hfrac, parse_exp_end by assumption.
  rewrite digits_of_length.
  unfold digits_N. rewrite fold_left_app.
  fold (digits_N (digits_N_of (a / p))). rewrite digits_N_of_value.
  rewrite fold_digits_of by (apply N.mod_lt, Hp).
  fold p. replace (a / p * p + a mod p)%N with a; [reflexivity|].
  pose proof (N.div_mod a p Hp). lia.
Qed.

Lemma parse_exp_print e rest :
  number_end rest = true ->
  parse_exp ("e"%char :: (if (e <? 0)%Z then "-"%char else "+"%char)
             :: print_N (Z.to_N (Z.abs e)) ++ rest)
  = Some (e, rest).
Proof.
  intros R.
  assert (D : digits1 (print_N (Z.to_N (Z.abs e)) ++ rest)
              = Some (digits_N_of (Z.to_N (Z.abs e)), rest)).
  { unfold digits1, print_N.
    rewrite span_digits_app by (apply digits_N_of_lt || apply number_end_no_digit, R).
    destruct (digits_N_of_shape (Z.to_N (Z.abs e))) as [E|(d & ds & E & _)];
      rewrite E; reflexivity. }
  destruct (e <? 0)%Z eqn:S; cbn [parse_exp]; rewrite D, digits_N_of_value;
    rewrite Z2N.id by lia; f_equal; f_equal;
    [apply Z.ltb_lt in S|apply Z.ltb_ge in S]; lia.
Qed.

(** Exponent notation read back. *)
Lemma parse_unsigned_exponent a k neg rest :
  a <> 0%N -> number_end rest = true ->
  parse_unsigned neg (print_exponent a k ++ rest)
  = Some (Qred (inject_Z (if neg then - Z.of_N a else Z.of_N a)
                * pow10 (0 - Z.of_nat k)), rest).
Proof.
  intros A R. unfold print_exponent.
  pose proof (digits_N_of_lt a) as F. pose proof (digits_N_of_value a) as V.
  destruct (digits_N_of_shape a) as [E|(d & r & E & D)]; rewrite E in *.
  { exfalso. apply A. rewrite <- V. reflexivity. }
  destruct (drop_trailing_zeros_value (d :: r)) as (x & L & X).
  pose proof (drop_trailing_zeros_Forall F) as F'.
  rewrite (drop_trailing_zeros_cons r D) in *.
  set (fs := drop_trailing_zeros r) in *.
  set (e := (Z.of_nat (List.length (d :: r)) - 1 - Z.of_nat k)%Z).
  set (expText := "e"%char :: (if (e <? 0)%Z then "-"%char else "+"%char)
                  :: print_N (Z.to_N (Z.abs e)) ++ rest).
  assert (Fd : (d < 10)%N) by (inversion F'; assumption).
  assert (Ffs : Forall (fun d => (d < 10)%N) fs) by (inversion F'; assumption).
  pose (t2 := match fs with
              | [] => expText
              | _ :: _ => "."%char :: map digit_char fs ++ expText
              end).
  assert (T : (digit_char d
               :: match fs with
                  | [] => []
                  | _ :: _ => "."%char :: map digit_char fs
                  end
               ++ "e"%char :: (if (e <? 0)%Z then "-"%char else "+"%char)
                  :: print_N (Z.to_N (Z.abs e))) ++ rest
              = map digit_char [d] ++ t2).
  { subst t2 expText. destruct fs; cbn [map app]; [reflexivity|].
    rewrite <- app_assoc. reflexivity. }
  rewrite T. clear T. unfold parse_unsigned.
  assert (Pi : parse_int (map digit_char [d] ++ t2) = Some ([d], t2)).
  { cbn [map app]. rewrite parse_int_nonzero by assumption.
    unfold digits1.
    change (digit_char d :: t2) with (map digit_char [d] ++ t2).
    rewrite span_digits_app; [reflexivity|repeat constructor; exact Fd|].
    subst t2. destruct fs; reflexivity. }
  rewrite Pi.
  assert (Pf : parse_frac t2 = Some (fs, expText)).
  { subst t2. destruct fs as [|f fs'] eqn:Efs; [reflexivity|].
    cbv beta iota delta [parse_frac digits1].
    rewrite span_digits_app; [reflexivity|exact Ffs|reflexivity]. }
  rewrite Pf. subst expText. rewrite parse_exp_print by exact R.
  f_equal. f_equal. apply Qred_complete.
  assert (Za : Z.of_N a
               = (Z.of_N (digits_N ([d] ++ fs)) * 10 ^ Z.of_nat x)%Z).
  { rewrite <- V, X. cbn [app]. rewrite N2Z.inj_mul, N_pow10_Z. reflexivity. }
  assert (Ee : (e - Z.of_nat (List.length fs))%Z = (Z.of_nat x - Z.of_nat k)%Z).
  { subst e. cbn [List.length] in *. lia. }
  rewrite Ee, pow10_neg.
  assert (Hnz : ~ inject_Z (10 ^ Z.of_nat k) == 0).
  { unfold Qeq. simpl. pose proof (Z.pow_pos_nonneg 10 (Z.of_nat k)). lia. }
  pose proof (pow10_shift x k) as Sh.
  set (m' := Z.of_N (digits_N ([d] ++ fs))) in *.
  assert (G : forall u v : Z, v = (u * 10 ^ Z.of_nat x)%Z ->
            inject_Z u * pow10 (Z.of_nat x - Z.of_nat k)
            == inject_Z v * / inject_Z (10 ^ Z.of_nat k)).
  { intros u v ->. rewrite inject_Z_mult, <- Sh. field. exact Hnz. }
  destruct neg; apply G; lia.
Qed.

(** Either notation starts with a digit. *)
Lemma print_body_head (c : bool) a k :
  exists d t, (d < 10)%N
    /\ (if c then print_exponent a k
        else print_N (a / 10 ^ N.of_nat k)
             ++ match k with
                | O => []
                | S _ => "."%char :: fixed_digits k (a mod 10 ^ N.of_nat k)
                end)
       = digit_char d :: t.
Proof.
  destruct c.
  - unfold print_exponent.
    pose proof (drop_trailing_zeros_Forall (digits_N_of_lt a)) as F.
    destruct (drop_trailing_zeros (digits_N_of a)) as [|d fs].
    + exists 0%N. eexists. split; [lia|reflexivity].
    + inversion F; subst. eauto.
  - unfold print_N. pose proof (digits_N_of_lt (a / 10 ^ N.of_nat k)) as F.
    destruct (digits_N_of_shape (a / 10 ^ N.of_nat k)) as [E|(d & ds & E & _)];
      rewrite E in *; inversion F; subst; simpl; eauto.
Qed.

Theorem parse_number_print q rest :
  isDecimal q = true -> number_end rest = true ->
  parse_number (print_number q ++ rest) = Some (Qred q, rest).
Proof.
  unfold isDecimal, print_number. intros D R.
  destruct (decimal_of q) as [[m k]|] eqn:Hd; [clear D|discriminate].
  apply decimal_of_spec in Hd.
  set (a := Z.to_N (Z.abs m)).
  set (n := (Z.of_nat (List.length (digits_N_of a)) - Z.of_nat k)%Z).
  set (body := if negb (a =? 0)%N && ((21 <? n) || (n <=? -6))%Z
               then print_exponent a k
               else print_N (a / 10 ^ N.of_nat k)
                    ++ match k with
                       | O => []
                       | S _ => "."%char :: fixed_digits k (a mod 10 ^ N.of_nat k)
                       end).
  assert (Hunsigned : forall neg,
    parse_unsigned neg (body ++ rest)
    = Some (Qred (inject_Z (if neg then - Z.of_N a else Z.of_N a)
                  * pow10 (0 - Z.of_nat k)), rest)).
  { intros neg. subst body.
    destruct (negb (a =? 0)%N && ((21 <? n) || (n <=? -6))%Z) eqn:C.
    - apply parse_unsigned_exponent; [|exact R].
      apply andb_prop in C. destruct C as [C _].
      destruct (N.eqb_spec a 0); [discriminate C|assumption].
    - apply parse_unsigned_plain, R. }
  assert (Hval : forall neg, neg = (m <? 0)%Z ->
    Qred (inject_Z (if neg then - Z.of_N a else Z.of_N a) * pow10 (0 - Z.of_nat k))
    = Qred q).
  { intros neg ->. apply Qred_complete. rewrite pow10_neg.
    assert (Hm : (if (m <? 0)%Z then - Z.of_N a else Z.of_N a)%Z = m).
    { subst a. rewrite Z2N.id by lia. destruct (m <? 0)%Z eqn:E;
      [apply Z.ltb_lt in E|apply Z.ltb_ge in E]; lia. }
    rewrite Hm, <- Hd.
    assert (Hnz : ~ inject_Z (10 ^ Z.of_nat k) == 0).
    { unfold Qeq. simpl. pose proof (Z.pow_pos_nonneg 10 (Z.of_nat k)). lia. }
    field. exact Hnz. }
  destruct (m <? 0)%Z eqn:Hsign.
  - change (parse_number ("-"%char :: body ++ rest) = Some (Qred q, rest)).
    unfold parse_number. rewrite (Hunsigned true). f_equal. f_equal.
    apply (Hval true). reflexivity.
  - change (parse_number (body ++ rest) = Some (Qred q, rest)).
    assert (exists d t, (d < 10)%N /\ body = digit_char d :: t) as (d & t & Hlt & E)
      by apply print_body_head.
    pose proof (Hunsigned false) as HU. rewrite E in *. simpl app in *.
    rewrite parse_number_digit by assumption.
    rewrite HU. f_equal. f_equal. apply (Hval false). reflexivity.
Qed.


Lemma parse_chars_quote_char c f tail :
  parse_chars (S f) (quote_char c ++ tail)
  = match parse_chars f tail with
    | Some (cs, r) => Some (c :: cs, r)
    | None => None
    end.
Proof. ascii_cases c; reflexivity. Qed.

Lemma quote_char_length c : (1 <= List.length (quote_char c))%nat.
Proof. ascii_cases c; simpl; lia. Qed.

Lemma flat_map_quote_length cs :
  (List.length cs <= List.length (flat_map quote_char cs))%nat.
Proof.
  induction cs as [|c cs IH]; simpl; [lia|].
  rewrite length_app. pose proof (quote_char_length c). lia.
Qed.

Lemma parse_chars_quote cs : forall f rest, (List.length cs < f)%nat ->
  parse_chars f (flat_map quote_char cs ++ "034"%char :: rest) = Some (cs, rest).
Proof.
  induction cs as [|c cs IH]; intros f rest H; destruct f as [|f]; try (simpl in H; lia).
  - reflexivity.
  - simpl flat_map. rewrite <- app_assoc, parse_chars_quote_char.
    rewrite IH by (simpl in H; lia). reflexivity.
Qed.

Lemma parse_string_quote s rest : parse_string (quote s ++ rest) = Some (s, rest).
Proof.
  unfold quote, parse_string. simpl app. rewrite <- app_assoc. simpl app.
  rewrite parse_chars_quote.
  - rewrite string_of_list_ascii_of_string. reflexivity.
  - rewrite length_app. pose proof (flat_map_quote_length (list_ascii_of_string s)).
    simpl. lia.
Qed.

Lemma skip_ws_start c t : value_start c = true -> skip_ws (c :: t) = c :: t.
Proof. ascii_cases c; intros H; try reflexivity; discriminate H. Qed.

Lemma number_start_value c : number_start c = true -> value_start c = true.
Proof. ascii_cases c; intros H; try reflexivity; discriminate H. Qed.

Lemma parse_value_number f c t : number_start c = true ->
  parse_value (S f) (c :: t)
  = match parse_number (c :: t) with
    | Some (q, r) => Some (Number q, r)
    | None => None
    end.
Proof. ascii_cases c; intros H; try reflexivity; discriminate H. Qed.

Lemma parse_value_string f t :
  parse_value (S f) ("034"%char :: t)
  = match parse_string ("034"%char :: t) with
    | Some (s, r) => Some (Str s, r)
    | None => None
    end.
Proof. reflexivity. Qed.

Lemma parse_value_array f c t : value_start c = true ->
  parse_value (S f) ("["%char :: c :: t)
  = match parse_elements f (c :: t) with
    | Some (vs, r) => Some (Array vs, r)
    | None => None
    end.
Proof. ascii_cases c; intros H; try reflexivity; discriminate H. Qed.

Lemma parse_value_object f t :
  parse_value (S f) ("{"%char :: "034"%char :: t)
  = match parse_members f ("034"%char :: t) with
    | Some (ms, r) => Some (Object ms, r)
    | None => None
    end.
Proof. reflexivity. Qed.

Lemma print_number_head q : isDecimal q = true ->
  exists c t, print_number q = c :: t /\ number_start c = true.
Proof.
  unfold isDecimal, print_number. destruct (decimal_of q) as [[m k]|]; [intros _|discriminate].
  destruct (m <? 0)%Z.
  - simpl. eauto.
  - cbv zeta. rewrite app_nil_l.
    match goal with
    | |- context [if ?c then print_exponent ?a ?k else _] =>
        destruct (print_body_head c a k) as (d & t & Hd & E)
    end.
    exists (digit_char d), t. split; [exact E|].
    unfold number_start. rewrite digit_value_char by assumption. reflexivity.
Qed.

Lemma print_head v : wf v = true ->
  exists c t, print v = c :: t /\ value_start c = true.
Proof.
  destruct v as [|[|]|q|s|items|members]; intros W; simpl; eauto.
  - apply print_number_head in W. destruct W as (c & t & -> & H).
    eauto using number_start_value.
  - unfold quote. simpl. eauto.
Qed.

Lemma reads_value_step f :
  reads_elements f -> reads_members f -> reads_value (S f).
Proof.
  intros He Hm v rest Hn W R.
  destruct v as [|[|]|q|s|items|members]; try reflexivity.
  - cbn [print norm]. cbn [wf] in W.
    destruct (print_number_head q W) as (c & t & E & Hc).
    pose proof (parse_number_print q rest W R) as P. rewrite E in *.
    cbn [app] in *. rewrite parse_value_number, P by assumption. reflexivity.
  - cbn [print norm].
    pose proof (parse_string_quote s rest) as P.
    unfold quote in *. cbn [app] in *.
    rewrite parse_value_string, P. reflexivity.
  - destruct items as [|v vs]; [reflexivity|].
    simpl in Hn. apply le_S_n in Hn.
    specialize (He v vs rest Hn W).
    change (print (Array (v :: vs)) ++ rest)
      with ("["%char :: (join (map print (v :: vs)) ++ ["]"%char]) ++ rest).
    rewrite <- app_assoc. cbn [app].
    assert (exists c t, join (map print (v :: vs)) = c :: t /\ value_start c = true)
      as (c & t & E & Hc).
    { simpl in W. apply andb_prop in W. destruct W as [W _].
      destruct (print_head v W) as (c & t & E & Hc).
      simpl map. destruct (map print vs); simpl; rewrite E; simpl; eauto. }
    rewrite E in *. cbn [app] in *.
    rewrite parse_value_array, He by assumption. reflexivity.
  - destruct members as [|kv ms]; [reflexivity|].
    simpl in Hn. apply le_S_n in Hn.
    specialize (Hm kv ms rest Hn W).
    change (print (Object (kv :: ms)) ++ rest)
      with ("{"%char :: (join (map print_member (kv :: ms)) ++ ["}"%char]) ++ rest).
    rewrite <- app_assoc. cbn [app].
    assert (exists t, join (map print_member (kv :: ms)) = "034"%char :: t) as (t & E).
    { simpl map. unfold print_member at 1. unfold quote.
      destruct (map print_member ms); simpl; eauto. }
    rewrite E in *. cbn [app] in *.
    rewrite parse_value_object, Hm. reflexivity.
Qed.

Lemma parse_elements_S f t :
  parse_elements (S f) t
  = match parse_value f t with
    | Some (v, r) =>
        match skip_ws r with
        | ","%char :: r' =>
            match parse_elements f r' with
            | Some (vs, r'') => Some (v :: vs, r'')
            | None => None
            end
        | "]"%char :: r' => Some ([v], r')
        | _ => None
        end
    | None => None
    end.
Proof. reflexivity. Qed.

Lemma parse_members_S f t :
  parse_members (S f) t
  = match parse_string (skip_ws t) with
    | Some (k, r) =>
        match skip_ws r with
        | ":"%char :: r1 =>
            match parse_value f r1 with
            | Some (v, r2) =>
                match skip_ws r2 with
                | ","%char :: r' =>
                    match parse_members f r' with
                    | Some (ms, r'') => Some ((k, v) :: ms, r'')
                    | None => None
                    end
                | "}"%char :: r' => Some ([(k, v)], r')
                | _ => None
                end
            | None => None
            end
        | _ => None
        end
    | None => None
    end.
Proof. reflexivity. Qed.

Lemma reads_elements_step f :
  reads_value f -> reads_elements f -> reads_elements (S f).
Proof.
  intros Hv He v vs rest Hn W.
  cbn [forallb] in W. apply andb_prop in W. destruct W as [Wv Wvs].
  change (S (need v + needs vs) <= S f)%nat in Hn.
  rewrite parse_elements_S.
  destruct vs as [|v' vs'].
  - cbn [map join]. rewrite Hv by (auto; lia). reflexivity.
  - change (join (map print (v :: v' :: vs')))
      with (print v ++ ","%char :: join (map print (v' :: vs'))).
    rewrite <- app_assoc. cbn [app].
    rewrite Hv by (auto; lia).
    change (skip_ws (","%char :: join (map print (v' :: vs')) ++ "]"%char :: rest))
      with (","%char :: join (map print (v' :: vs')) ++ "]"%char :: rest).
    cbv iota beta.
    rewrite He by (auto; lia). destruct v; reflexivity.
Qed.

Lemma reads_members_step f :
  reads_value f -> reads_members f -> reads_members (S f).
Proof.
  intros Hv Hm kv ms rest Hn W.
  cbn [forallb] in W. apply andb_prop in W. destruct W as [Wv Wms].
  change (S (need (snd kv) + needs_members ms) <= S f)%nat in Hn.
  assert (Hkey : forall tail, parse_string (skip_ws (print_member kv ++ tail))
                 = Some (fst kv, ":"%char :: print (snd kv) ++ tail)).
  { intros tail. unfold print_member. rewrite <- app_assoc. cbn [app].
    replace (skip_ws (quote (fst kv) ++ ":"%char :: print (snd kv) ++ tail))
      with (quote (fst kv) ++ ":"%char :: print (snd kv) ++ tail) by reflexivity.
    apply parse_string_quote. }
  rewrite parse_members_S.
  destruct ms as [|kv' ms'].
  - cbn [map join]. rewrite Hkey.
    change (skip_ws (":"%char :: print (snd kv) ++ "}"%char :: rest))
      with (":"%char :: print (snd kv) ++ "}"%char :: rest).
    cbv iota beta. rewrite Hv by (auto; lia). reflexivity.
  - change (join (map print_member (kv :: kv' :: ms')))
      with (print_member kv ++ ","%char :: join (map print_member (kv' :: ms'))).
    rewrite <- app_assoc. cbn [app]. rewrite Hkey.
    match goal with
    | |- context [skip_ws (":"%char :: ?r)] =>
        change (skip_ws (":"%char :: r)) with (":"%char :: r)
    end.
    cbv iota beta. rewrite Hv by (auto; lia).
    match goal with
    | |- context [skip_ws (","%char :: ?r)] =>
        change (skip_ws (","%char :: r)) with (","%char :: r)
    end.
    cbv iota beta. rewrite Hm by (auto; lia). reflexivity.
Qed.

Lemma reads_all f : reads_value f /\ reads_elements f /\ reads_members f.
Proof.
  induction f as [|f (Hv & He & Hm)].
  - repeat split.
    + intros v rest H. destruct v; simpl in H; lia.
    + intros v vs rest H. unfold needs in H. simpl in H. lia.
    + intros kv ms rest H. unfold needs_members in H. simpl in H. lia.
  - auto using reads_value_step, reads_elements_step, reads_members_step.
Qed.


Lemma value_induction (P : value -> Prop) :
  P Null -> (forall b, P (Bool b)) -> (forall q, P (Number q)) ->
  (forall s, P (Str s)) ->
  (forall items, Forall P items -> P (Array items)) ->
  (forall members, Forall (fun kv => P (snd kv)) members -> P (Object members)) ->
  forall v, P v.
Proof.
  intros HNull HBool HNum HStr HArr HObj.
  refine (fix IH (v : value) : P v :=
    match v with
    | Null => HNull
    | Bool b => HBool b
    | Number q => HNum q
    | Str s => HStr s
    | Array items =>
        HArr items ((fix all (l : list value) : Forall P l :=
          match l with
          | [] => Forall_nil _
          | x :: r => Forall_cons x (IH x) (all r)
          end) items)
    | Object members =>
        HObj members ((fix all (l : list (string * value))
            : Forall (fun kv => P (snd kv)) l :=
          match l with
          | [] => Forall_nil _
          | x :: r => Forall_cons x (IH (snd x)) (all r)
          end) members)
    end).
Qed.

Lemma print_number_length q : (1 <= List.length (print_number q))%nat.
Proof.
  unfold print_number. destruct (decimal_of q) as [[m k]|]; [|simpl; lia].
  cbv zeta. rewrite length_app.
  match goal with
  | |- context [if ?c then print_exponent ?a ?k else _] =>
      destruct (print_body_head c a k) as (d & t & _ & E)
  end.
  match goal with
  | |- (_ <= _ + List.length ?b)%nat =>
      assert (Eb : b = digit_char d :: t) by exact E; rewrite Eb
  end.
  cbn [List.length]. lia.
Qed.

Lemma join_length_elements vs :
  Forall (fun v => (need v <= List.length (print v))%nat) vs ->
  (needs vs <= List.length (join (map print vs)) + 1)%nat.
Proof.
  induction 1 as [|v vs Hv Hvs IH]; [unfold needs; simpl; lia|].
  change (needs (v :: vs)) with (S (need v + needs vs)).
  destruct vs as [|v' vs'].
  - change (needs []) with 0%nat. cbn [map join]. lia.
  - change (join (map print (v :: v' :: vs')))
      with (print v ++ ","%char :: join (map print (v' :: vs'))).
    rewrite length_app. cbn [List.length]. lia.
Qed.

Lemma join_length_members ms :
  Forall (fun kv => (need (snd kv) <= List.length (print (snd kv)))%nat) ms ->
  (needs_members ms <= List.length (join (map print_member ms)) + 1)%nat.
Proof.
  assert (L : forall kv, (List.length (print (snd kv)) < List.length (print_member kv))%nat).
  { intros kv. unfold print_member. rewrite length_app. simpl. lia. }
  induction 1 as [|kv ms Hv Hvs IH]; [unfold needs_members; simpl; lia|].
  change (needs_members (kv :: ms)) with (S (need (snd kv) + needs_members ms)).
  pose proof (L kv).
  destruct ms as [|kv' ms'].
  - change (needs_members []) with 0%nat. cbn [map join]. lia.
  - change (join (map print_member (kv :: kv' :: ms')))
      with (print_member kv ++ ","%char :: join (map print_member (kv' :: ms'))).
    rewrite length_app. cbn [List.length]. lia.
Qed.

Lemma need_le_length v : (need v <= List.length (print v))%nat.
Proof.
  induction v as [|b|q|s|items IH|members IH] using value_induction.
  - simpl. lia.
  - destruct b; simpl; lia.
  - simpl. apply print_number_length.
  - simpl. lia.
  - apply join_length_elements in IH.
    change (need (Array items)) with (S (needs items)).
    change (print (Array items)) with ("["%char :: join (map print items) ++ ["]"%char]).
    cbn [List.length]. rewrite length_app. cbn [List.length]. lia.
  - apply join_length_members in IH.
    change (need (Object members)) with (S (needs_members members)).
    change (print (Object members))
      with ("{"%char :: join (map print_member members) ++ ["}"%char]).
    cbn [List.length]. rewrite length_app. cbn [List.length]. lia.
Qed.

(** [JSON.parse(JSON.stringify(v))] is [v], numbers in lowest terms. *)
Theorem parse_stringify v : wf v = true -> parse (stringify v) = Some (norm v).
Proof.
  intros W. unfold parse, stringify.
  rewrite list_ascii_of_string_of_list_ascii.
  destruct (reads_all (S (List.length (print v)))) as (Hv & _ & _).
  specialize (Hv v [] ltac:(pose proof (need_le_length v); lia) W eq_refl).
  rewrite app_nil_r in Hv. rewrite Hv. reflexivity.
Qed.

End JSONFacts.

(* ================================================================== *)
(** * Facts: export and import *)
(* ================================================================== *)

Module URIFacts.
Import JSONShape URI.

Lemma percent_decode_escape c rest :
  percent_decode (escape c ++ rest) = c :: percent_decode rest.
Proof. ascii_cases c; reflexivity. Qed.

Lemma percent_decode_encode cs : percent_decode (flat_map escape cs) = cs.
Proof.
  induction cs as [|c cs IH]; [reflexivity|].
  cbn [flat_map]. rewrite percent_decode_escape, IH. reflexivity.
Qed.

(** The file saved for the exported [data:] URL holds the text encoded. *)
Lemma dataUrlBody_encode s :
  dataUrlBody ("data:text/json;charset=utf-8," ++ encodeURIComponent s)%string
  = Some s.
Proof.
  unfold dataUrlBody, encodeURIComponent. cbn [String.prefix String.append].
  cbn [list_ascii_of_string after_comma Ascii.eqb Bool.eqb].
  rewrite list_ascii_of_string_of_list_ascii, percent_decode_encode.
  rewrite string_of_list_ascii_of_string. reflexivity.
Qed.

End URIFacts.

Lemma asInteger_inject_Z r : asInteger (Qred (inject_Z r)) = Some r.
Proof.
  unfold asInteger.
  assert (F : Qfloor (Qred (inject_Z r)) = r).
  { rewrite (Qfloor_comp _ _ (Qred_correct (inject_Z r))). apply Qfloor_Z. }
  rewrite F.
  assert (E : Qeq_bool (Qred (inject_Z r)) (inject_Z r) = true).
  { apply Qeq_bool_iff, Qred_correct. }
  rewrite E. reflexivity.
Qed.

Lemma isDecimal_inject_Z r : JSON.isDecimal (inject_Z r) = true.
Proof.
  unfold JSON.isDecimal, JSON.decimal_of. cbn [inject_Z Qnum Qden JSON.find_scale].
  rewrite Z.mod_1_r. reflexivity.
Qed.

Lemma asPlacedBrick_brickToJSON b :
  asPlacedBrick (JSONShape.norm (brickToJSON b)) = Some (normBrick b).
Proof.
  unfold brickToJSON, normBrick. destruct (pb_position b) as [[x y] z].
  cbn -[Qred asInteger inject_Z]. rewrite asInteger_inject_Z. reflexivity.
Qed.

Lemma asPlacedBricks_bricksToJSON bs :
  asPlacedBricks (JSONShape.norm (bricksToJSON bs)) = Some (map normBrick bs).
Proof.
  unfold bricksToJSON. cbn [JSONShape.norm asPlacedBricks].
  induction bs as [|b bs IH]; [reflexivity|].
  cbn [map asBrickList]. rewrite asPlacedBrick_brickToJSON, IH. reflexivity.
Qed.

Lemma wf_brickToJSON b : decimalBrick b = true -> JSONShape.wf (brickToJSON b) = true.
Proof.
  unfold decimalBrick, brickToJSON. destruct (pb_position b) as [[x y] z].
  intros H. apply andb_prop in H. destruct H as [H Hz].
  apply andb_prop in H. destruct H as [Hx Hy].
  cbn. rewrite Hx, Hy, Hz, isDecimal_inject_Z. reflexivity.
Qed.

Lemma wf_bricksToJSON bs :
  Forall (fun b => decimalBrick b = true) bs -> JSONShape.wf (bricksToJSON bs) = true.
Proof.
  unfold bricksToJSON. cbn [JSONShape.wf].
  induction 1 as [|b bs Hb Hbs IH]; [reflexivity|].
  cbn [map forallb]. rewrite wf_brickToJSON, IH by assumption. reflexivity.
Qed.

Lemma sameBrick_normBrick b : sameBrick b (normBrick b).
Proof.
  unfold sameBrick, normBrick. destruct (pb_position b) as [[x y] z]. cbn.
  repeat split; auto; symmetry; apply Qred_correct.
Qed.

Lemma Forall2_sameBrick_norm bs : Forall2 sameBrick bs (map normBrick bs).
Proof. induction bs; constructor; auto using sameBrick_normBrick. Qed.

(** C9. Exporting a build to the JSON record format and importing the file
    saved yields the same sequence of bricks, field for field: same
    identifiers, types, rotations and colours, and numerically equal
    coordinates.  [exportToFile] writes the build as a [data:] URL, the
    browser saves its decoded body, and [importFromFile] parses it and
    replaces the build, whatever the state it is imported into. *)
Theorem C9_export_import_roundtrip (s s0 : AppState) :
  Forall (fun b => decimalBrick b = true) (bricks s) ->
  exists file s',
    URI.dataUrlBody (exportToFile s) = Some file
    /\ importFromFile (Some file) s0 = Loaded s'
    /\ Forall2 sameBrick (bricks s) (bricks s')
    /\ List.length (bricks s') = List.length (bricks s).
Proof.
  intros D.
  exists (JSON.stringify (bricksToJSON (bricks s))).
  exists (addToHistory (map normBrick (bricks s)) s0).
  split; [apply URIFacts.dataUrlBody_encode|].
  split.
  - unfold importFromFile.
    rewrite JSONFacts.parse_stringify by (apply wf_bricksToJSON, D).
    rewrite asPlacedBricks_bricksToJSON. reflexivity.
  - cbn [addToHistory setHistoryState bricks]. split.
    + apply Forall2_sameBrick_norm.
    + apply length_map.
Qed.

Lemma C9_export_import_roundtrip_witness :
  Forall (fun b => decimalBrick b = true) (bricks twoParityState)
  /\ exists file s',
       URI.dataUrlBody (exportToFile twoParityState) = Some file
       /\ importFromFile (Some file) initialState = Loaded s'
       /\ Forall2 sameBrick (bricks twoParityState) (bricks s')
       /\ List.length (bricks s') = List.length (bricks twoParityState).
Proof.
  assert (D : Forall (fun b => decimalBrick b = true) (bricks twoParityState))
    by (repeat constructor).
  split; [exact D|].
  apply (C9_export_import_roundtrip twoParityState initialState D).
Defined.

(* ================================================================== *)
(** * Facts: binary64 rounding *)
(* ================================================================== *)

Module Binary64Facts.










End Binary64Facts.






(* ================================================================== *)
(** * Facts: the placement resolver *)
(* ================================================================== *)

Section Resolver.

Lemma rem2_even w : (JS.rem w 2 =? 0)%Z = Z.even w.
Proof.
  unfold JS.rem. rewrite Zrem_even.
  destruct (Z.even w) eqn:E; [reflexivity|].
  destruct w; try reflexivity. discriminate E.
Qed.

Lemma nonzero_rem2_odd r : JS.nonzero (JS.rem r 2) = Z.odd r.
Proof. unfold JS.nonzero. rewrite rem2_even. apply Z.negb_even. Qed.

Lemma Qfloor_plus_half n : Qfloor (inject_Z n + 0.5) = n.
Proof.
  unfold Qfloor, Qplus, inject_Z. cbn [Qnum Qden].
  symmetry. apply Z.div_unique with (r := 5%Z); lia.
Qed.

Lemma frac_integer n : frac (inject_Z n) == 0.
Proof. unfold frac. rewrite Qfloor_Z. lra. Qed.


(** The vertical snap in closed form: the nearest plate level, not below
    the ground. *)
Lemma resolveY_spec t :
  resolveY t == inject_Z (Z.max 0 (Qfloor (t / PLATE_HEIGHT + 0.5))) * PLATE_HEIGHT.
Proof.
  unfold resolveY, JS.Math_round.
  set (n := Qfloor (t / PLATE_HEIGHT + 0.5)).
  assert (Hclamp : (if Qlt_le_dec (inject_Z n * PLATE_HEIGHT) 0 then 0
                    else inject_Z n * PLATE_HEIGHT)
                   == inject_Z (Z.max 0 n) * PLATE_HEIGHT
                   /\ 0 <= (if Qlt_le_dec (inject_Z n * PLATE_HEIGHT) 0 then 0
                            else inject_Z n * PLATE_HEIGHT)).
  { unfold PLATE_HEIGHT. destruct (Qlt_le_dec (inject_Z n * 0.4) 0) as [L|L].
    - assert (n < 0)%Z.
      { apply Z.lt_nge. intros G. rewrite Zle_Qle in G.
        change (inject_Z 0) with 0 in G. lra. }
      rewrite Z.max_l by lia. change (inject_Z 0) with 0. split; lra.
    - assert (0 <= n)%Z.
      { rewrite Zle_Qle. change (inject_Z 0) with 0. lra. }
      rewrite Z.max_r by lia. split; [reflexivity|exact L]. }
  destruct Hclamp as [Hc Hpos].
  set (y := if Qlt_le_dec (inject_Z n * PLATE_HEIGHT) 0 then 0
            else inject_Z n * PLATE_HEIGHT) in *.
  unfold JS.parseFloat_toFixed2.
  destruct (Qlt_le_dec y 0) as [L|_]; [lra|].
  unfold JS.toFixed2_magnitude.
  assert (E : y * 100 + 0.5 == inject_Z (40 * Z.max 0 n) + 0.5).
  { rewrite Hc, inject_Z_mult. change (inject_Z 40) with 40.
    unfold PLATE_HEIGHT. lra. }
  rewrite (Qfloor_comp _ _ E), Qfloor_plus_half, inject_Z_mult.
  change (inject_Z 40) with 40. unfold PLATE_HEIGHT. field.
Qed.





(** The pointer height 3.4.  The binary64 number nearest to 3.4 lies below
    it; divided by the binary64 number nearest to 0.4 it gives 8.5 exactly,
    which [Math.round] takes up to 9: the program resolves the level 3.6.
    In exact rationals the quotient of the same number by 0.4 is below 8.5
    and the level is 3.2. *)
Example resolveY64_tie :
  Binary64.round 3.4 < 3.4
  /\ Binary64.div (Binary64.round 3.4) PLATE_HEIGHT64 == 8.5
  /\ resolveY64 (Binary64.round 3.4) == Binary64.round 3.6
  /\ resolveY (Binary64.round 3.4) == 3.2.
Proof.
  split; [reflexivity|].
  repeat split; apply Qeq_bool_iff; vm_compute; reflexivity.
Qed.

Lemma isDecimal_half n : JSON.isDecimal (inject_Z n + 0.5) = true.
Proof.
  unfold JSON.isDecimal, JSON.decimal_of, Qplus, inject_Z.
  cbn [Qnum Qden Pos.mul Pos.size_nat JSON.find_scale].
  destruct ((n * 10 + 5 * 1) mod 10 =? 0)%Z; [reflexivity|].
  rewrite Z_mod_mult. reflexivity.
Qed.

Lemma isDecimal_hundredths m : JSON.isDecimal (inject_Z m / 100) = true.
Proof.
  unfold JSON.isDecimal, JSON.decimal_of, Qdiv, Qmult, Qinv, inject_Z.
  cbn [Qnum Qden Pos.mul Pos.size_nat JSON.find_scale].
  destruct ((m * 1) mod 100 =? 0)%Z; [reflexivity|].
  destruct ((m * 1 * 10) mod 100 =? 0)%Z; [reflexivity|].
  replace (m * 1 * 10 * 10)%Z with (m * 100)%Z by lia.
  rewrite Z_mod_mult. reflexivity.
Qed.

Lemma resolveY_decimal t : JSON.isDecimal (resolveY t) = true.
Proof.
  unfold resolveY.
  set (y0 := JS.Math_round (t / PLATE_HEIGHT) * PLATE_HEIGHT).
  assert (Hpos : 0 <= (if Qlt_le_dec y0 0 then 0 else y0)).
  { destruct (Qlt_le_dec y0 0); [lra|assumption]. }
  set (y := if Qlt_le_dec y0 0 then 0 else y0) in *.
  unfold JS.parseFloat_toFixed2.
  destruct (Qlt_le_dec y 0) as [L|_]; [lra|].
  apply isDecimal_hundredths.
Qed.

(** Every position the resolver returns is made of finite decimals: a
    brick placed by hand satisfies the condition of the export round trip. *)
Lemma handlePointerMove_decimal sim selectedTypeId rotation e x y z :
  handlePointerMove sim selectedTypeId rotation e = Some (x, y, z) ->
  JSON.isDecimal x && JSON.isDecimal y && JSON.isDecimal z = true.
Proof.
  unfold handlePointerMove. destruct sim; [discriminate|].
  destruct (findType selectedTypeId) as [def|]; [|discriminate].
  intros [= <- <- <-]. unfold JS.Math_round.
  rewrite resolveY_decimal.
  destruct (JS.rem _ 2 =? 0)%Z, (JS.rem _ 2 =? 0)%Z;
    rewrite ?isDecimal_half, ?isDecimal_inject_Z; reflexivity.
Qed.

End Resolver.

(** The scenario of the specification: a part two studs wide and one deep
    (a 1x2 brick turned once), pointer at (2.3, 0, -1.4) on bare ground. *)
Example resolver_scenario :
  exists x y z,
    handlePointerMove false "brick_1x2" 1 groundPointer = Some (x, y, z)
    /\ x == 2.5 /\ y == 0 /\ z == -1.
Proof. do 3 eexists. split; [reflexivity|]. repeat split. Qed.

(* ================================================================== *)
(** * Facts: the simulation bridge *)
(* ================================================================== *)

(** C6.  For every placed brick whose type resolves in the catalogue, the
    body handed to the physics engine is centred at the stored floor-aligned
    Y plus half the world height [height * BRICK_HEIGHT], and the box it is
    given has the size the claim states, width and depth swapped when the
    rotation is odd.  But the body is turned by the rotation of the brick
    as well ([rotation: [0, brick.rotation * Math.PI / 2, 0]]), so the
    collider is not the axis-aligned box of that size: for an odd rotation
    it spans, along the world axes, the footprint as the type defines it.
    For a part whose width and depth differ, its extent along X is then not
    the effective width less 0.02, nor its extent along Z the effective
    depth less 0.02. *)
Theorem C6_collider_turned_twice (brick : PlacedBrick) (def : BrickTypeDefinition) :
  findType (pb_typeId brick) = Some def ->
  Z.odd (pb_rotation brick) = true ->
  bt_width def <> bt_depth def ->
  let '(x, y, z) := pb_position brick in
  let h := bt_height def * BRICK_HEIGHT in
  let body := PhysicsBrick brick in
  let claimedX := inject_Z (effectiveWidth def (pb_rotation brick)) * STUD_SIZE - 0.02 in
  let claimedZ := inject_Z (effectiveDepth def (pb_rotation brick)) * STUD_SIZE - 0.02 in
  body_position body = (x, y + h / 2, z)
  /\ body_args body = (claimedX, h, claimedZ)
  /\ body_quarterTurns body = pb_rotation brick
  /\ turnedExtent (body_quarterTurns body) (body_args body)
     = (inject_Z (bt_width def) * STUD_SIZE - 0.02, h,
        inject_Z (bt_depth def) * STUD_SIZE - 0.02)
  /\ ~ fst (fst (turnedExtent (body_quarterTurns body) (body_args body))) == claimedX
  /\ ~ snd (turnedExtent (body_quarterTurns body) (body_args body)) == claimedZ.
Proof.
  intros F O N. unfold PhysicsBrick. rewrite F, nonzero_rem2_odd.
  unfold effectiveWidth, effectiveDepth, turnedExtent.
  destruct (pb_position brick) as [[x y] z].
  cbn [body_position body_args body_quarterTurns]. rewrite O. cbn [fst snd].
  assert (Nq : ~ inject_Z (bt_width def) == inject_Z (bt_depth def)).
  { intros E. apply N. apply inject_Z_injective. exact E. }
  unfold STUD_SIZE.
  repeat split; intros E; apply Nq; lra.
Qed.

Lemma C6_collider_turned_twice_witness :
  findType "brick_2x4" = Some (mkType "brick_2x4" "Brick 2x4" basic 2 4 1 true None)
  /\ Z.odd (pb_rotation (nth 1 twoParityBuild rotation7Brick)) = true
  /\ body_args (PhysicsBrick (nth 1 twoParityBuild rotation7Brick))
     = (inject_Z 4 * 1 - 0.02, 1 * 1.2, inject_Z 2 * 1 - 0.02)
  /\ body_quarterTurns (PhysicsBrick (nth 1 twoParityBuild rotation7Brick)) = 1%Z
  /\ turnedExtent 1 (body_args (PhysicsBrick (nth 1 twoParityBuild rotation7Brick)))
     = (inject_Z 2 * 1 - 0.02, 1 * 1.2, inject_Z 4 * 1 - 0.02).
Proof.
  split; [reflexivity|]. split; [reflexivity|].
  pose proof (@C6_collider_turned_twice (nth 1 twoParityBuild rotation7Brick)
                (mkType "brick_2x4" "Brick 2x4" basic 2 4 1 true None)
                eq_refl eq_refl ltac:(discriminate)) as H.
  cbn [nth twoParityBuild pb_position] in H.
  destruct H as (_ & A & T & W & _).
  split; [exact A|]. split; [exact T|exact W].
Defined.

(* ================================================================== *)
(** * Facts: the history manager *)
(* ================================================================== *)

Section History.

Lemma slice0_firstn {A} (l : list A) (e : Z) :
  (0 <= e)%Z -> JS.slice0 l e = firstn (Z.to_nat e) l.
Proof.
  intros H. unfold JS.slice0.
  destruct (e <? 0)%Z eqn:E; [apply Z.ltb_lt in E; lia|].
  destruct (Z.min_spec e (Z.of_nat (List.length l))) as [[L ->]|[L ->]]; [reflexivity|].
  rewrite Nat2Z.id, firstn_all. symmetry. apply firstn_all2. lia.
Qed.

Lemma index_nth_error {A} (l : list A) (i : Z) :
  (0 <= i)%Z -> JS.index l i = nth_error l (Z.to_nat i).
Proof.
  intros H. unfold JS.index.
  destruct (i <? 0)%Z eqn:E; [apply Z.ltb_lt in E; lia|reflexivity].
Qed.

Lemma index_in_range {A} (l : list A) (i : Z) :
  (0 <= i < Z.of_nat (List.length l))%Z -> exists a, JS.index l i = Some a.
Proof.
  intros H. rewrite index_nth_error by lia.
  destruct (nth_error l (Z.to_nat i)) eqn:E; [eauto|].
  apply nth_error_None in E. lia.
Qed.

(** The history after a committed edit. *)
Lemma addToHistory_spec newBricks s :
  history_ok s ->
  history (addToHistory newBricks s)
    = firstn (Z.to_nat (historyIndex s + 1)) (history s) ++ [newBricks]
  /\ historyIndex (addToHistory newBricks s) = (historyIndex s + 1)%Z
  /\ bricks (addToHistory newBricks s) = newBricks.
Proof.
  intros [L U]. unfold addToHistory. cbn [history historyIndex bricks setHistoryState].
  rewrite slice0_firstn by lia. repeat split.
  rewrite length_app, length_firstn. cbn [List.length]. lia.
Qed.

Lemma addToHistory_ok newBricks s :
  history_ok s -> history_ok (addToHistory newBricks s) /\ snapshot_ok (addToHistory newBricks s).
Proof.
  intros H. destruct (addToHistory_spec newBricks H) as (Eh & Ei & Eb).
  destruct H as [L U]. unfold history_ok, snapshot_ok. rewrite Eh, Ei, Eb.
  rewrite length_app, length_firstn. cbn [List.length]. split; [lia|].
  destruct (historyIndex s + 1 =? -1)%Z eqn:E; [apply Z.eqb_eq in E; lia|].
  rewrite index_nth_error by lia.
  rewrite nth_error_app2 by (rewrite length_firstn; lia).
  rewrite length_firstn.
  replace (Z.to_nat (historyIndex s + 1)
           - Nat.min (Z.to_nat (historyIndex s + 1)) (List.length (history s)))%nat
    with 0%nat by lia.
  reflexivity.
Qed.

Lemma state_ok_ext s s' :
  bricks s' = bricks s -> history s' = history s ->
  historyIndex s' = historyIndex s ->
  state_ok s -> state_ok s'.
Proof.
  unfold state_ok, history_ok, snapshot_ok. intros -> -> ->. auto.
Qed.

Lemma addToHistory_state_ok newBricks s :
  history_ok s -> state_ok (addToHistory newBricks s).
Proof. apply addToHistory_ok. Qed.

Lemma undo_state_ok s s' : state_ok s -> undo s = Some s' -> state_ok s'.
Proof.
  intros [[L U] Sn]. unfold undo, state_ok, history_ok, snapshot_ok.
  destruct (historyIndex s >? 0)%Z eqn:E1.
  - apply Z.gtb_lt in E1.
    destruct (JS.index (history s) (historyIndex s - 1)) eqn:Ei; [|discriminate].
    intros [= <-]. cbn [history historyIndex bricks setHistoryState].
    split; [lia|].
    destruct (historyIndex s - 1 =? -1)%Z eqn:E; [apply Z.eqb_eq in E; lia|exact Ei].
  - destruct (historyIndex s =? 0)%Z eqn:E0.
    + intros [= <-]. cbn [history historyIndex bricks setHistoryState].
      split; [lia|reflexivity].
    + intros [= <-]. split; [lia|exact Sn].
Qed.

Lemma redo_state_ok s s' : state_ok s -> redo s = Some s' -> state_ok s'.
Proof.
  intros [[L U] Sn]. unfold redo, state_ok, history_ok, snapshot_ok.
  destruct (historyIndex s <? Z.of_nat (List.length (history s)) - 1)%Z eqn:E1.
  - apply Z.ltb_lt in E1.
    destruct (JS.index (history s) (historyIndex s + 1)) eqn:Ei; [|discriminate].
    intros [= <-]. cbn [history historyIndex bricks setHistoryState].
    split; [lia|].
    destruct (historyIndex s + 1 =? -1)%Z eqn:E; [apply Z.eqb_eq in E; lia|exact Ei].
  - intros [= <-]. split; [lia|exact Sn].
Qed.

Lemma state_ok_initial : state_ok initialState.
Proof. split; [unfold history_ok; cbn; lia|reflexivity]. Qed.

(** The commit of a callback leaves a consistent history record, built
    on the one its closure holds. *)
Lemma addToHistory_in_ok c newBricks s :
  closure_ok c -> state_ok (addToHistory_in c newBricks s).
Proof.
  intros [[L U] _]. unfold addToHistory_in, state_ok, history_ok, snapshot_ok.
  cbn [history historyIndex bricks setHistoryState].
  rewrite slice0_firstn by lia. rewrite length_app, length_firstn.
  cbn [List.length]. split; [lia|].
  destruct (_ =? -1)%Z eqn:E; [apply Z.eqb_eq in E; lia|].
  rewrite index_nth_error by lia.
  rewrite nth_error_app2 by (rewrite length_firstn; lia).
  rewrite length_firstn.
  match goal with
  | |- nth_error _ ?k = _ => replace k with 0%nat by lia
  end.
  reflexivity.
Qed.

Lemma In_removeAt {A} (x : A) i : forall l, In x (removeAt i l) -> In x l.
Proof.
  unfold removeAt. induction i as [|i IH]; intros [|a l] H; cbn in *; auto.
  destruct H as [H|H]; auto.
Qed.

Lemma aiRequest_suspended s c : aiRequest s = Some c -> In c (suspended s).
Proof. unfold suspended. intros ->. left. reflexivity. Qed.

Lemma fileReads_suspended s c : In c (fileReads s) -> In c (suspended s).
Proof. unfold suspended. destruct (aiRequest s); [right|]; auto. Qed.

Lemma undo_aiRequest s s' : undo s = Some s' -> aiRequest s' = aiRequest s.
Proof.
  unfold undo.
  destruct (historyIndex s >? 0)%Z;
    [destruct (JS.index (history s) (historyIndex s - 1)); [|discriminate]|
     destruct (historyIndex s =? 0)%Z]; intros [= <-]; reflexivity.
Qed.

Lemma redo_aiRequest s s' : redo s = Some s' -> aiRequest s' = aiRequest s.
Proof.
  unfold redo.
  destruct (historyIndex s <? Z.of_nat (List.length (history s)) - 1)%Z;
    [destruct (JS.index (history s) (historyIndex s + 1)); [|discriminate]|];
    intros [= <-]; reflexivity.
Qed.

Lemma undo_suspended s s' : undo s = Some s' -> suspended s' = suspended s.
Proof.
  unfold undo.
  destruct (historyIndex s >? 0)%Z;
    [destruct (JS.index (history s) (historyIndex s - 1)); [|discriminate]|
     destruct (historyIndex s =? 0)%Z]; intros [= <-]; reflexivity.
Qed.

Lemma redo_suspended s s' : redo s = Some s' -> suspended s' = suspended s.
Proof.
  unfold redo.
  destruct (historyIndex s <? Z.of_nat (List.length (history s)) - 1)%Z;
    [destruct (JS.index (history s) (historyIndex s + 1)); [|discriminate]|];
    intros [= <-]; reflexivity.
Qed.

(** The callbacks yet to run after an interaction were so before it, or
    were created by it, closed over the state it ran in. *)
Lemma step_suspended uuidv4 s s' :
  step uuidv4 s s' -> incl (suspended s') (closureOf s :: suspended s).
Proof.
  intros St.
  assert (K : incl (suspended s) (closureOf s :: suspended s))
    by (intros c H; right; exact H).
  destruct St as [e s|s|e s|s s' U|s s' R|s|c s|p r s|p s N|r s|content s s' I
                  |s|i content s s' I|i content s I|t s _|c s _|t s|s];
    try exact K.
  - unfold onPointerMove. destruct (handlePointerMove _ _ _ e); exact K.
  - unfold handleClick, handleBrickClick.
    destruct (isSimulating s); [exact K|].
    destruct (tool s), (hovered s), (e_brickId e) as [[|c0 id]|]; exact K.
  - rewrite (undo_suspended _ U). exact K.
  - rewrite (redo_suspended _ R). exact K.
  - destruct c; exact K.
  - unfold handleAiBuild. destruct p; [exact K|].
    destruct (generateBuildFromPrompt uuidv4 (uuidCalls s) r); exact K.
  - unfold handleAiBuild_await. destruct p; [exact K|].
    unfold suspended. cbn [aiRequest fileReads setAiRequest]. rewrite N.
    apply incl_refl.
  - unfold handleAiBuild_resume, suspended.
    destruct (aiRequest s) as [c|] eqn:E; [|rewrite E; intros c H; right; exact H].
    intros x H. right. right.
    destruct (generateBuildFromPrompt uuidv4 (uuidCalls s) r); exact H.
  - unfold importFromFile in I. destruct (JSON.parse content); [|discriminate].
    destruct (asPlacedBricks v); [|discriminate]. injection I as <-. exact K.
  - unfold suspended. cbn [importFromFile_read aiRequest fileReads setFileReads].
    intros c H. destruct (aiRequest s) as [c0|].
    + destruct H as [H|H]; [right; left; exact H|].
      apply in_app_or in H. destruct H as [H|[H|[]]]; [right; right; exact H|].
      left. exact H.
    + apply in_app_or in H. destruct H as [H|[H|[]]]; [right; exact H|].
      left. exact H.
  - unfold importFromFile_onload in I.
    destruct (nth_error (fileReads s) i) as [c|]; [|discriminate].
    destruct (JSON.parse content); [|discriminate].
    destruct (asPlacedBricks v); [|discriminate]. injection I as <-.
    unfold suspended.
    cbn [addToHistory_in aiRequest fileReads setHistoryState setFileReads].
    intros x H. right. destruct (aiRequest s) as [c0|].
    + destruct H as [H|H]; [left; exact H|right; exact (In_removeAt _ _ _ H)].
    + exact (In_removeAt _ _ _ H).
  - unfold suspended. cbn [aiRequest fileReads setFileReads].
    intros x H. right. destruct (aiRequest s) as [c0|].
    + destruct H as [H|H]; [left; exact H|right; exact (In_removeAt _ _ _ H)].
    + exact (In_removeAt _ _ _ H).
Qed.

Lemma closureOf_ok s : state_ok s -> closure_ok (closureOf s).
Proof. intros Ok. exact Ok. Qed.

Lemma step_request_ok uuidv4 s s' :
  step uuidv4 s s' -> state_ok s -> request_ok s -> request_ok s'.
Proof.
  intros St Ok Rq. unfold request_ok in *. rewrite Forall_forall in *.
  intros c H. apply (step_suspended St) in H. destruct H as [<-|H].
  - apply closureOf_ok, Ok.
  - apply Rq, H.
Qed.

Lemma handleAiBuild_resume_state_ok uuidv4 r s :
  state_ok s -> request_ok s -> state_ok (handleAiBuild_resume uuidv4 r s).
Proof.
  intros Ok Rq. unfold handleAiBuild_resume.
  destruct (aiRequest s) as [c|] eqn:E; [|exact Ok].
  destruct (generateBuildFromPrompt uuidv4 (uuidCalls s) r); [|exact Ok].
  apply addToHistory_in_ok.
  unfold request_ok in Rq. rewrite Forall_forall in Rq.
  apply Rq, aiRequest_suspended, E.
Qed.

Lemma step_state_ok uuidv4 s s' :
  step uuidv4 s s' -> state_ok s -> request_ok s -> state_ok s'.
Proof.
  intros St Ok Rq. pose proof Ok as [Hk _].
  destruct St as [e s|s|e s|s s' U|s s' R|s|c s|p r s|p s _|r s|content s s' I
                  |s|i content s s' I|i content s I|t s _|c s _|t s|s].
  - unfold onPointerMove. destruct (handlePointerMove _ _ _ e); auto.
  - exact Ok.
  - unfold handleClick. destruct (isSimulating s); auto.
    assert (B : state_ok
      match e_brickId e with
      | Some (String _ _ as brickId) =>
          match tool s with
          | delete | paint => handleBrickClick brickId s
          | _ => s
          end
      | _ => s
      end).
    { destruct (e_brickId e) as [[|c0 id]|]; auto.
      unfold handleBrickClick.
      destruct (tool s); auto using addToHistory_state_ok. }
    destruct (tool s); auto.
    destruct (hovered s); auto.
    unfold handlePlaceBrick. apply addToHistory_state_ok. exact Hk.
  - eauto using undo_state_ok.
  - eauto using redo_state_ok.
  - exact Ok.
  - destruct c; cbn; auto using addToHistory_state_ok.
  - unfold handleAiBuild. destruct p; auto.
    destruct (generateBuildFromPrompt uuidv4 (uuidCalls s) r); auto.
    apply addToHistory_state_ok. exact Hk.
  - unfold handleAiBuild_await. destruct p; exact Ok.
  - apply handleAiBuild_resume_state_ok; assumption.
  - unfold importFromFile in I. destruct (JSON.parse content); [|discriminate].
    destruct (asPlacedBricks v); [|discriminate].
    injection I as <-. auto using addToHistory_state_ok.
  - exact Ok.
  - unfold importFromFile_onload in I.
    destruct (nth_error (fileReads s) i) as [c|] eqn:E; [|discriminate].
    destruct (JSON.parse content); [|discriminate].
    destruct (asPlacedBricks v); [|discriminate]. injection I as <-.
    apply addToHistory_in_ok.
    unfold request_ok in Rq. rewrite Forall_forall in Rq.
    apply Rq, fileReads_suspended. eapply nth_error_In, E.
  - exact Ok.
  - exact Ok.
  - exact Ok.
  - exact Ok.
  - exact Ok.
Qed.

Lemma reachable_ok uuidv4 s : reachable uuidv4 s -> state_ok s /\ request_ok s.
Proof.
  induction 1 as [|s s' _ [Ok Rq] St];
    [split; [apply state_ok_initial|constructor]|].
  split; [exact (step_state_ok St Ok Rq)|exact (step_request_ok St Ok Rq)].
Qed.

(** In every state of a session the history index is within its bounds
    and the build shown is the snapshot at the index. *)
Lemma reachable_state_ok uuidv4 s : reachable uuidv4 s -> state_ok s.
Proof. intros R. apply (reachable_ok R). Qed.

(** C2. [undo] and [redo] move the index by one and show the snapshot at
    the new index; [undo] at index 0 shows the empty build and sets the
    index to -1; [undo] at -1 and [redo] at the last snapshot change
    nothing.  After a single [place] in a fresh session, [undo] gives the
    empty build at index -1 and [redo] then restores the state with its
    one part exactly. *)
Theorem C2_undo_redo (s : AppState) :
  history_ok s ->
  ((0 < historyIndex s)%Z ->
     exists snapshot,
       JS.index (history s) (historyIndex s - 1) = Some snapshot
       /\ undo s = Some (setHistoryState s (history s) (historyIndex s - 1) snapshot))
  /\ (historyIndex s = 0%Z ->
       undo s = Some (setHistoryState s (history s) (-1) []))
  /\ (historyIndex s = (-1)%Z -> undo s = Some s)
  /\ ((historyIndex s < Z.of_nat (List.length (history s)) - 1)%Z ->
       exists snapshot,
         JS.index (history s) (historyIndex s + 1) = Some snapshot
         /\ redo s = Some (setHistoryState s (history s) (historyIndex s + 1) snapshot))
  /\ (historyIndex s = (Z.of_nat (List.length (history s)) - 1)%Z -> redo s = Some s)
  /\ (forall uuidv4,
       bricks s = [] -> history s = [] ->
       let placed := handlePlaceBrick uuidv4 s in
       exists part undone,
         bricks placed = [part]
         /\ undo placed = Some undone
         /\ bricks undone = [] /\ historyIndex undone = (-1)%Z
         /\ redo undone = Some placed).
Proof.
  intros [L U]. repeat split.
  - intros P. destruct (@index_in_range _ (history s) (historyIndex s - 1)) as [a Ha]; [lia|].
    exists a. split; [exact Ha|]. unfold undo.
    destruct (historyIndex s >? 0)%Z eqn:E; [|rewrite Z.gtb_ltb in E; apply Z.ltb_ge in E; lia].
    rewrite Ha. reflexivity.
  - intros E. unfold undo. rewrite E. reflexivity.
  - intros E. unfold undo. rewrite E. reflexivity.
  - intros P. destruct (@index_in_range _ (history s) (historyIndex s + 1)) as [a Ha]; [lia|].
    exists a. split; [exact Ha|]. unfold redo.
    destruct (historyIndex s <? Z.of_nat (List.length (history s)) - 1)%Z eqn:E;
      [|apply Z.ltb_ge in E; lia].
    rewrite Ha. reflexivity.
  - intros E. unfold redo. rewrite E, Z.ltb_irrefl. reflexivity.
  - intros uuidv4 Eb Eh placed.
    assert (Ei : historyIndex s = (-1)%Z) by (rewrite Eh in U; cbn in U; lia).
    subst placed. unfold handlePlaceBrick, addToHistory.
    destruct s as [b sel col t r hp sim h i hov n].
    cbn [bricks history historyIndex setUuidCalls setHistoryState uuidCalls
         selectedTypeId selectedColorId rotation hoverPos] in *.
    subst b h i. cbn.
    do 2 eexists. repeat split.
Qed.

Lemma C2_undo_redo_witness :
  history_ok onePartState
  /\ undo onePartState = Some (setHistoryState onePartState (history onePartState) (-1) [])
  /\ redo (setHistoryState onePartState (history onePartState) (-1) []) = Some onePartState.
Proof.
  assert (H : history_ok onePartState) by (unfold history_ok; cbn; lia).
  split; [exact H|].
  destruct (C2_undo_redo H) as (_ & U0 & _ & _ & _ & _).
  split; [apply U0; reflexivity|].
  assert (H' : history_ok (setHistoryState onePartState (history onePartState) (-1) []))
    by (unfold history_ok; cbn; lia).
  destruct (C2_undo_redo H') as (_ & _ & _ & R & _ & _).
  destruct R as (snapshot & Ei & Er); [cbn; lia|].
  rewrite Er. cbn in Ei. injection Ei as <-. reflexivity.
Defined.


Lemma addToHistory_at_end newBricks s :
  history_ok s ->
  historyIndex (addToHistory newBricks s)
  = (Z.of_nat (List.length (history (addToHistory newBricks s))) - 1)%Z.
Proof. intros _. reflexivity. Qed.



Lemma filter_absent brickId (bs : list PlacedBrick) :
  (forall b, In b bs -> pb_id b <> brickId) ->
  filter (fun b => negb (String.eqb (pb_id b) brickId)) bs = bs.
Proof.
  induction bs as [|b bs IH]; intros A; [reflexivity|].
  cbn [filter]. destruct (String.eqb_spec (pb_id b) brickId) as [E|N].
  - exfalso. apply (A b); [left; reflexivity|exact E].
  - cbn [negb]. f_equal. apply IH. intros b' I. apply A. right. exact I.
Qed.

Lemma recolor_absent brickId colorHex (bs : list PlacedBrick) :
  (forall b, In b bs -> pb_id b <> brickId) ->
  map (fun b => if String.eqb (pb_id b) brickId then withColor b colorHex else b) bs = bs.
Proof.
  induction bs as [|b bs IH]; intros A; [reflexivity|].
  cbn [map]. destruct (String.eqb_spec (pb_id b) brickId) as [E|N].
  - exfalso. apply (A b); [left; reflexivity|exact E].
  - f_equal. apply IH. intros b' I. apply A. right. exact I.
Qed.

(** C10. For an identifier that no brick of the build carries, the delete
    and the paint tool leave the sequence of bricks unchanged, and yet each
    appends one snapshot, equal to the current build, and advances the
    index by one: the next [undo] only steps back over that snapshot and
    shows the same build again. *)
Theorem C10_absent_id_edit_recorded (s : AppState) (brickId : string) :
  history_ok s -> snapshot_ok s ->
  (forall b, In b (bricks s) -> pb_id b <> brickId) ->
  tool s = delete \/ tool s = paint ->
  let s' := handleBrickClick brickId s in
  bricks s' = bricks s
  /\ history s' = firstn (Z.to_nat (historyIndex s + 1)) (history s) ++ [bricks s]
  /\ historyIndex s' = (historyIndex s + 1)%Z
  /\ exists undone,
       undo s' = Some undone
       /\ bricks undone = bricks s
       /\ historyIndex undone = historyIndex s.
Proof.
  intros Hk Sn A T s'.
  assert (E : s' = addToHistory (bricks s) s).
  { subst s'. unfold handleBrickClick.
    destruct T as [-> | ->]; [rewrite filter_absent|rewrite recolor_absent]; auto. }
  rewrite E. clear E s'.
  destruct (addToHistory_spec (bricks s) Hk) as (Eh & Ei & Eb).
  repeat split; auto.
  pose proof Hk as [L U]. unfold undo. rewrite Ei.
  unfold snapshot_ok in Sn.
  destruct (historyIndex s + 1 >? 0)%Z eqn:E1.
  - rewrite Z.gtb_ltb in E1. apply Z.ltb_lt in E1.
    destruct (historyIndex s =? -1)%Z eqn:E2; [apply Z.eqb_eq in E2; lia|].
    replace (historyIndex s + 1 - 1)%Z with (historyIndex s) by lia.
    rewrite Eh, index_nth_error by lia.
    rewrite nth_error_app1 by (rewrite length_firstn; lia).
    rewrite nth_error_firstn.
    destruct (Nat.ltb_spec (Z.to_nat (historyIndex s)) (Z.to_nat (historyIndex s + 1))) as [_|G];
      [|lia].
    rewrite <- index_nth_error by lia. rewrite Sn.
    eexists. repeat split.
  - rewrite Z.gtb_ltb in E1. apply Z.ltb_ge in E1.
    assert (Ei' : historyIndex s = (-1)%Z) by lia.
    rewrite Ei' in *. cbn [Z.add Z.eqb Z.opp Pos.compare Pos.compare_cont] in *.
    eexists. repeat split. cbn [bricks setHistoryState]. symmetry. exact Sn.
Qed.

Lemma C10_absent_id_edit_recorded_witness :
  history_ok (setSelection onePartState "brick_1x1" "red" delete false)
  /\ snapshot_ok (setSelection onePartState "brick_1x1" "red" delete false)
  /\ bricks (handleBrickClick "absent" (setSelection onePartState "brick_1x1" "red" delete false))
     = bricks onePartState
  /\ historyIndex (handleBrickClick "absent"
                     (setSelection onePartState "brick_1x1" "red" delete false))
     = 1%Z.
Proof.
  assert (H : history_ok (setSelection onePartState "brick_1x1" "red" delete false))
    by (unfold history_ok; cbn; lia).
  assert (S : snapshot_ok (setSelection onePartState "brick_1x1" "red" delete false))
    by reflexivity.
  split; [exact H|]. split; [exact S|].
  assert (A : forall b,
    In b (bricks (setSelection onePartState "brick_1x1" "red" delete false)) ->
    pb_id b <> "absent").
  { intros b [<-|[]]. discriminate. }
  destruct (C10_absent_id_edit_recorded H S A (or_introl eq_refl)) as (Eb & _ & Ei & _).
  split; [exact Eb|exact Ei].
Defined.

End History.

(* ================================================================== *)
(** * Facts: the AI import adapter and the imports *)
(* ================================================================== *)

Section Imports.

Variable uuidv4 : nat -> string.

Lemma findType_id id t : findType id = Some t -> bt_id t = id.
Proof.
  unfold findType, JS.find. intros H. apply find_some in H.
  destruct H as [_ H]. apply String.eqb_eq in H. exact H.
Qed.

Lemma findColor_hex id c :
  findColor id = Some c -> forall d, JS.or_string (Some (bc_hex c)) d = bc_hex c.
Proof.
  unfold findColor, JS.find. intros H d. apply find_some in H.
  destruct H as [I _]. cbn in I.
  repeat (destruct I as [<-|I]; [reflexivity|]). destruct I.
Qed.

Lemma first_entries :
  hd_error BRICK_CATALOG = Some BRICK_CATALOG_0
  /\ hd_error COLORS = Some COLORS_0
  /\ bt_id BRICK_CATALOG_0 = "brick_1x1" /\ bc_hex COLORS_0 = "#ef4444".
Proof. repeat split. Qed.

Lemma convertItems_length rawData : forall calls,
  List.length (convertItems uuidv4 calls rawData) = List.length rawData.
Proof. induction rawData; intros; cbn; auto. Qed.

Lemma convertItems_nth rawData : forall calls i item,
  nth_error rawData i = Some item ->
  nth_error (convertItems uuidv4 calls rawData) i
  = Some (convertItem (uuidv4 (calls + i)) item).
Proof.
  induction rawData as [|x rest IH]; intros calls [|i] item H; try discriminate.
  - injection H as <-. cbn. rewrite Nat.add_0_r. reflexivity.
  - cbn in *. rewrite (IH (S calls) i item H). do 3 f_equal. lia.
Qed.

(** What one record becomes. *)
Lemma convertItem_fields id item :
  pb_id (convertItem id item) = id
  /\ pb_typeId (convertItem id item)
     = match findType (partId item) with
       | Some _ => partId item
       | None => bt_id BRICK_CATALOG_0
       end
  /\ pb_color (convertItem id item)
     = match findColor (colorId item) with
       | Some c => bc_hex c
       | None => bc_hex COLORS_0
       end
  /\ pb_rotation (convertItem id item)
     = match item_rotation item with
       | Some r => r
       | None => 0%Z
       end
  /\ pb_position (convertItem id item) = (item_x item, item_y item, item_z item).
Proof.
  unfold convertItem. cbn [pb_id pb_typeId pb_color pb_rotation pb_position].
  repeat split.
  - destruct (findType (partId item)) eqn:F; [apply (findType_id _ F)|reflexivity].
  - destruct (findColor (colorId item)) eqn:F; cbn [option_map];
      [apply (findColor_hex _ F)|reflexivity].
  - destruct (item_rotation item) as [r|]; cbn; [|reflexivity].
    destruct (r =? 0)%Z eqn:E; [apply Z.eqb_eq in E; auto|reflexivity].
Qed.

Lemma findType_catalogue t : In t BRICK_CATALOG -> findType (bt_id t) = Some t.
Proof.
  intros I. cbn in I.
  repeat (destruct I as [<-|I]; [reflexivity|]). destruct I.
Qed.

Lemma findColor_palette c : In c COLORS -> findColor (bc_id c) = Some c.
Proof.
  intros I. cbn in I.
  repeat (destruct I as [<-|I]; [reflexivity|]). destruct I.
Qed.

Lemma findType_unknown id :
  (forall t, In t BRICK_CATALOG -> bt_id t <> id) -> findType id = None.
Proof.
  intros N. destruct (findType id) as [t|] eqn:F; [|reflexivity].
  pose proof (@findType_id id t F) as E.
  unfold findType, JS.find in F. apply find_some in F. destruct F as [I _].
  destruct (N t I E).
Qed.

Lemma findColor_unknown id :
  (forall c, In c COLORS -> bc_id c <> id) -> findColor id = None.
Proof.
  intros N. destruct (findColor id) as [c|] eqn:F; [|reflexivity].
  unfold findColor, JS.find in F. apply find_some in F. destruct F as [I E].
  apply String.eqb_eq in E. destruct (N c I E).
Qed.

(** What one record becomes, read off the two tables. *)
Lemma convertItem_tables id item :
  (forall t, In t BRICK_CATALOG -> partId item = bt_id t ->
             pb_typeId (convertItem id item) = bt_id t)
  /\ ((forall t, In t BRICK_CATALOG -> bt_id t <> partId item) ->
      pb_typeId (convertItem id item) = "brick_1x1")
  /\ (forall c, In c COLORS -> colorId item = bc_id c ->
                pb_color (convertItem id item) = bc_hex c)
  /\ ((forall c, In c COLORS -> bc_id c <> colorId item) ->
      pb_color (convertItem id item) = "#ef4444").
Proof.
  unfold convertItem. cbn [pb_typeId pb_color]. repeat split.
  - intros t I E. rewrite E, (@findType_catalogue t I). reflexivity.
  - intros N. rewrite (@findType_unknown _ N). reflexivity.
  - intros c I E. rewrite E, (@findColor_palette c I). cbn [option_map].
    apply (@findColor_hex (bc_id c) c (@findColor_palette c I)).
  - intros N. rewrite (@findColor_unknown _ N). reflexivity.
Qed.

(** C7. Every record of an AI response is converted on its own, at its
    place: a part identifier of the catalogue is kept and an unknown one
    becomes that of the first catalogue entry; a colour identifier of the
    palette becomes the hex value of that colour and an unknown one that of
    the first colour; a missing rotation becomes 0; the position is
    copied.  The result has one brick per record, and is never [null].  A
    response made of a record with an unknown part and a record that names
    a part and a colour of the tables gives two bricks: one of the fallback
    type, and one that is the second record field for field. *)
Theorem C7_ai_import_fallbacks (calls : nat) (rawData : list RawItem) :
  exists generated,
    generateBuildFromPrompt uuidv4 calls (ResponseJSON rawData) = Some generated
    /\ List.length generated = List.length rawData
    /\ (forall i item,
          nth_error rawData i = Some item ->
          exists b,
            nth_error generated i = Some b
            /\ pb_id b = uuidv4 (calls + i)
            /\ pb_typeId b = match findType (partId item) with
                             | Some _ => partId item
                             | None => "brick_1x1"
                             end
            /\ (forall t, In t BRICK_CATALOG -> partId item = bt_id t ->
                          pb_typeId b = bt_id t)
            /\ ((forall t, In t BRICK_CATALOG -> bt_id t <> partId item) ->
                pb_typeId b = "brick_1x1")
            /\ pb_color b = match findColor (colorId item) with
                            | Some c => bc_hex c
                            | None => "#ef4444"
                            end
            /\ (forall c, In c COLORS -> colorId item = bc_id c ->
                          pb_color b = bc_hex c)
            /\ ((forall c, In c COLORS -> bc_id c <> colorId item) ->
                pb_color b = "#ef4444")
            /\ pb_rotation b = match item_rotation item with
                               | Some r => r
                               | None => 0%Z
                               end
            /\ pb_position b = (item_x item, item_y item, item_z item))
    /\ (forall unknown valid t c,
          rawData = [unknown; valid] ->
          (forall t', In t' BRICK_CATALOG -> bt_id t' <> partId unknown) ->
          In t BRICK_CATALOG -> partId valid = bt_id t ->
          In c COLORS -> colorId valid = bc_id c ->
          exists b1,
            generated
            = [b1;
               {| pb_id := uuidv4 (S calls);
                  pb_typeId := partId valid;
                  pb_position := (item_x valid, item_y valid, item_z valid);
                  pb_rotation := match item_rotation valid with
                                 | Some r => r
                                 | None => 0%Z
                                 end;
                  pb_color := bc_hex c |}]
            /\ pb_typeId b1 = "brick_1x1"
            /\ pb_position b1 = (item_x unknown, item_y unknown, item_z unknown)).
Proof.
  exists (convertItems uuidv4 calls rawData).
  split; [reflexivity|]. split; [apply convertItems_length|]. split.
  - intros i item H. eexists. split; [apply (convertItems_nth _ _ _ H)|].
    destruct (convertItem_fields (uuidv4 (calls + i)) item) as (Id & T & C & R & P).
    destruct (convertItem_tables (uuidv4 (calls + i)) item) as (T1 & T2 & C1 & C2).
    repeat split; assumption.
  - intros unknown valid t c -> U It Et Ic Ec. cbn [convertItems].
    eexists. split; [|split].
    + f_equal. f_equal.
      destruct (convertItem_fields (uuidv4 (S calls)) valid) as (Id & _ & _ & R & P).
      destruct (convertItem_tables (uuidv4 (S calls)) valid) as (T1 & _ & C1 & _).
      specialize (T1 t It Et). specialize (C1 c Ic Ec). rewrite <- Et in T1.
      destruct (convertItem (uuidv4 (S calls)) valid) as [i ty p r col].
      cbn [pb_id pb_typeId pb_position pb_rotation pb_color] in *.
      subst. reflexivity.
    + apply (convertItem_tables (uuidv4 calls) unknown), U.
    + reflexivity.
Qed.

End Imports.

Lemma C7_ai_import_fallbacks_witness :
  (forall t', In t' BRICK_CATALOG -> bt_id t' <> partId unknownPartItem)
  /\ In (mkType "plate_2x4" "Plate 2x4" plate 2 4 0.33 true None) BRICK_CATALOG
  /\ In {| bc_id := "green"; bc_name := "Dark Green"; bc_hex := "#15803d" |} COLORS
  /\ exists b1,
       generateBuildFromPrompt uuidSample 0 (ResponseJSON [unknownPartItem; validItem])
       = Some [b1;
               {| pb_id := "id-1"; pb_typeId := "plate_2x4";
                  pb_position := (1.5, 1.2, -2); pb_rotation := 0;
                  pb_color := "#15803d" |}]
       /\ pb_typeId b1 = "brick_1x1"
       /\ pb_color b1 = "#3b82f6".
Proof.
  assert (U : forall t', In t' BRICK_CATALOG -> bt_id t' <> partId unknownPartItem).
  { intros t' I. cbn in I.
    repeat (destruct I as [<-|I]; [discriminate|]). destruct I. }
  assert (It : In (mkType "plate_2x4" "Plate 2x4" plate 2 4 0.33 true None)
                 BRICK_CATALOG)
    by (cbn; repeat first [left; reflexivity | right]).
  assert (Ic : In {| bc_id := "green"; bc_name := "Dark Green"; bc_hex := "#15803d" |}
                 COLORS)
    by (cbn; repeat first [left; reflexivity | right]).
  split; [exact U|]. split; [exact It|]. split; [exact Ic|].
  destruct (C7_ai_import_fallbacks uuidSample 0 [unknownPartItem; validItem])
    as (generated & G & _ & Each & Pair).
  destruct (Pair unknownPartItem validItem _ _ eq_refl U It eq_refl Ic eq_refl)
    as (b1 & E & T1 & _).
  destruct (Each 0%nat unknownPartItem eq_refl)
    as (b & N & _ & _ & _ & _ & _ & C & _).
  exists b1. rewrite G, E. split; [reflexivity|]. split; [exact T1|].
  rewrite E in N. injection N as <-.
  apply (C {| bc_id := "blue"; bc_name := "Bright Blue"; bc_hex := "#3b82f6" |}).
  - cbn. repeat first [left; reflexivity | right].
  - reflexivity.
Defined.

Section Invariants.

Variable uuidv4 : nat -> string.

Lemma step_rotation_range s s' :
  step uuidv4 s s' -> (0 <= rotation s <= 3)%Z -> (0 <= rotation s' <= 3)%Z.
Proof.
  intros St R.
  destruct St as [e s|s|e s|s s' U|s s' Rd|s|c s|p r s|p s _|r s|content s s' I
                  |s|i content s s' I|i content s I|t s _|c s _|t s|s];
    try exact R.
  - unfold onPointerMove. destruct (handlePointerMove _ _ _ e); exact R.
  - unfold handleClick, handleBrickClick.
    destruct (isSimulating s); [exact R|].
    destruct (tool s), (hovered s), (e_brickId e) as [[|c0 id]|]; exact R.
  - unfold undo in U.
    destruct (historyIndex s >? 0)%Z;
      [destruct (JS.index (history s) (historyIndex s - 1)); [|discriminate]|
       destruct (historyIndex s =? 0)%Z]; injection U as <-; exact R.
  - unfold redo in Rd.
    destruct (historyIndex s <? Z.of_nat (List.length (history s)) - 1)%Z;
      [destruct (JS.index (history s) (historyIndex s + 1)); [|discriminate]|];
      injection Rd as <-; exact R.
  - unfold rotateBrick, JS.rem. cbn [rotation setRotation].
    pose proof (Z.rem_bound_pos (rotation s + 1) 4). lia.
  - destruct c; exact R.
  - unfold handleAiBuild. destruct p; [exact R|].
    destruct (generateBuildFromPrompt uuidv4 (uuidCalls s) r); exact R.
  - unfold handleAiBuild_await. destruct p; exact R.
  - unfold handleAiBuild_resume. destruct (aiRequest s); [|exact R].
    destruct (generateBuildFromPrompt uuidv4 (uuidCalls s) r); exact R.
  - unfold importFromFile in I. destruct (JSON.parse content); [|discriminate].
    destruct (asPlacedBricks v); [|discriminate]. injection I as <-. exact R.
  - unfold importFromFile_onload in I.
    destruct (nth_error (fileReads s) i); [|discriminate].
    destruct (JSON.parse content); [|discriminate].
    destruct (asPlacedBricks v); [|discriminate]. injection I as <-. exact R.
Qed.

(** The rotation selected in a session is always one of 0, 1, 2, 3. *)
Lemma reachable_rotation_range s : reachable uuidv4 s -> (0 <= rotation s <= 3)%Z.
Proof.
  induction 1 as [|s s' _ IH St]; [cbn; lia|].
  exact (step_rotation_range St IH).
Qed.

Lemma step_selected_type s s' :
  step uuidv4 s s' ->
  (exists def, findType (selectedTypeId s) = Some def) ->
  exists def, findType (selectedTypeId s') = Some def.
Proof.
  intros St R.
  destruct St as [e s|s|e s|s s' U|s s' Rd|s|c s|p r s|p s _|r s|content s s' I
                  |s|i content s s' I|i content s I|t s T|c s _|t s|s];
    try exact R.
  - unfold onPointerMove. destruct (handlePointerMove _ _ _ e); exact R.
  - unfold handleClick, handleBrickClick.
    destruct (isSimulating s); [exact R|].
    destruct (tool s), (hovered s), (e_brickId e) as [[|c0 id]|]; exact R.
  - unfold undo in U.
    destruct (historyIndex s >? 0)%Z;
      [destruct (JS.index (history s) (historyIndex s - 1)); [|discriminate]|
       destruct (historyIndex s =? 0)%Z]; injection U as <-; exact R.
  - unfold redo in Rd.
    destruct (historyIndex s <? Z.of_nat (List.length (history s)) - 1)%Z;
      [destruct (JS.index (history s) (historyIndex s + 1)); [|discriminate]|];
      injection Rd as <-; exact R.
  - destruct c; exact R.
  - unfold handleAiBuild. destruct p; [exact R|].
    destruct (generateBuildFromPrompt uuidv4 (uuidCalls s) r); exact R.
  - unfold handleAiBuild_await. destruct p; exact R.
  - unfold handleAiBuild_resume. destruct (aiRequest s); [|exact R].
    destruct (generateBuildFromPrompt uuidv4 (uuidCalls s) r); exact R.
  - unfold importFromFile in I. destruct (JSON.parse content); [|discriminate].
    destruct (asPlacedBricks v); [|discriminate]. injection I as <-. exact R.
  - unfold importFromFile_onload in I.
    destruct (nth_error (fileReads s) i); [|discriminate].
    destruct (JSON.parse content); [|discriminate].
    destruct (asPlacedBricks v); [|discriminate]. injection I as <-. exact R.
  - exists t. apply findType_catalogue, T.
Qed.

(** The type selected in a session is always in the catalogue: the
    resolver finds its definition. *)
Lemma reachable_selected_type s :
  reachable uuidv4 s -> exists def, findType (selectedTypeId s) = Some def.
Proof.
  induction 1 as [|s s' _ IH St]; [eexists; reflexivity|].
  exact (step_selected_type St IH).
Qed.

(** A brick placed by hand carries a rotation within 0..3. *)
Lemma handlePlaceBrick_rotation s :
  reachable uuidv4 s ->
  exists b, bricks (handlePlaceBrick uuidv4 s) = bricks s ++ [b]
            /\ validBrick b = true.
Proof.
  intros R. apply reachable_rotation_range in R.
  eexists. split; [reflexivity|].
  unfold validBrick, validRotation. cbn [pb_rotation].
  apply andb_true_intro. split; apply Z.leb_le; lia.
Qed.

(** C4. The rotation invariant does not hold of every reachable build: an
    AI response, and likewise an imported file, with a record of rotation 7
    puts a brick of rotation 7 into the build. *)
Theorem C4_import_admits_rotation_out_of_range :
  (exists s b,
     reachable uuidv4 s /\ In b (bricks s)
     /\ pb_rotation b = 7%Z /\ validBrick b = false
     /\ s = handleAiBuild uuidv4 "a tall tower" (ResponseJSON [rotation7Item]) initialState)
  /\ (exists s b,
        reachable uuidv4 s /\ In b (bricks s)
        /\ pb_rotation b = 7%Z /\ validBrick b = false
        /\ importFromFile (Some (JSON.stringify (bricksToJSON [rotation7Brick])))
             initialState = Loaded s).
Proof.
  split.
  - exists (handleAiBuild uuidv4 "a tall tower" (ResponseJSON [rotation7Item]) initialState).
    eexists. split; [|split; [left; reflexivity|repeat split]].
    eapply reachable_step; [apply reachable_initial|apply step_aiBuild].
  - assert (I : importFromFile (Some (JSON.stringify (bricksToJSON [rotation7Brick])))
                  initialState = Loaded (addToHistory [rotation7Brick] initialState))
      by (vm_compute; reflexivity).
    exists (addToHistory [rotation7Brick] initialState), rotation7Brick.
    split; [|split; [left; reflexivity|repeat split; exact I]].
    eapply reachable_step; [apply reachable_initial|].
    eapply step_import. exact I.
Qed.








End Invariants.



(* ================================================================== *)
(** * Facts: sessions and the history manager *)
(* ================================================================== *)

Section SessionFacts.

Variable uuidv4 : nat -> string.

Lemma addToHistory_shape nb s :
  history_ok s ->
  history (addToHistory nb s)
    = firstn (Z.to_nat (historyIndex s + 1)) (history s) ++ [nb]
  /\ historyIndex (addToHistory nb s) = (historyIndex s + 1)%Z.
Proof. intros H. destruct (addToHistory_spec nb H) as (A & B & _). auto. Qed.

Lemma step_edited s s' :
  history_ok s -> upToDate s -> step uuidv4 s s' -> edited s s'.
Proof.
  intros Hk Up St.
  assert (A : forall nb, edited s (addToHistory nb s)).
  { intros nb. right. exists nb. apply addToHistory_shape, Hk. }
  assert (K : edited s s) by (left; reflexivity).
  assert (Cl : forall c, In c (suspended s) -> c = closureOf s)
    by (apply Forall_forall, Up).
  destruct St as [e s|s|e s|s s' U|s s' R|s|c s|p r s|p s _|r s|content s s' I
                  |s|i content s s' I|i content s I|t s _|c s _|t s|s];
    try exact K.
  - unfold onPointerMove. destruct (handlePointerMove _ _ _ e); exact K.
  - unfold handleClick, handleBrickClick, handlePlaceBrick.
    destruct (isSimulating s); [exact K|].
    destruct (tool s), (hovered s), (e_brickId e) as [[|c0 id]|];
      solve [exact K | apply A
            | right; eexists; apply (@addToHistory_shape _ (setUuidCalls s _)), Hk].
  - left. unfold undo in U.
    destruct (historyIndex s >? 0)%Z;
      [destruct (JS.index (history s) (historyIndex s - 1)); [|discriminate]|
       destruct (historyIndex s =? 0)%Z]; injection U as <-; reflexivity.
  - left. unfold redo in R.
    destruct (historyIndex s <? Z.of_nat (List.length (history s)) - 1)%Z;
      [destruct (JS.index (history s) (historyIndex s + 1)); [|discriminate]|];
      injection R as <-; reflexivity.
  - destruct c; [apply A|exact K].
  - unfold handleAiBuild. destruct p; [exact K|].
    destruct (generateBuildFromPrompt uuidv4 (uuidCalls s) r); [|exact K].
    right. eexists. apply (@addToHistory_shape _ (setUuidCalls s _)), Hk.
  - unfold handleAiBuild_await. destruct p; [exact K|left; reflexivity].
  - unfold handleAiBuild_resume.
    destruct (aiRequest s) as [c|] eqn:E; [|exact K].
    rewrite (Cl c (aiRequest_suspended _ E)).
    destruct (generateBuildFromPrompt uuidv4 (uuidCalls s) r); [|left; reflexivity].
    right. eexists.
    apply (@addToHistory_shape _ (setUuidCalls (setAiRequest s None) _)), Hk.
  - unfold importFromFile in I. destruct (JSON.parse content); [|discriminate].
    destruct (asPlacedBricks v); [|discriminate]. injection I as <-. apply A.
  - unfold importFromFile_onload in I.
    destruct (nth_error (fileReads s) i) as [c|] eqn:E; [|discriminate].
    destruct (JSON.parse content); [|discriminate].
    destruct (asPlacedBricks v); [|discriminate]. injection I as <-.
    rewrite (Cl c (fileReads_suspended _ _ (nth_error_In _ _ E))).
    right. eexists.
    apply (@addToHistory_shape _ (setFileReads s _)), Hk.
Qed.

Lemma sessionStep_edited s s' :
  history_ok s -> upToDate s -> sessionStep uuidv4 s s' -> edited s s'.
Proof.
  intros Hk Up St. destruct St as [s s' St|saved s s' L]; [eauto using step_edited|].
  unfold loadFromLocalStorage in L.
  destruct saved as [[|c0 content]|]; try discriminate.
  destruct (JSON.parse (String c0 content)); [|discriminate].
  destruct (asPlacedBricks v); [|discriminate]. injection L as <-.
  right. eexists. apply addToHistory_shape, Hk.
Qed.

Lemma sessionStep_state_ok s s' :
  sessionStep uuidv4 s s' -> state_ok s -> request_ok s -> state_ok s'.
Proof.
  intros St Ok Rq. destruct St as [s s' St|saved s s' L]; [eauto using step_state_ok|].
  unfold loadFromLocalStorage in L.
  destruct saved as [[|c0 content]|]; try discriminate.
  destruct (JSON.parse (String c0 content)); [|discriminate].
  destruct (asPlacedBricks v); [|discriminate]. injection L as <-.
  apply addToHistory_state_ok, Ok.
Qed.

Lemma sessionStep_request_ok s s' :
  sessionStep uuidv4 s s' -> state_ok s -> request_ok s -> request_ok s'.
Proof.
  intros St Ok Rq. destruct St as [s s' St|saved s s' L]; [eauto using step_request_ok|].
  unfold loadFromLocalStorage in L.
  destruct saved as [[|c0 content]|]; try discriminate.
  destruct (JSON.parse (String c0 content)); [|discriminate].
  destruct (asPlacedBricks v); [|discriminate]. injection L as <-. exact Rq.
Qed.

Lemma session_ok s : session uuidv4 s -> state_ok s /\ request_ok s.
Proof.
  induction 1 as [|s s' _ [Ok Rq] St];
    [split; [apply state_ok_initial|constructor]|].
  split; [exact (sessionStep_state_ok St Ok Rq)|exact (sessionStep_request_ok St Ok Rq)].
Qed.

Lemma session_state_ok s : session uuidv4 s -> state_ok s.
Proof. intros S. apply (session_ok S). Qed.

(** Closures that are up to date hold a consistent record. *)
Lemma upToDate_request_ok s : state_ok s -> upToDate s -> request_ok s.
Proof.
  unfold upToDate, request_ok. intros Ok Up.
  eapply Forall_impl; [|exact Up]. intros c ->. apply closureOf_ok, Ok.
Qed.

(** The two halves of [handleAiBuild] with nothing in between are the
    whole of it. *)
Lemma handleAiBuild_halves aiPrompt r s :
  aiRequest s = None ->
  handleAiBuild_resume uuidv4 r (handleAiBuild_await aiPrompt s)
  = handleAiBuild uuidv4 aiPrompt r s.
Proof.
  intros N. unfold handleAiBuild_resume, handleAiBuild_await, handleAiBuild.
  destruct aiPrompt as [|c0 p]; [rewrite N; reflexivity|].
  cbn [aiRequest setAiRequest uuidCalls closureOf closure_bricks closure_history
       closure_historyIndex].
  destruct (generateBuildFromPrompt uuidv4 (uuidCalls s) r).
  - unfold addToHistory, addToHistory_in, setHistoryState, setUuidCalls, setAiRequest.
    cbn [bricks selectedTypeId selectedColorId tool rotation hoverPos isSimulating
         history historyIndex hovered uuidCalls aiRequest fileReads closureOf
         closure_bricks closure_history closure_historyIndex].
    rewrite N. reflexivity.
  - destruct s. cbn in *. subst. reflexivity.
Qed.

(** Likewise the two halves of a file import. *)
Lemma importFromFile_halves content s :
  importFromFile_onload (List.length (fileReads s)) content
    (importFromFile_read true s)
  = importFromFile (Some content) s.
Proof.
  unfold importFromFile_onload, importFromFile_read, importFromFile.
  cbn [fileReads setFileReads].
  rewrite nth_error_app2 by lia. rewrite Nat.sub_diag. cbn [nth_error].
  destruct (JSON.parse content) as [loaded|]; [|reflexivity].
  destruct (asPlacedBricks loaded) as [bs|]; [|reflexivity].
  f_equal. unfold removeAt. rewrite firstn_app, Nat.sub_diag, firstn_all.
  rewrite skipn_app, skipn_all2 by lia.
  replace (S (List.length (fileReads s)) - List.length (fileReads s))%nat
    with 1%nat by lia.
  cbn [firstn skipn app]. rewrite !app_nil_r.
  destruct s. reflexivity.
Qed.

Lemma edited_prefix s s' i :
  history_ok s -> edited s s' -> (0 <= i <= historyIndex s)%Z ->
  JS.index (history s') i = JS.index (history s) i.
Proof.
  intros [L U] [E|(nb & E & _)] I; rewrite E; [reflexivity|].
  rewrite !index_nth_error by lia.
  rewrite nth_error_app1 by (rewrite length_firstn; lia).
  rewrite nth_error_firstn.
  destruct (Nat.ltb_spec (Z.to_nat i) (Z.to_nat (historyIndex s + 1))); [reflexivity|lia].
Qed.

(** X1. In every state of a session, quick loads included, the history
    index lies in [-1, length - 1] and the build shown is the snapshot at
    the index (the empty build at -1). *)
Theorem X1_session_history_invariant (s : AppState) :
  session uuidv4 s -> history_ok s /\ snapshot_ok s.
Proof. intros S. exact (session_state_ok S). Qed.

(** X2. As long as no callback is yet to run (the response of an AI call,
    the end of a file read), or none whose closure is out of date,
    whatever interaction advanced the history index by one (a place, a
    delete, a paint, a clear, an import, a quick load, a redo, or the
    response of an AI call or the end of a file read started in the state
    as it is), the next [undo] shows the build as it was before and puts
    the index back. *)
Theorem X2_undo_reverts_last_edit (s s' : AppState) :
  history_ok s -> snapshot_ok s -> upToDate s ->
  sessionStep uuidv4 s s' ->
  historyIndex s' = (historyIndex s + 1)%Z ->
  exists undone,
    undo s' = Some undone
    /\ bricks undone = bricks s
    /\ historyIndex undone = historyIndex s
    /\ history undone = history s'.
Proof.
  intros Hk Sn Up St Ei.
  pose proof (sessionStep_edited Hk Up St) as Ed.
  destruct (sessionStep_state_ok St (conj Hk Sn)
              (upToDate_request_ok (conj Hk Sn) Up)) as [[L' U'] _].
  pose proof Hk as [L U]. unfold undo. rewrite Ei.
  unfold snapshot_ok in Sn.
  destruct (historyIndex s + 1 >? 0)%Z eqn:E1.
  - rewrite Z.gtb_ltb in E1. apply Z.ltb_lt in E1.
    destruct (historyIndex s =? -1)%Z eqn:E2; [apply Z.eqb_eq in E2; lia|].
    replace (historyIndex s + 1 - 1)%Z with (historyIndex s) by lia.
    rewrite (edited_prefix Hk Ed) by lia. rewrite Sn.
    eexists. repeat split.
  - rewrite Z.gtb_ltb in E1. apply Z.ltb_ge in E1.
    assert (Ei' : historyIndex s = (-1)%Z) by lia.
    rewrite Ei' in *. cbn [Z.add Z.eqb Z.opp Pos.compare Pos.compare_cont] in *.
    eexists. repeat split. cbn [bricks setHistoryState]. symmetry. exact Sn.
Qed.

(** X3. [redo] undoes [undo] and [undo] undoes [redo]: from a state whose
    index is at least 0, [undo] then [redo] gives the state back, and from
    a state with a snapshot ahead, [redo] then [undo] gives it back. *)
Theorem X3_undo_redo_inverse (s : AppState) :
  history_ok s -> snapshot_ok s ->
  ((0 <= historyIndex s)%Z ->
     exists undone, undo s = Some undone /\ redo undone = Some s)
  /\ ((historyIndex s < Z.of_nat (List.length (history s)) - 1)%Z ->
       exists redone, redo s = Some redone /\ undo redone = Some s).
Proof.
  intros [L U] Sn. unfold snapshot_ok in Sn.
  destruct s as [b sel col t r hp sim h i hov n rq fr].
  cbn [bricks history historyIndex] in *. split.
  - intros P.
    destruct (i =? -1)%Z eqn:E0; [apply Z.eqb_eq in E0; lia|].
    unfold undo. cbn [historyIndex history].
    destruct (i >? 0)%Z eqn:E1.
    + rewrite Z.gtb_ltb in E1. apply Z.ltb_lt in E1.
      destruct (@index_in_range _ h (i - 1)%Z) as [a Ha]; [lia|].
      rewrite Ha. eexists. split; [reflexivity|].
      unfold redo. cbn [historyIndex history setHistoryState].
      destruct (i - 1 <? Z.of_nat (List.length h) - 1)%Z eqn:E2;
        [|apply Z.ltb_ge in E2; lia].
      replace (i - 1 + 1)%Z with i by lia. rewrite Sn. reflexivity.
    + assert (Ei : i = 0%Z) by (rewrite Z.gtb_ltb in E1; apply Z.ltb_ge in E1; lia).
      destruct (i =? 0)%Z eqn:E3; [|apply Z.eqb_neq in E3; lia].
      eexists. split; [reflexivity|].
      unfold redo. cbn [historyIndex history setHistoryState].
      destruct (-1 <? Z.of_nat (List.length h) - 1)%Z eqn:E2;
        [|apply Z.ltb_ge in E2; lia].
      replace (-1 + 1)%Z with i by lia. rewrite Sn. reflexivity.
  - intros P. unfold redo. cbn [historyIndex history].
    destruct (i <? Z.of_nat (List.length h) - 1)%Z eqn:E1; [|apply Z.ltb_ge in E1; lia].
    destruct (@index_in_range _ h (i + 1)%Z) as [a Ha]; [lia|].
    rewrite Ha. eexists. split; [reflexivity|].
    unfold undo. cbn [historyIndex history setHistoryState].
    destruct (i =? -1)%Z eqn:E0.
    + apply Z.eqb_eq in E0.
      destruct (i + 1 >? 0)%Z eqn:E2;
        [rewrite Z.gtb_ltb in E2; apply Z.ltb_lt in E2; lia|].
      destruct (i + 1 =? 0)%Z eqn:E3; [|apply Z.eqb_neq in E3; lia].
      rewrite Sn, E0. reflexivity.
    + apply Z.eqb_neq in E0.
      destruct (i + 1 >? 0)%Z eqn:E2;
        [|rewrite Z.gtb_ltb in E2; apply Z.ltb_ge in E2; lia].
      replace (i + 1 - 1)%Z with i by lia. rewrite Sn. reflexivity.
Qed.

Lemma undoTimes_to_empty n : forall s,
  history_ok s -> Z.to_nat (historyIndex s + 1) = n ->
  exists u, undoTimes n s = Some u
            /\ bricks u = (if (historyIndex s =? -1)%Z then bricks s else [])
            /\ historyIndex u = (-1)%Z /\ history u = history s.
Proof.
  induction n as [|n IH]; intros s [L U] E.
  - assert (Ei : historyIndex s = (-1)%Z) by lia.
    exists s. rewrite Ei. repeat split.
  - destruct (historyIndex s =? -1)%Z eqn:E0; [apply Z.eqb_eq in E0; lia|].
    cbn [undoTimes]. unfold undo.
    destruct (historyIndex s >? 0)%Z eqn:E1.
    + rewrite Z.gtb_ltb in E1. apply Z.ltb_lt in E1.
      destruct (@index_in_range _ (history s) (historyIndex s - 1)%Z) as [a Ha]; [lia|].
      rewrite Ha.
      destruct (IH (setHistoryState s (history s) (historyIndex s - 1) a))
        as (u & Hu & Hb & Hi & Hh).
      * unfold history_ok. cbn [history historyIndex setHistoryState]. lia.
      * cbn [historyIndex setHistoryState]. lia.
      * exists u. cbn [history historyIndex bricks setHistoryState] in *.
        destruct (historyIndex s - 1 =? -1)%Z eqn:E2; [apply Z.eqb_eq in E2; lia|].
        auto.
    + assert (Ei : historyIndex s = 0%Z)
        by (rewrite Z.gtb_ltb in E1; apply Z.ltb_ge in E1; lia).
      rewrite Ei. cbn [Z.eqb].
      assert (n = 0%nat) by lia. subst n. cbn [undoTimes].
      eexists. repeat split.
Qed.

(** X4. From a state with index [i >= 0], [i + 1] presses of [undo] all
    succeed and end at the empty build with index -1, and the snapshot
    list is still whole, so that every edit can be redone. *)
Theorem X4_undo_all_reaches_empty (s : AppState) :
  history_ok s -> (0 <= historyIndex s)%Z ->
  exists u,
    undoTimes (Z.to_nat (historyIndex s + 1)) s = Some u
    /\ bricks u = [] /\ historyIndex u = (-1)%Z /\ history u = history s.
Proof.
  intros Hk P.
  destruct (undoTimes_to_empty Hk eq_refl) as (u & Hu & Hb & Hi & Hh).
  destruct (historyIndex s =? -1)%Z eqn:E0; [apply Z.eqb_eq in E0; lia|].
  eauto.
Qed.

(** X5. As long as no callback is yet to run (the response of an AI call,
    the end of a file read), or none whose closure is out of date, no
    interaction alters a recorded snapshot at or before the current index:
    what [undo] can go back to is not rewritten. *)
Theorem X5_past_snapshots_kept (s s' : AppState) (i : Z) :
  history_ok s -> upToDate s ->
  sessionStep uuidv4 s s' ->
  (0 <= i <= historyIndex s)%Z ->
  JS.index (history s') i = JS.index (history s) i
  /\ exists snapshot, JS.index (history s) i = Some snapshot.
Proof.
  intros Hk Up St I. split.
  - apply edited_prefix; eauto using sessionStep_edited.
  - apply index_in_range. destruct Hk. lia.
Qed.

Lemma step_aiRequest s s' :
  step uuidv4 s s' ->
  aiRequest s' = aiRequest s
  \/ aiRequest s' = None
  \/ aiRequest s' = Some {| closure_bricks := bricks s;
                            closure_history := history s;
                            closure_historyIndex := historyIndex s |}.
Proof.
  intros St.
  destruct St as [e s|s|e s|s s' U|s s' R|s|c s|p r s|p s _|r s|content s s' I
                  |s|i content s s' I|i content s I|t s _|c s _|t s|s];
    try (left; reflexivity).
  - left. unfold onPointerMove. destruct (handlePointerMove _ _ _ e); reflexivity.
  - left. unfold handleClick, handleBrickClick.
    destruct (isSimulating s); [reflexivity|].
    destruct (tool s), (hovered s), (e_brickId e) as [[|c0 id]|]; reflexivity.
  - left. eapply undo_aiRequest; eassumption.
  - left. eapply redo_aiRequest; eassumption.
  - left. destruct c; reflexivity.
  - left. unfold handleAiBuild. destruct p; [reflexivity|].
    destruct (generateBuildFromPrompt uuidv4 (uuidCalls s) r); reflexivity.
  - unfold handleAiBuild_await. destruct p; [left; reflexivity|].
    right. right. reflexivity.
  - unfold handleAiBuild_resume. destruct (aiRequest s) eqn:E; [|left; exact E].
    right. left.
    destruct (generateBuildFromPrompt uuidv4 (uuidCalls s) r); reflexivity.
  - left. unfold importFromFile in I. destruct (JSON.parse content); [|discriminate].
    destruct (asPlacedBricks v); [|discriminate]. injection I as <-. reflexivity.
  - left. unfold importFromFile_onload in I.
    destruct (nth_error (fileReads s) i); [|discriminate].
    destruct (JSON.parse content); [|discriminate].
    destruct (asPlacedBricks v); [|discriminate]. injection I as <-. reflexivity.
Qed.

(** What a suspended call holds are the cells of an earlier state of the
    session. *)
Lemma session_request_origin s c :
  session uuidv4 s -> aiRequest s = Some c ->
  exists s0, session uuidv4 s0
             /\ closure_bricks c = bricks s0
             /\ closure_history c = history s0
             /\ closure_historyIndex c = historyIndex s0.
Proof.
  intros S. revert c. induction S as [|s s' S IH St]; intros c E; [discriminate E|].
  assert (A : aiRequest s' = aiRequest s
              \/ aiRequest s' = None
              \/ aiRequest s' = Some {| closure_bricks := bricks s;
                                        closure_history := history s;
                                        closure_historyIndex := historyIndex s |}).
  { destruct St as [s s' St|saved s s' L]; [exact (step_aiRequest St)|].
    left. unfold loadFromLocalStorage in L.
    destruct saved as [[|c0 content]|]; try discriminate.
    destruct (JSON.parse (String c0 content)); [|discriminate].
    destruct (asPlacedBricks v); [|discriminate]. injection L as <-. reflexivity. }
  destruct A as [A|[A|A]]; rewrite A in E.
  - exact (IH c E).
  - discriminate E.
  - injection E as <-. exists s. auto.
Qed.

(** X25. The response of an AI call is committed on the build and the
    history the call holds, those of the state in which "Generate Build"
    was pressed, whatever was done since: after the response the build is
    the build of that state followed by the generated bricks, the history
    is the history of that state up to its index followed by the new
    build, nothing can be redone, and [undo] shows the build of that
    state.  What was placed, deleted or painted while the call was
    suspended is in none of them. *)
Theorem X25_ai_response_commits_on_closure
    (s : AppState) (c : Closure) (rawData : list RawItem) :
  session uuidv4 s ->
  aiRequest s = Some c ->
  let s' := handleAiBuild_resume uuidv4 (ResponseJSON rawData) s in
  (exists pressed,
     session uuidv4 pressed
     /\ bricks s' = bricks pressed ++ convertItems uuidv4 (uuidCalls s) rawData
     /\ history s'
        = firstn (Z.to_nat (historyIndex pressed + 1)) (history pressed) ++ [bricks s']
     /\ historyIndex s' = (historyIndex pressed + 1)%Z
     /\ exists undone,
          undo s' = Some undone
          /\ bricks undone = bricks pressed
          /\ historyIndex undone = historyIndex pressed)
  /\ redo s' = Some s'
  /\ aiRequest s' = None
  /\ session uuidv4 s'.
Proof.
  intros S E s'.
  destruct (session_request_origin S E) as (s0 & S0 & Eb & Eh & Ei).
  destruct (session_ok S0) as [[[L U] Sn] _].
  assert (Es : s' = setHistoryState
                 (setUuidCalls (setAiRequest s None)
                    (uuidCalls s + List.length (convertItems uuidv4 (uuidCalls s) rawData)))
                 (JS.slice0 (history s0) (historyIndex s0 + 1)
                  ++ [bricks s0 ++ convertItems uuidv4 (uuidCalls s) rawData])
                 (Z.of_nat (List.length
                    (JS.slice0 (history s0) (historyIndex s0 + 1)
                     ++ [bricks s0 ++ convertItems uuidv4 (uuidCalls s) rawData])) - 1)
                 (bricks s0 ++ convertItems uuidv4 (uuidCalls s) rawData)).
  { subst s'. unfold handleAiBuild_resume. rewrite E.
    cbn [generateBuildFromPrompt]. unfold addToHistory_in.
    rewrite Eb, Eh, Ei. reflexivity. }
  assert (Len : List.length (JS.slice0 (history s0) (historyIndex s0 + 1))
                = Z.to_nat (historyIndex s0 + 1)).
  { rewrite slice0_firstn by lia. rewrite length_firstn. lia. }
  assert (Hi : historyIndex s' = (historyIndex s0 + 1)%Z).
  { rewrite Es. cbn [historyIndex setHistoryState].
    rewrite length_app, Len. cbn [List.length]. lia. }
  assert (Hh : history s'
               = firstn (Z.to_nat (historyIndex s0 + 1)) (history s0) ++ [bricks s']).
  { rewrite Es. cbn [history bricks setHistoryState].
    rewrite slice0_firstn by lia. reflexivity. }
  assert (Hb : bricks s' = bricks s0 ++ convertItems uuidv4 (uuidCalls s) rawData)
    by (rewrite Es; reflexivity).
  split; [exists s0; split; [exact S0|]; split; [exact Hb|]; split; [exact Hh|];
          split; [exact Hi|]|].
  - unfold undo. rewrite Hi, Hh. unfold snapshot_ok in Sn.
    destruct (historyIndex s0 =? -1)%Z eqn:E0.
    + apply Z.eqb_eq in E0. rewrite E0. cbn [Z.add Z.gtb Z.compare Z.eqb].
      eexists. split; [reflexivity|]. cbn [bricks historyIndex setHistoryState].
      split; [symmetry; exact Sn|reflexivity].
    + apply Z.eqb_neq in E0.
      destruct (historyIndex s0 + 1 >? 0)%Z eqn:E1;
        [|rewrite Z.gtb_ltb in E1; apply Z.ltb_ge in E1; lia].
      replace (historyIndex s0 + 1 - 1)%Z with (historyIndex s0) by lia.
      rewrite index_nth_error by lia.
      rewrite nth_error_app1 by (rewrite length_firstn; lia).
      rewrite nth_error_firstn.
      destruct (Nat.ltb_spec (Z.to_nat (historyIndex s0))
                  (Z.to_nat (historyIndex s0 + 1))); [|lia].
      rewrite <- index_nth_error by lia. rewrite Sn.
      eexists. split; [reflexivity|]. split; reflexivity.
  - split; [|split].
    + unfold redo. rewrite Hi, Hh.
      rewrite length_app, length_firstn. cbn [List.length].
      destruct (_ <? _)%Z eqn:E1; [apply Z.ltb_lt in E1; lia|reflexivity].
    + rewrite Es. reflexivity.
    + eapply session_next; [exact S|]. apply session_interaction, step_aiResume.
Qed.

(** The closure of every callback yet to run is that of an earlier state
    of the session. *)
Lemma session_suspended_origin s c :
  session uuidv4 s -> In c (suspended s) ->
  exists s0, session uuidv4 s0 /\ c = closureOf s0.
Proof.
  intros S. revert c. induction S as [|s s' S IH St]; intros c I; [destruct I|].
  assert (A : c = closureOf s \/ In c (suspended s)).
  { destruct St as [s s' St|saved s s' L].
    - apply (step_suspended St) in I. destruct I as [<-|I]; auto.
    - right. unfold loadFromLocalStorage in L.
      destruct saved as [[|c0 content]|]; try discriminate.
      destruct (JSON.parse (String c0 content)); [|discriminate].
      destruct (asPlacedBricks v); [|discriminate]. injection L as <-. exact I. }
  destruct A as [->|A]; [exists s; auto|exact (IH c A)].
Qed.

(** [addToHistory] executed with the closure of [s0], in whatever state:
    what it writes into the three cells. *)
Lemma addToHistory_in_closure s0 nb t :
  state_ok s0 ->
  let s' := addToHistory_in (closureOf s0) nb t in
  bricks s' = nb
  /\ history s' = firstn (Z.to_nat (historyIndex s0 + 1)) (history s0) ++ [nb]
  /\ historyIndex s' = (historyIndex s0 + 1)%Z
  /\ (exists undone,
        undo s' = Some undone
        /\ bricks undone = bricks s0
        /\ historyIndex undone = historyIndex s0)
  /\ redo s' = Some s'.
Proof.
  intros [[L U] Sn] s'.
  assert (Hh : history s'
               = firstn (Z.to_nat (historyIndex s0 + 1)) (history s0) ++ [nb]).
  { subst s'. unfold addToHistory_in.
    cbn [history setHistoryState closureOf closure_history closure_historyIndex].
    rewrite slice0_firstn by lia. reflexivity. }
  assert (Hi : historyIndex s' = (historyIndex s0 + 1)%Z).
  { subst s'. unfold addToHistory_in.
    cbn [historyIndex setHistoryState closureOf closure_history closure_historyIndex].
    rewrite slice0_firstn by lia.
    rewrite length_app, length_firstn. cbn [List.length]. lia. }
  split; [reflexivity|]. split; [exact Hh|]. split; [exact Hi|]. split.
  - unfold undo. rewrite Hi, Hh. unfold snapshot_ok in Sn.
    destruct (historyIndex s0 =? -1)%Z eqn:E0.
    + apply Z.eqb_eq in E0. rewrite E0. cbn [Z.add Z.gtb Z.compare Z.eqb].
      eexists. split; [reflexivity|]. cbn [bricks historyIndex setHistoryState].
      split; [symmetry; exact Sn|reflexivity].
    + apply Z.eqb_neq in E0.
      destruct (historyIndex s0 + 1 >? 0)%Z eqn:E1;
        [|rewrite Z.gtb_ltb in E1; apply Z.ltb_ge in E1; lia].
      replace (historyIndex s0 + 1 - 1)%Z with (historyIndex s0) by lia.
      rewrite index_nth_error by lia.
      rewrite nth_error_app1 by (rewrite length_firstn; lia).
      rewrite nth_error_firstn.
      destruct (Nat.ltb_spec (Z.to_nat (historyIndex s0))
                  (Z.to_nat (historyIndex s0 + 1))); [|lia].
      rewrite <- index_nth_error by lia. rewrite Sn.
      eexists. split; [reflexivity|]. split; reflexivity.
  - unfold redo. rewrite Hi, Hh.
    rewrite length_app, length_firstn. cbn [List.length].
    destruct (_ <? _)%Z eqn:E1; [apply Z.ltb_lt in E1; lia|reflexivity].
Qed.

(** X26. The build of a file is committed, when its read ends, on the
    history of the state in which the file was chosen, whatever was done
    since: the build becomes the build of the file, the history becomes
    the history of that state up to its index followed by the build of the
    file, nothing can be redone, and [undo] shows the build of that state.
    The snapshots recorded while the file was read are no longer in the
    history. *)
Theorem X26_file_read_commits_on_closure
    (s s' : AppState) (i : nat) (content : string) :
  session uuidv4 s ->
  importFromFile_onload i content s = Loaded s' ->
  (exists chosen loaded,
     session uuidv4 chosen
     /\ nth_error (fileReads s) i = Some (closureOf chosen)
     /\ JSON.parse content = Some loaded
     /\ asPlacedBricks loaded = Some (bricks s')
     /\ history s'
        = firstn (Z.to_nat (historyIndex chosen + 1)) (history chosen) ++ [bricks s']
     /\ historyIndex s' = (historyIndex chosen + 1)%Z
     /\ exists undone,
          undo s' = Some undone
          /\ bricks undone = bricks chosen
          /\ historyIndex undone = historyIndex chosen)
  /\ redo s' = Some s'
  /\ fileReads s' = removeAt i (fileReads s)
  /\ session uuidv4 s'.
Proof.
  intros S I. pose proof I as I0. unfold importFromFile_onload in I.
  destruct (nth_error (fileReads s) i) as [c|] eqn:E; [|discriminate].
  destruct (JSON.parse content) as [loaded|] eqn:P; [|discriminate].
  destruct (asPlacedBricks loaded) as [bs|] eqn:B; [|discriminate].
  injection I as <-.
  destruct (@session_suspended_origin s c S
              (fileReads_suspended _ _ (nth_error_In _ _ E))) as (s0 & S0 & ->).
  destruct (@addToHistory_in_closure s0 bs (setFileReads s (removeAt i (fileReads s)))
              (session_state_ok S0)) as (Hb & Hh & Hi & Hu & Hr).
  split; [exists s0, loaded; rewrite Hb; auto 10|].
  split; [exact Hr|]. split; [reflexivity|].
  eapply session_next; [exact S|]. eapply session_interaction, step_importLoad, I0.
Qed.

End SessionFacts.

Lemma onePartState_session : session uuidSample onePartState.
Proof.
  eapply session_next; [eapply session_next; [apply session_initial|]|].
  - apply session_interaction. apply (step_pointerMove uuidSample groundPointer).
  - apply session_interaction.
    exact (step_click uuidSample groundPointer (onPointerMove groundPointer initialState)).
Qed.

Lemma onePartState_ok : history_ok onePartState /\ snapshot_ok onePartState.
Proof. split; [unfold history_ok; cbn; lia|reflexivity]. Qed.

Lemma twoPartState_step : sessionStep uuidSample onePartState twoPartState.
Proof. apply session_interaction. apply step_click. Qed.

Lemma X1_session_history_invariant_witness :
  session uuidSample onePartState
  /\ history_ok onePartState /\ snapshot_ok onePartState.
Proof.
  split; [exact onePartState_session|].
  exact (X1_session_history_invariant onePartState_session).
Defined.

Lemma X2_undo_reverts_last_edit_witness :
  (history_ok onePartState /\ snapshot_ok onePartState)
  /\ sessionStep uuidSample onePartState twoPartState
  /\ historyIndex twoPartState = (historyIndex onePartState + 1)%Z
  /\ exists undone,
       undo twoPartState = Some undone
       /\ bricks undone = bricks onePartState
       /\ historyIndex undone = 0%Z.
Proof.
  split; [exact onePartState_ok|]. split; [exact twoPartState_step|].
  split; [reflexivity|].
  destruct (X2_undo_reverts_last_edit (proj1 onePartState_ok) (proj2 onePartState_ok)
              (Forall_nil _) twoPartState_step eq_refl) as (u & Hu & Hb & Hi & _).
  exists u. auto.
Defined.

Lemma X3_undo_redo_inverse_witness :
  (history_ok onePartState /\ snapshot_ok onePartState)
  /\ (0 <= historyIndex onePartState)%Z
  /\ exists undone, undo onePartState = Some undone /\ redo undone = Some onePartState.
Proof.
  split; [exact onePartState_ok|].
  assert (P : (0 <= historyIndex onePartState)%Z) by (apply Z.leb_le; reflexivity).
  split; [exact P|].
  exact (proj1 (X3_undo_redo_inverse (proj1 onePartState_ok) (proj2 onePartState_ok)) P).
Defined.

Lemma X4_undo_all_reaches_empty_witness :
  history_ok twoPartState
  /\ (0 <= historyIndex twoPartState)%Z
  /\ exists u,
       undoTimes 2 twoPartState = Some u
       /\ bricks u = [] /\ historyIndex u = (-1)%Z
       /\ history u = history twoPartState.
Proof.
  assert (H : history_ok twoPartState)
    by (split; [apply Z.leb_le|apply Z.ltb_lt]; reflexivity).
  assert (P : (0 <= historyIndex twoPartState)%Z) by (apply Z.leb_le; reflexivity).
  split; [exact H|]. split; [exact P|].
  exact (X4_undo_all_reaches_empty H P).
Defined.

Lemma X5_past_snapshots_kept_witness :
  history_ok onePartState
  /\ sessionStep uuidSample onePartState twoPartState
  /\ JS.index (history twoPartState) 0 = JS.index (history onePartState) 0
  /\ exists snapshot, JS.index (history onePartState) 0 = Some snapshot.
Proof.
  split; [exact (proj1 onePartState_ok)|]. split; [exact twoPartState_step|].
  apply (X5_past_snapshots_kept (i := 0) (proj1 onePartState_ok) (Forall_nil _)
           twoPartState_step).
  split; apply Z.leb_le; reflexivity.
Defined.

Lemma placedWhileWaiting_session : session uuidSample placedWhileWaiting.
Proof.
  eapply session_next; [eapply session_next; [exact onePartState_session|]|].
  - apply session_interaction. apply (step_aiAwait uuidSample "a castle"). reflexivity.
  - apply session_interaction. apply step_click.
Qed.

Lemma X25_ai_response_commits_on_closure_witness :
  session uuidSample placedWhileWaiting
  /\ aiRequest placedWhileWaiting
     = Some {| closure_bricks := bricks onePartState;
               closure_history := history onePartState;
               closure_historyIndex := 0 |}
  /\ map pb_id (bricks placedWhileWaiting) = ["id-0"; "id-1"]
  /\ map pb_id (bricks (handleAiBuild_resume uuidSample (ResponseJSON [validItem])
                          placedWhileWaiting))
     = ["id-0"; "id-2"]
  /\ redo (handleAiBuild_resume uuidSample (ResponseJSON [validItem])
             placedWhileWaiting)
     = Some (handleAiBuild_resume uuidSample (ResponseJSON [validItem])
               placedWhileWaiting).
Proof.
  split; [exact placedWhileWaiting_session|]. split; [reflexivity|].
  split; [reflexivity|]. split; [reflexivity|].
  exact (proj1 (proj2 (@X25_ai_response_commits_on_closure uuidSample
                         placedWhileWaiting _ [validItem]
                         placedWhileWaiting_session eq_refl))).
Defined.

(** A call that was just made is up to date; it no longer is once a brick
    was placed, and its response then rewrites the snapshot at the current
    index: the build with the brick placed meanwhile is gone from the
    history. *)
Example late_response_rewrites_snapshot :
  upToDate (handleAiBuild_await "a castle" onePartState)
  /\ ~ upToDate placedWhileWaiting
  /\ historyIndex placedWhileWaiting = 1%Z
  /\ option_map (map pb_id) (JS.index (history placedWhileWaiting) 1)
     = Some ["id-0"; "id-1"]
  /\ option_map (map pb_id)
       (JS.index (history (handleAiBuild_resume uuidSample (ResponseJSON [validItem])
                             placedWhileWaiting)) 1)
     = Some ["id-0"; "id-2"].
Proof.
  split; [constructor; [reflexivity|constructor]|].
  split; [|repeat split].
  intros U. inversion U as [|c l E _]. discriminate E.
Qed.

Lemma placedWhileReading_session : session uuidSample placedWhileReading.
Proof.
  eapply session_next; [eapply session_next; [exact onePartState_session|]|].
  - apply session_interaction. apply step_importRead.
  - apply session_interaction. apply step_click.
Qed.

Lemma X26_file_read_commits_on_closure_witness :
  session uuidSample placedWhileReading
  /\ fileReads placedWhileReading = [closureOf onePartState]
  /\ map (map pb_id) (history placedWhileReading) = [["id-0"]; ["id-0"; "id-1"]]
  /\ exists s',
       importFromFile_onload 0 parityFile placedWhileReading = Loaded s'
       /\ map (map pb_id) (history s') = [["id-0"]; ["a1"; "b2"]]
       /\ (exists undone, undo s' = Some undone /\ map pb_id (bricks undone) = ["id-0"])
       /\ redo s' = Some s'.
Proof.
  split; [exact placedWhileReading_session|]. split; [reflexivity|].
  split; [reflexivity|].
  assert (E : importFromFile_onload 0 parityFile placedWhileReading
              = Loaded (addToHistory_in (closureOf onePartState)
                          (map normBrick twoParityBuild)
                          (setFileReads placedWhileReading [])))
    by (vm_compute; reflexivity).
  eexists. split; [exact E|]. split; [reflexivity|].
  destruct (@X26_file_read_commits_on_closure uuidSample placedWhileReading _ 0%nat
              parityFile placedWhileReading_session E)
    as ((chosen & loaded & _ & C & _ & _ & _ & _ & undone & U & Ub & _) & R & _).
  split; [|exact R].
  exists undone. split; [exact U|]. rewrite Ub.
  cbn in C. injection C as C. rewrite <- C. reflexivity.
Defined.

(* ================================================================== *)
(** * Facts: identifiers, delete and paint *)
(* ================================================================== *)

Section Identifiers.

Variable uuidv4 : nat -> string.
Hypothesis uuidv4_injective : forall a b, uuidv4 a = uuidv4 b -> a = b.

Lemma ownIds_mono c c' bs : (c <= c')%nat -> ownIds uuidv4 c bs -> ownIds uuidv4 c' bs.
Proof.
  intros L [N K]. split; [exact N|].
  intros b I. destruct (K b I) as (k & Hk & E). exists k. split; [lia|exact E].
Qed.

Lemma ownIds_nil c : ownIds uuidv4 c [].
Proof. split; [constructor|intros b []]. Qed.

Lemma NoDup_map_filter {A B} (f : A -> B) (p : A -> bool) l :
  NoDup (map f l) -> NoDup (map f (filter p l)).
Proof.
  induction l as [|a l IH]; intros N; [exact N|].
  inversion N as [|? ? Hn N']; subst. cbn [filter].
  destruct (p a); [|auto].
  cbn [map]. constructor; [|auto].
  intros I. apply Hn. apply in_map_iff in I. destruct I as (x & E & I).
  apply filter_In in I. apply in_map_iff. exists x. tauto.
Qed.

Lemma ownIds_filter c p bs : ownIds uuidv4 c bs -> ownIds uuidv4 c (filter p bs).
Proof.
  intros [N K]. split; [apply NoDup_map_filter, N|].
  intros b I. apply filter_In in I. apply K. tauto.
Qed.

Lemma recolor_ids brickId colorHex bs :
  map pb_id (map (fun b => if String.eqb (pb_id b) brickId
                           then withColor b colorHex else b) bs)
  = map pb_id bs.
Proof.
  rewrite map_map. apply map_ext. intros b.
  destruct (String.eqb (pb_id b) brickId); reflexivity.
Qed.

Lemma ownIds_recolor c brickId colorHex bs :
  ownIds uuidv4 c bs ->
  ownIds uuidv4 c (map (fun b => if String.eqb (pb_id b) brickId
                                 then withColor b colorHex else b) bs).
Proof.
  intros [N K]. split; [rewrite recolor_ids; exact N|].
  intros b I. apply in_map_iff in I. destruct I as (x & E & I).
  destruct (K x I) as (k & Hk & Ek). exists k. split; [exact Hk|].
  subst b. destruct (String.eqb (pb_id x) brickId); exact Ek.
Qed.

Lemma ownIds_snoc c bs b :
  ownIds uuidv4 c bs -> pb_id b = uuidv4 c -> ownIds uuidv4 (S c) (bs ++ [b]).
Proof.
  intros [N K] E. split.
  - rewrite map_app. cbn [map].
    apply NoDup_app; [exact N|repeat constructor; intros []|].
    intros x I [<-|[]]. apply in_map_iff in I. destruct I as (b' & E' & I).
    destruct (K b' I) as (k & Hk & Ek).
    assert (k = c) by (apply uuidv4_injective; congruence). lia.
  - intros x I. apply in_app_or in I. destruct I as [I|[<-|[]]].
    + destruct (K x I) as (k & Hk & Ek). exists k. split; [lia|exact Ek].
    + exists c. split; [lia|exact E].
Qed.

Lemma ownIds_convertItems rawData : forall c bs,
  ownIds uuidv4 c bs ->
  ownIds uuidv4 (c + List.length rawData) (bs ++ convertItems uuidv4 c rawData).
Proof.
  induction rawData as [|item rest IH]; intros c bs O.
  - cbn. rewrite app_nil_r, Nat.add_0_r. exact O.
  - cbn [convertItems List.length].
    replace (bs ++ convertItem (uuidv4 c) item :: convertItems uuidv4 (S c) rest)
      with ((bs ++ [convertItem (uuidv4 c) item]) ++ convertItems uuidv4 (S c) rest)
      by (rewrite <- app_assoc; reflexivity).
    replace (c + S (List.length rest))%nat with (S c + List.length rest)%nat by lia.
    apply IH. apply ownIds_snoc; [exact O|reflexivity].
Qed.

Lemma Forall_take {A} (P : A -> Prop) n : forall l,
  Forall P l -> Forall P (firstn n l).
Proof.
  induction n as [|n IH]; intros l F; [constructor|].
  destruct F; cbn [firstn]; constructor; auto.
Qed.

Lemma ownState_addToHistory nb s c :
  (uuidCalls s <= c)%nat ->
  ownState uuidv4 s -> ownIds uuidv4 c nb ->
  ownState uuidv4 (addToHistory nb (setUuidCalls s c)).
Proof.
  intros L [Ob Oh] On. unfold ownState, addToHistory.
  cbn [bricks history uuidCalls historyIndex setHistoryState setUuidCalls].
  split; [exact On|].
  apply Forall_app. split; [|constructor; [exact On|constructor]].
  unfold JS.slice0. apply Forall_take.
  eapply Forall_impl; [|exact Oh]. intros bs. apply ownIds_mono, L.
Qed.

Lemma ownState_addToHistory_same nb s :
  ownState uuidv4 s -> ownIds uuidv4 (uuidCalls s) nb ->
  ownState uuidv4 (addToHistory nb s).
Proof.
  intros O On.
  exact (@ownState_addToHistory nb s (uuidCalls s) (Nat.le_refl _) O On).
Qed.

Lemma ownState_snapshot s i snapshot :
  ownState uuidv4 s -> JS.index (history s) i = Some snapshot ->
  ownState uuidv4 (setHistoryState s (history s) i snapshot)
  /\ ownIds uuidv4 (uuidCalls s) snapshot.
Proof.
  intros [Ob Oh] E. unfold JS.index in E.
  destruct (i <? 0)%Z; [discriminate|]. apply nth_error_In in E.
  rewrite Forall_forall in Oh. pose proof (Oh _ E) as Os.
  split; [|exact Os]. split; [exact Os|].
  cbn [history uuidCalls setHistoryState]. apply Forall_forall, Oh.
Qed.

Lemma ownStep_ownState s s' :
  ownStep uuidv4 s s' -> ownState uuidv4 s -> ownRequest uuidv4 s ->
  ownState uuidv4 s'.
Proof.
  intros St O Rq. pose proof O as [Ob Oh].
  destruct St as [e s|s|e s|s s' U|s s' R|s|c s|p r s|p s _|r s|t s _|c s _|t s|s];
    try exact O.
  - unfold onPointerMove. destruct (handlePointerMove _ _ _ e); exact O.
  - unfold handleClick, handleBrickClick, handlePlaceBrick.
    destruct (isSimulating s); [exact O|].
    assert (Place : ownState uuidv4
              (addToHistory
                 (bricks s ++
                  [{| pb_id := uuidv4 (uuidCalls s); pb_typeId := selectedTypeId s;
                      pb_position := hoverPos s; pb_rotation := rotation s;
                      pb_color := JS.or_string
                        (option_map bc_hex (findColor (selectedColorId s))) "#fff" |}])
                 (setUuidCalls s (S (uuidCalls s))))).
    { apply ownState_addToHistory; [lia|exact O|].
      apply ownIds_snoc; [exact Ob|reflexivity]. }
    destruct (tool s), (hovered s), (e_brickId e) as [[|c0 id]|];
      solve [exact O | exact Place
            | apply ownState_addToHistory_same; [exact O|apply ownIds_filter, Ob]
            | apply ownState_addToHistory_same; [exact O|apply ownIds_recolor, Ob]].
  - unfold undo in U.
    destruct (historyIndex s >? 0)%Z.
    + destruct (JS.index (history s) (historyIndex s - 1)) eqn:E; [|discriminate].
      injection U as <-. eapply ownState_snapshot; eassumption.
    + destruct (historyIndex s =? 0)%Z; injection U as <-; [|exact O].
      split; [apply ownIds_nil|exact Oh].
  - unfold redo in R.
    destruct (historyIndex s <? Z.of_nat (List.length (history s)) - 1)%Z.
    + destruct (JS.index (history s) (historyIndex s + 1)) eqn:E; [|discriminate].
      injection R as <-. eapply ownState_snapshot; eassumption.
    + injection R as <-. exact O.
  - destruct c; [|exact O]. apply ownState_addToHistory_same; [exact O|apply ownIds_nil].
  - unfold handleAiBuild. destruct p; [exact O|].
    destruct r as [| |rawData]; try exact O.
    cbn [generateBuildFromPrompt]. rewrite convertItems_length.
    apply ownState_addToHistory; [lia|exact O|].
    apply ownIds_convertItems, Ob.
  - unfold handleAiBuild_await. destruct p; exact O.
  - unfold handleAiBuild_resume. unfold ownRequest in Rq.
    destruct (aiRequest s) as [c|]; [|exact O]. destruct Rq as [Cb Ch].
    destruct r as [| |rawData]; try exact O.
    cbn [generateBuildFromPrompt]. rewrite convertItems_length.
    assert (On : ownIds uuidv4 (uuidCalls s + List.length rawData)
                   (closure_bricks c ++ convertItems uuidv4 (uuidCalls s) rawData))
      by apply ownIds_convertItems, Cb.
    unfold ownState, addToHistory_in.
    cbn [bricks history uuidCalls setHistoryState setUuidCalls setAiRequest].
    split; [exact On|].
    apply Forall_app. split; [|constructor; [exact On|constructor]].
    unfold JS.slice0. apply Forall_take.
    eapply Forall_impl; [|exact Ch]. intros bs. apply ownIds_mono. lia.
Qed.

Lemma ownRequest_ext s s' :
  aiRequest s' = aiRequest s -> (uuidCalls s <= uuidCalls s')%nat ->
  ownRequest uuidv4 s -> ownRequest uuidv4 s'.
Proof.
  unfold ownRequest. intros -> L. destruct (aiRequest s) as [c|]; [|auto].
  intros [Cb Ch]. split; [exact (ownIds_mono L Cb)|].
  eapply Forall_impl; [|exact Ch]. intros bs. apply ownIds_mono, L.
Qed.

Lemma ownStep_ownRequest s s' :
  ownStep uuidv4 s s' -> ownState uuidv4 s -> ownRequest uuidv4 s ->
  ownRequest uuidv4 s'.
Proof.
  intros St O Rq.
  destruct St as [e s|s|e s|s s' U|s s' R|s|c s|p r s|p s _|r s|t s _|c s _|t s|s];
    try exact Rq.
  - unfold onPointerMove. destruct (handlePointerMove _ _ _ e); exact Rq.
  - unfold handleClick, handleBrickClick, handlePlaceBrick.
    destruct (isSimulating s); [exact Rq|].
    destruct (tool s), (hovered s), (e_brickId e) as [[|c0 id]|];
      solve [exact Rq
            | apply (@ownRequest_ext s); [reflexivity|cbn; lia|exact Rq]].
  - apply (@ownRequest_ext s); [eapply undo_aiRequest; eassumption| |exact Rq].
    unfold undo in U.
    destruct (historyIndex s >? 0)%Z;
      [destruct (JS.index (history s) (historyIndex s - 1)); [|discriminate]|
       destruct (historyIndex s =? 0)%Z]; injection U as <-; cbn; lia.
  - apply (@ownRequest_ext s); [eapply redo_aiRequest; eassumption| |exact Rq].
    unfold redo in R.
    destruct (historyIndex s <? Z.of_nat (List.length (history s)) - 1)%Z;
      [destruct (JS.index (history s) (historyIndex s + 1)); [|discriminate]|];
      injection R as <-; cbn; lia.
  - destruct c; exact Rq.
  - unfold handleAiBuild. destruct p; [exact Rq|].
    destruct (generateBuildFromPrompt uuidv4 (uuidCalls s) r); [|exact Rq].
    apply (@ownRequest_ext s); [reflexivity|cbn; lia|exact Rq].
  - unfold handleAiBuild_await. destruct p; [exact Rq|].
    unfold ownRequest.
    cbn [aiRequest setAiRequest uuidCalls closureOf closure_bricks closure_history].
    exact O.
  - unfold handleAiBuild_resume.
    destruct (aiRequest s) as [c|] eqn:E; [|exact Rq].
    destruct (generateBuildFromPrompt uuidv4 (uuidCalls s) r); exact I.
Qed.

Lemma ownReachable_own s :
  ownReachable uuidv4 s -> ownState uuidv4 s /\ ownRequest uuidv4 s.
Proof.
  induction 1 as [|s s' _ [O Rq] St].
  - split; [split; [apply ownIds_nil|constructor]|exact I].
  - split; [exact (ownStep_ownState St O Rq)|exact (ownStep_ownRequest St O Rq)].
Qed.

Lemma ownReachable_ownState s : ownReachable uuidv4 s -> ownState uuidv4 s.
Proof. intros R. apply (ownReachable_own R). Qed.

(** X6. With a generator that never repeats itself, in a session without
    file import or quick load (places, deletes, paints, AI builds, clears,
    undo and redo), no two bricks of the build ever share an identifier,
    and the same holds of every recorded snapshot. *)
Theorem X6_identifiers_unique (s : AppState) :
  ownReachable uuidv4 s ->
  NoDup (map pb_id (bricks s))
  /\ Forall (fun snapshot => NoDup (map pb_id snapshot)) (history s).
Proof.
  intros R. destruct (ownReachable_ownState R) as [[N _] Oh].
  split; [exact N|].
  eapply Forall_impl; [|exact Oh]. intros bs [Nb _]. exact Nb.
Qed.

End Identifiers.

Lemma filter_other_ids brickId (l : list PlacedBrick) :
  ~ In brickId (map pb_id l) ->
  filter (fun b => negb (String.eqb (pb_id b) brickId)) l = l.
Proof.
  intros N. apply filter_absent. intros b I E. apply N.
  apply in_map_iff. exists b. auto.
Qed.

Lemma NoDup_split_ids (l1 l2 : list PlacedBrick) b :
  NoDup (map pb_id (l1 ++ b :: l2)) ->
  ~ In (pb_id b) (map pb_id l1) /\ ~ In (pb_id b) (map pb_id l2).
Proof.
  rewrite map_app. cbn [map]. intros N.
  apply NoDup_remove_2 in N. split; intros I; apply N, in_or_app; auto.
Qed.

(** X7. The delete tool removes from the build every brick that carries
    the identifier clicked and nothing else; when identifiers are distinct
    that is exactly the brick clicked, and the bricks before and after it
    keep their order. *)
Theorem X7_delete_removes_clicked_brick
    (s : AppState) (l1 l2 : list PlacedBrick) (b : PlacedBrick) :
  tool s = delete ->
  bricks s = l1 ++ b :: l2 ->
  NoDup (map pb_id (bricks s)) ->
  bricks (handleBrickClick (pb_id b) s) = l1 ++ l2
  /\ (forall b', In b' (bricks (handleBrickClick (pb_id b) s))
                 <-> In b' (bricks s) /\ pb_id b' <> pb_id b).
Proof.
  intros T E N. unfold handleBrickClick. rewrite T.
  cbn [bricks addToHistory setHistoryState]. split.
  - rewrite E in *. destruct (NoDup_split_ids _ _ _ N) as [N1 N2].
    rewrite filter_app. cbn [filter]. rewrite String.eqb_refl. cbn [negb].
    rewrite !filter_other_ids by assumption. reflexivity.
  - intros b'. rewrite filter_In.
    destruct (String.eqb_spec (pb_id b') (pb_id b)) as [Eq|Ne]; cbn [negb].
    + split; [intros [_ F]; discriminate F|intros [_ F]; contradiction].
    + tauto.
Qed.

Lemma recolor_other_ids brickId colorHex (l : list PlacedBrick) :
  ~ In brickId (map pb_id l) ->
  map (fun b => if String.eqb (pb_id b) brickId then withColor b colorHex else b) l = l.
Proof.
  intros N. apply recolor_absent. intros b I E. apply N.
  apply in_map_iff. exists b. auto.
Qed.

(** X8. The paint tool gives the brick clicked the hex value of the
    selected colour and changes nothing else: with distinct identifiers the
    bricks before and after it are untouched, and the painted brick keeps
    its identifier, type, position and rotation. *)
Theorem X8_paint_recolours_clicked_brick
    (s : AppState) (l1 l2 : list PlacedBrick) (b : PlacedBrick) (c : BrickColor) :
  tool s = paint ->
  findColor (selectedColorId s) = Some c ->
  bricks s = l1 ++ b :: l2 ->
  NoDup (map pb_id (bricks s)) ->
  bricks (handleBrickClick (pb_id b) s)
  = l1 ++ {| pb_id := pb_id b; pb_typeId := pb_typeId b;
             pb_position := pb_position b; pb_rotation := pb_rotation b;
             pb_color := bc_hex c |} :: l2.
Proof.
  intros T F E N. unfold handleBrickClick. rewrite T, F.
  cbn [bricks addToHistory setHistoryState option_map].
  rewrite (findColor_hex _ F).
  rewrite E in *. destruct (NoDup_split_ids _ _ _ N) as [N1 N2].
  rewrite map_app. cbn [map]. rewrite String.eqb_refl.
  rewrite !recolor_other_ids by assumption. reflexivity.
Qed.

Lemma uuidTally_injective a : forall b, uuidTally a = uuidTally b -> a = b.
Proof.
  induction a as [|a IH]; intros [|b] E; try reflexivity; try discriminate E.
  cbn in E. injection E as E. f_equal. apply IH, E.
Qed.

Lemma X6_identifiers_unique_witness :
  (forall a b, uuidTally a = uuidTally b -> a = b)
  /\ ownReachable uuidTally
       (handleClick uuidTally groundPointer
          (handleClick uuidTally groundPointer (onPointerMove groundPointer initialState)))
  /\ NoDup (map pb_id
       (bricks (handleClick uuidTally groundPointer
          (handleClick uuidTally groundPointer (onPointerMove groundPointer initialState))))).
Proof.
  assert (R : ownReachable uuidTally
       (handleClick uuidTally groundPointer
          (handleClick uuidTally groundPointer (onPointerMove groundPointer initialState)))).
  { eapply own_step; [eapply own_step; [eapply own_step; [apply own_initial|]|]|].
    - apply (own_pointerMove uuidTally groundPointer).
    - apply own_click.
    - apply own_click. }
  split; [exact uuidTally_injective|]. split; [exact R|].
  exact (proj1 (X6_identifiers_unique uuidTally_injective R)).
Defined.

Lemma X7_delete_removes_clicked_brick_witness :
  tool deleteToolState = delete
  /\ bricks deleteToolState = [] ++ nth 0 twoParityBuild rotation7Brick
                                 :: [nth 1 twoParityBuild rotation7Brick]
  /\ NoDup (map pb_id (bricks deleteToolState))
  /\ bricks (handleBrickClick "a1" deleteToolState)
     = [nth 1 twoParityBuild rotation7Brick].
Proof.
  assert (N : NoDup (map pb_id (bricks deleteToolState))).
  { repeat constructor; cbn; intuition discriminate. }
  split; [reflexivity|]. split; [reflexivity|]. split; [exact N|].
  exact (proj1 (@X7_delete_removes_clicked_brick deleteToolState []
                  [nth 1 twoParityBuild rotation7Brick]
                  (nth 0 twoParityBuild rotation7Brick) eq_refl eq_refl N)).
Defined.

Lemma X8_paint_recolours_clicked_brick_witness :
  tool paintToolState = paint
  /\ findColor (selectedColorId paintToolState)
     = Some {| bc_id := "blue"; bc_name := "Bright Blue"; bc_hex := "#3b82f6" |}
  /\ NoDup (map pb_id (bricks paintToolState))
  /\ map pb_color (bricks (handleBrickClick "a1" paintToolState))
     = ["#3b82f6"; "#3b82f6"].
Proof.
  assert (N : NoDup (map pb_id (bricks paintToolState))).
  { repeat constructor; cbn; intuition discriminate. }
  split; [reflexivity|]. split; [reflexivity|]. split; [exact N|].
  change "a1" with (pb_id (nth 0 twoParityBuild rotation7Brick)).
  rewrite (@X8_paint_recolours_clicked_brick paintToolState []
             [nth 1 twoParityBuild rotation7Brick]
             (nth 0 twoParityBuild rotation7Brick)
             {| bc_id := "blue"; bc_name := "Bright Blue"; bc_hex := "#3b82f6" |}
             eq_refl eq_refl eq_refl N).
  reflexivity.
Defined.

(* ================================================================== *)
(** * Facts: selection, pointer and ghost *)
(* ================================================================== *)

Section Pointer.

Variable uuidv4 : nat -> string.

Lemma quickLoad_fields saved s s' :
  loadFromLocalStorage saved s = Restored s' ->
  rotation s' = rotation s /\ selectedTypeId s' = selectedTypeId s.
Proof.
  unfold loadFromLocalStorage. destruct saved as [[|c0 content]|]; try discriminate.
  destruct (JSON.parse (String c0 content)); [|discriminate].
  destruct (asPlacedBricks v); [|discriminate]. intros [= <-]. split; reflexivity.
Qed.

Lemma session_rotation_range s : session uuidv4 s -> (0 <= rotation s <= 3)%Z.
Proof.
  induction 1 as [|s s' _ IH St]; [cbn; lia|].
  destruct St as [s s' St|saved s s' L].
  - exact (step_rotation_range St IH).
  - destruct (quickLoad_fields _ _ L) as [-> _]. exact IH.
Qed.

Lemma session_selected_type s :
  session uuidv4 s -> exists def, findType (selectedTypeId s) = Some def.
Proof.
  induction 1 as [|s s' _ IH St]; [eexists; reflexivity|].
  destruct St as [s s' St|saved s s' L].
  - exact (step_selected_type St IH).
  - destruct (quickLoad_fields _ _ L) as [_ ->]. exact IH.
Qed.

(** X9. In every state of a session the selected rotation is one of
    0, 1, 2, 3, one press of the rotate button changes it, and four
    presses give the state back. *)
Theorem X9_rotation_cycle (s : AppState) :
  session uuidv4 s ->
  (0 <= rotation s <= 3)%Z /\ rotateTimes 4 s = s
  /\ rotation (rotateBrick s) <> rotation s.
Proof.
  intros R. pose proof (session_rotation_range R) as Rg.
  split; [exact Rg|].
  destruct s as [b sel col t r hp sim h i hov n]. cbn [rotation] in *.
  assert (C : (r = 0 \/ r = 1 \/ r = 2 \/ r = 3)%Z) by lia.
  split; destruct C as [-> | [-> | [-> | ->]]]; try reflexivity; cbn; discriminate.
Qed.

(** X10. In every state of a session in edit mode, a pointer move over the
    scene finds the selected type, resolves a position, stores it as the
    hover position and marks the pointer as hovering; with the place tool
    the ghost is then shown at that position with the selected type and
    rotation. *)
Theorem X10_pointer_move_shows_ghost (s : AppState) (e : PointerEvent) :
  session uuidv4 s ->
  isSimulating s = false ->
  exists def p,
    findType (selectedTypeId s) = Some def
    /\ handlePointerMove false (selectedTypeId s) (rotation s) e = Some p
    /\ hoverPos (onPointerMove e s) = p
    /\ hovered (onPointerMove e s) = true
    /\ bricks (onPointerMove e s) = bricks s
    /\ (tool s = place ->
        exists g, ghost (onPointerMove e s) = Some g
                  /\ ghost_type g = def /\ ghost_position g = p
                  /\ ghost_rotation g = rotation s).
Proof.
  intros R Sim. destruct (session_selected_type R) as [def F].
  exists def.
  assert (exists p, handlePointerMove false (selectedTypeId s) (rotation s) e = Some p)
    as [p P].
  { unfold handlePointerMove. rewrite F. eauto. }
  exists p. unfold onPointerMove. rewrite Sim, P.
  split; [exact F|]. do 4 (split; [reflexivity|]).
  intros T. unfold ghost. cbn [tool selectedTypeId hovered setHover]. rewrite T, F.
  eexists. repeat split.
Qed.

End Pointer.

Lemma X9_rotation_cycle_witness :
  session uuidSample onePartState
  /\ rotateTimes 4 onePartState = onePartState
  /\ rotation (rotateBrick (rotateBrick (rotateBrick onePartState))) = 3%Z.
Proof.
  split; [exact onePartState_session|].
  split; [exact (proj1 (proj2 (X9_rotation_cycle onePartState_session)))|reflexivity].
Defined.

Lemma X10_pointer_move_shows_ghost_witness :
  session uuidSample onePartState
  /\ isSimulating onePartState = false
  /\ exists def p,
       findType (selectedTypeId onePartState) = Some def
       /\ handlePointerMove false (selectedTypeId onePartState)
            (rotation onePartState) stackedPointer = Some p
       /\ hoverPos (onPointerMove stackedPointer onePartState) = p.
Proof.
  split; [exact onePartState_session|]. split; [reflexivity|].
  destruct (X10_pointer_move_shows_ghost stackedPointer onePartState_session eq_refl)
    as (def & p & F & P & H & _).
  exists def, p. auto.
Defined.

(** X11. A click edits nothing while the simulation runs, with the view
    or rotate tool, with the delete or paint tool on no brick, and with the
    place tool once the pointer has left the scene (the hover position is
    kept but the ghost is gone). *)
Theorem X11_click_without_effect (uuidv4 : nat -> string) (e : PointerEvent)
    (s : AppState) :
  (isSimulating s = true -> handleClick uuidv4 e s = s /\ onPointerMove e s = s)
  /\ (tool s = view \/ tool s = rotate -> handleClick uuidv4 e s = s)
  /\ (tool s = delete \/ tool s = paint -> e_brickId e = None ->
      handleClick uuidv4 e s = s)
  /\ (tool s = place ->
      handleClick uuidv4 e (handlePointerOut s) = handlePointerOut s
      /\ hoverPos (handlePointerOut s) = hoverPos s
      /\ ghost (handlePointerOut s) = None).
Proof.
  split; [|split; [|split]].
  - intros Sim. unfold handleClick, onPointerMove, handlePointerMove.
    rewrite Sim. split; reflexivity.
  - intros T. unfold handleClick. destruct (isSimulating s); [reflexivity|].
    destruct T as [-> | ->]; destruct (hovered s), (e_brickId e) as [[|c id]|]; reflexivity.
  - intros T B. unfold handleClick. destruct (isSimulating s); [reflexivity|]. rewrite B.
    destruct T as [-> | ->]; destruct (hovered s); reflexivity.
  - intros T. split; [|split; [reflexivity|]].
    + unfold handleClick.
      cbn [isSimulating tool hovered handlePointerOut setHover]. rewrite T.
      destruct (isSimulating s); [reflexivity|].
      destruct (e_brickId e) as [[|c id]|]; reflexivity.
    + unfold ghost. cbn [tool hovered selectedTypeId handlePointerOut setHover].
      rewrite T. destruct (findType (selectedTypeId s)); reflexivity.
Qed.

(* ================================================================== *)
(** * Facts: snapping distances and stacking *)
(* ================================================================== *)



Lemma resolveY_near t :
  0 <= resolveY t /\ (-0.2 <= t -> t - 0.2 < resolveY t /\ resolveY t <= t + 0.2).
Proof.
  pose proof (resolveY_spec t) as S.
  set (n := Qfloor (t / PLATE_HEIGHT + 0.5)) in *.
  assert (E : t / PLATE_HEIGHT == t * 2.5) by (unfold PLATE_HEIGHT; field).
  pose proof (Qfloor_le (t / PLATE_HEIGHT + 0.5)) as F1.
  pose proof (Qlt_floor (t / PLATE_HEIGHT + 0.5)) as F2.
  fold n in F1, F2. rewrite inject_Z_plus in F2. change (inject_Z 1) with 1 in F2.
  rewrite E in F1, F2. unfold PLATE_HEIGHT in S.
  destruct (Z.max_spec 0 n) as [[Lt M]|[Le M]]; rewrite M in S.
  - rewrite Zlt_Qlt in Lt. change (inject_Z 0) with 0 in Lt.
    split; [lra|]. intros _. lra.
  - rewrite Zle_Qle in Le. change (inject_Z 0) with 0 in *.
    split; [lra|]. intros G. lra.
Qed.



(** X13. The position resolved does not depend on a half turn: rotations
    [r] and [r + 2] resolve alike; and for a part whose width equals its
    depth it does not depend on the rotation at all. *)
Theorem X13_resolver_rotation_symmetry
    (sim : bool) (selectedTypeId : string) (rotation : Z) (e : PointerEvent) :
  handlePointerMove sim selectedTypeId (rotation + 2) e
  = handlePointerMove sim selectedTypeId rotation e
  /\ (forall def r',
        findType selectedTypeId = Some def -> bt_width def = bt_depth def ->
        handlePointerMove sim selectedTypeId r' e
        = handlePointerMove sim selectedTypeId rotation e).
Proof.
  unfold handlePointerMove. split.
  - rewrite !nonzero_rem2_odd.
    replace (Z.odd (rotation + 2)) with (Z.odd rotation); [reflexivity|].
    rewrite Z.odd_add. destruct (Z.odd rotation); reflexivity.
  - intros def r' F W. rewrite F, W.
    destruct sim; [reflexivity|].
    destruct (JS.nonzero (JS.rem r' 2)), (JS.nonzero (JS.rem rotation 2)); reflexivity.
Qed.





(* ================================================================== *)
(** * Facts: the brick geometry *)
(* ================================================================== *)

Section Geometry.

Lemma In_loop i n : In i (loop n) <-> (0 <= i < n)%Z.
Proof.
  unfold loop. rewrite in_map_iff. split.
  - intros (k & <- & I). apply in_seq in I. lia.
  - intros H. exists (Z.to_nat i). split; [lia|]. apply in_seq. lia.
Qed.

Lemma loop_length n : List.length (loop n) = Z.to_nat n.
Proof. unfold loop. rewrite length_map, length_seq. reflexivity. Qed.

Lemma flat_map_length_const {A B} (f : A -> list B) m l :
  (forall a, List.length (f a) = m) ->
  List.length (flat_map f l) = (List.length l * m)%nat.
Proof.
  intros H. induction l as [|a l IH]; [reflexivity|].
  cbn [flat_map List.length]. rewrite length_app, H, IH. lia.
Qed.

Lemma In_studs type p :
  In p (studs type) <->
  bt_hasStuds type = true
  /\ exists i j, (0 <= i < bt_width type)%Z /\ (0 <= j < bt_depth type)%Z
                 /\ p = {| stud_x := centred i (bt_width type);
                           stud_z := centred j (bt_depth type) |}.
Proof.
  unfold studs. destruct (bt_hasStuds type); cbn [negb].
  - rewrite in_flat_map. split.
    + intros (i & Ii & Ip). apply in_map_iff in Ip. destruct Ip as (j & <- & Ij).
      apply In_loop in Ii, Ij. split; [reflexivity|]. exists i, j. auto.
    + intros (_ & i & j & Hi & Hj & ->). exists i. split; [apply In_loop, Hi|].
      apply in_map_iff. exists j. split; [reflexivity|apply In_loop, Hj].
  - split; [intros []|intros [E _]; discriminate E].
Qed.

Lemma inject_Z_sub a b : inject_Z (a - b) == inject_Z a - inject_Z b.
Proof. unfold Z.sub. rewrite inject_Z_plus, inject_Z_opp. reflexivity. Qed.

Lemma centred_mirror i n :
  centred (n - 1 - i) n == - centred i n.
Proof.
  unfold centred, STUD_SIZE. rewrite !inject_Z_sub.
  change (inject_Z 1) with 1. field.
Qed.

(** X15. A part with studs has one stud per cell of its footprint, width
    times depth of them, a part without has none; and the stud layout is
    symmetric about the centre of the part: with every stud comes the one
    at the opposite position. *)
Theorem X15_stud_layout (type : BrickTypeDefinition) :
  List.length (studs type)
  = (if bt_hasStuds type
     then Z.to_nat (bt_width type) * Z.to_nat (bt_depth type) else 0)%nat
  /\ (forall p, In p (studs type) ->
        exists p', In p' (studs type)
                   /\ stud_x p' == - stud_x p /\ stud_z p' == - stud_z p).
Proof.
  split.
  - unfold studs. destruct (bt_hasStuds type); cbn [negb]; [|reflexivity].
    rewrite (flat_map_length_const _ (m := Z.to_nat (bt_depth type))).
    + rewrite loop_length. reflexivity.
    + intros i. rewrite length_map. apply loop_length.
  - intros p I. apply In_studs in I. destruct I as (S & i & j & Hi & Hj & ->).
    exists {| stud_x := centred (bt_width type - 1 - i) (bt_width type);
              stud_z := centred (bt_depth type - 1 - j) (bt_depth type) |}.
    split.
    + apply In_studs. split; [exact S|].
      exists (bt_width type - 1 - i)%Z, (bt_depth type - 1 - j)%Z.
      repeat split; lia.
    + cbn [stud_x stud_z]. split; apply centred_mirror.
Qed.

Lemma centred_range i n :
  (0 <= i < n)%Z ->
  - ((inject_Z n - 1) / 2) <= centred i n /\ centred i n <= (inject_Z n - 1) / 2.
Proof.
  intros [L U]. unfold centred, STUD_SIZE.
  assert (U' : (i <= n - 1)%Z) by lia.
  rewrite Zle_Qle in L, U'. rewrite inject_Z_sub in U'.
  change (inject_Z 0) with 0 in L. change (inject_Z 1) with 1 in U'.
  assert (E : (inject_Z n - 1) / 2 == (inject_Z n - 1) * 0.5) by field.
  rewrite E. split; lra.
Qed.

(** X16. Every stud mesh of the group sits on the top face of the main
    body (its underside is at the height of the body) and lies within that
    face: its disc of radius 0.3 does not reach over the edge of the body
    in X or in Z. *)
Theorem X16_studs_on_the_body (type : BrickTypeDefinition) (x y z : Q) :
  In {| mesh_position := (x, y, z); mesh_turnedZ := false;
        mesh_geometry := cylinderGeometry 0.3 0.3 0.2 |} (BrickGeometry type) ->
  let w := inject_Z (bt_width type) * STUD_SIZE - 0.05 in
  let d := inject_Z (bt_depth type) * STUD_SIZE - 0.05 in
  let h := bt_height type * BRICK_HEIGHT in
  hd_error (BrickGeometry type)
  = Some {| mesh_position := (0, h / 2, 0); mesh_turnedZ := false;
            mesh_geometry := boxGeometry w h d |}
  /\ y - 0.2 / 2 == h / 2 + h / 2
  /\ - (w / 2) <= x - 0.3 /\ x + 0.3 <= w / 2
  /\ - (d / 2) <= z - 0.3 /\ z + 0.3 <= d / 2.
Proof.
  intros I w d h. split; [reflexivity|].
  unfold BrickGeometry in I. cbn [In app] in I.
  destruct I as [I|I]; [discriminate I|].
  apply in_app_or in I. destruct I as [I|I].
  - destruct (bt_hasStuds type); [|destruct I].
    apply in_map_iff in I. destruct I as (p & E & I).
    injection E as Ex Ey Ez.
    apply In_studs in I. destruct I as (_ & i & j & Hi & Hj & ->).
    cbn [stud_x stud_z] in *.
    destruct (centred_range Hi) as [X1 X2]. destruct (centred_range Hj) as [Z1 Z2].
    subst x y z w d h. unfold STUD_SIZE, Qdiv in *.
    change (/ 2) with (1 # 2) in *.
    repeat split; lra.
  - apply in_app_or in I. destruct I as [I|I].
    + destruct (truthy (bt_hasHoles type)); [|destruct I].
      apply in_map_iff in I. destruct I as (p & E & _). discriminate E.
    + destruct (truthy (bt_hasHoles type)); [|destruct I].
      destruct I as [I|[]]. discriminate I.
Qed.

Lemma X16_studs_on_the_body_witness :
  In {| mesh_position := (centred 1 2, 1 * 1.2 + 0.1, centred 3 4);
        mesh_turnedZ := false;
        mesh_geometry := cylinderGeometry 0.3 0.3 0.2 |}
     (BrickGeometry (mkType "brick_2x4" "Brick 2x4" basic 2 4 1 true None))
  /\ centred 1 2 + 0.3 <= (inject_Z 2 * 1 - 0.05) / 2
  /\ centred 3 4 + 0.3 <= (inject_Z 4 * 1 - 0.05) / 2.
Proof.
  assert (I : In {| mesh_position := (centred 1 2, 1 * 1.2 + 0.1, centred 3 4);
                    mesh_turnedZ := false;
                    mesh_geometry := cylinderGeometry 0.3 0.3 0.2 |}
                 (BrickGeometry (mkType "brick_2x4" "Brick 2x4" basic 2 4 1 true None))).
  { cbn. do 8 right. left. reflexivity. }
  split; [exact I|].
  destruct (X16_studs_on_the_body I) as (_ & _ & _ & X & _ & Z).
  split; [exact X|exact Z].
Defined.

End Geometry.

(* ================================================================== *)
(** * Facts: studs on the grid *)
(* ================================================================== *)

Section GridAlignment.











End GridAlignment.

(* ================================================================== *)
(** * Facts: more on the simulation bridge *)
(* ================================================================== *)

(** X18. The body of a brick is given the swapped box and is turned by the
    rotation of the brick as well.  Along the world axes the collider
    therefore spans the footprint of the type as it is defined (width
    along X, depth along Z, each less 0.02) for every rotation, whereas the
    main body shown in edit mode, turned once, spans the effective
    footprint (less 0.05). *)
Theorem X18_collider_world_extent (brick : PlacedBrick) (def : BrickTypeDefinition) :
  findType (pb_typeId brick) = Some def ->
  let h := bt_height def * BRICK_HEIGHT in
  let body := PhysicsBrick brick in
  body_quarterTurns body = pb_rotation brick
  /\ turnedExtent (body_quarterTurns body) (body_args body)
     = (inject_Z (bt_width def) * STUD_SIZE - 0.02, h,
        inject_Z (bt_depth def) * STUD_SIZE - 0.02)
  /\ turnedExtent (pb_rotation brick)
       (inject_Z (bt_width def) * STUD_SIZE - 0.05, h,
        inject_Z (bt_depth def) * STUD_SIZE - 0.05)
     = (inject_Z (effectiveWidth def (pb_rotation brick)) * STUD_SIZE - 0.05, h,
        inject_Z (effectiveDepth def (pb_rotation brick)) * STUD_SIZE - 0.05)
  /\ hd_error (BrickGeometry def)
     = Some {| mesh_position := (0, h / 2, 0); mesh_turnedZ := false;
               mesh_geometry :=
                 boxGeometry (inject_Z (bt_width def) * STUD_SIZE - 0.05) h
                             (inject_Z (bt_depth def) * STUD_SIZE - 0.05) |}.
Proof.
  intros F h body. subst body. unfold PhysicsBrick. rewrite F, nonzero_rem2_odd.
  unfold effectiveWidth, effectiveDepth, turnedExtent.
  destruct (pb_position brick) as [[x y] z].
  cbn [body_quarterTurns body_args].
  destruct (Z.odd (pb_rotation brick)); repeat split; reflexivity.
Qed.

Lemma X18_collider_world_extent_witness :
  findType "brick_2x4" = Some (mkType "brick_2x4" "Brick 2x4" basic 2 4 1 true None)
  /\ turnedExtent 1 (body_args (PhysicsBrick (nth 1 twoParityBuild rotation7Brick)))
     = (inject_Z 2 * 1 - 0.02, 1 * 1.2, inject_Z 4 * 1 - 0.02)
  /\ turnedExtent 1 (inject_Z 2 * 1 - 0.05, 1 * 1.2, inject_Z 4 * 1 - 0.05)
     = (inject_Z 4 * 1 - 0.05, 1 * 1.2, inject_Z 2 * 1 - 0.05).
Proof.
  split; [reflexivity|].
  destruct (@X18_collider_world_extent (nth 1 twoParityBuild rotation7Brick)
              (mkType "brick_2x4" "Brick 2x4" basic 2 4 1 true None) eq_refl)
    as (_ & C & V & _).
  split; [exact C|exact V].
Defined.

Lemma In_renderedBricks brick def bs :
  In (brick, def) (renderedBricks bs)
  <-> In brick bs /\ findType (pb_typeId brick) = Some def.
Proof.
  unfold renderedBricks. rewrite in_flat_map. split.
  - intros (b & I & H). destruct (findType (pb_typeId b)) eqn:F; [|destruct H].
    destruct H as [[= -> ->]|[]]. auto.
  - intros [I F]. exists brick. split; [exact I|]. rewrite F. left. reflexivity.
Qed.

(** X19. A brick whose type is not in the catalogue is shown neither in
    edit mode nor in the simulation, but the simulation still gives it a
    body: a box of 0.98 x 1 x 0.98 centred half a unit above its stored
    position.  Every brick of the build gets a body, and exactly the bricks
    whose type resolves are shown in edit mode. *)
Theorem X19_unknown_type_has_unit_body (bs : list PlacedBrick) (brick : PlacedBrick) :
  In brick bs ->
  findType (pb_typeId brick) = None ->
  List.length (simulationBodies bs) = List.length bs
  /\ (forall def, ~ In (brick, def) (renderedBricks bs))
  /\ PhysicsBrick_rendered brick = false
  /\ In (PhysicsBrick brick) (simulationBodies bs)
  /\ body_args (PhysicsBrick brick) = (1 - 0.02, 1, 1 - 0.02)
  /\ (let '(x, y, z) := pb_position brick in
      body_position (PhysicsBrick brick) = (x, y + 1 / 2, z))
  /\ (forall b def, In (b, def) (renderedBricks bs)
                    <-> In b bs /\ findType (pb_typeId b) = Some def).
Proof.
  intros I F. split; [apply length_map|]. split.
  - intros def H. apply In_renderedBricks in H. destruct H as [_ H]. congruence.
  - split; [unfold PhysicsBrick_rendered; rewrite F; reflexivity|].
    split; [apply in_map, I|].
    unfold PhysicsBrick. rewrite F. destruct (pb_position brick) as [[x y] z].
    split; [destruct (JS.nonzero _); reflexivity|].
    split; [reflexivity|]. intros b def. apply In_renderedBricks.
Qed.

Lemma X19_unknown_type_has_unit_body_witness :
  In {| pb_id := "d4"; pb_typeId := "wheel_2x2"; pb_position := (1, 0.4, 2);
        pb_rotation := 1; pb_color := "#ef4444" |}
     ({| pb_id := "d4"; pb_typeId := "wheel_2x2"; pb_position := (1, 0.4, 2);
         pb_rotation := 1; pb_color := "#ef4444" |} :: twoParityBuild)
  /\ findType "wheel_2x2" = None
  /\ body_args (PhysicsBrick
       {| pb_id := "d4"; pb_typeId := "wheel_2x2"; pb_position := (1, 0.4, 2);
          pb_rotation := 1; pb_color := "#ef4444" |})
     = (1 - 0.02, 1, 1 - 0.02).
Proof.
  assert (I : In {| pb_id := "d4"; pb_typeId := "wheel_2x2"; pb_position := (1, 0.4, 2);
                    pb_rotation := 1; pb_color := "#ef4444" |}
     ({| pb_id := "d4"; pb_typeId := "wheel_2x2"; pb_position := (1, 0.4, 2);
         pb_rotation := 1; pb_color := "#ef4444" |} :: twoParityBuild))
    by (left; reflexivity).
  split; [exact I|]. split; [reflexivity|].
  destruct (X19_unknown_type_has_unit_body _ _ I eq_refl) as (_ & _ & _ & _ & A & _).
  exact A.
Defined.

(** X20. A brick placed where the resolver puts it starts the simulation
    with the underside of its body at its stored height, which is at or
    above the ground and so above the floor plane of the simulation. *)
Theorem X20_resolved_brick_rests_above_floor
    (selectedTypeId : string) (rotation : Z) (e : PointerEvent)
    (x y z : Q) (brick : PlacedBrick) :
  handlePointerMove false selectedTypeId rotation e = Some (x, y, z) ->
  pb_position brick = (x, y, z) ->
  let '(cx, cy, cz) := body_position (PhysicsBrick brick) in
  let '(sx, sy, sz) := body_args (PhysicsBrick brick) in
  cy - sy / 2 == y /\ 0 <= cy - sy / 2 /\ PhysicsFloor_y < cy - sy / 2
  /\ cx = x /\ cz = z.
Proof.
  intros P E. unfold handlePointerMove in P.
  destruct (findType selectedTypeId); [|discriminate].
  injection P as _ Ey _.
  match type of Ey with
  | resolveY ?t = _ => pose proof (resolveY_near t) as [Y _]
  end.
  rewrite Ey in Y.
  unfold PhysicsBrick. rewrite E. cbn [body_position body_args].
  unfold PhysicsFloor_y.
  assert (B : forall hh : Q, y + hh / 2 - hh / 2 == y) by (intros; field).
  repeat split; rewrite ?B; try lra.
Qed.

Lemma X20_resolved_brick_rests_above_floor_witness :
  handlePointerMove false "brick_1x1" 0 groundPointer = Some (2, 0.00, -1)
  /\ pb_position (nth 0 (bricks onePartState) rotation7Brick) = (2, 0.00, -1)
  /\ PhysicsFloor_y
     < snd (fst (body_position (PhysicsBrick (nth 0 (bricks onePartState) rotation7Brick))))
       - snd (fst (body_args (PhysicsBrick (nth 0 (bricks onePartState) rotation7Brick))))
         / 2.
Proof.
  split; [reflexivity|]. split; [reflexivity|].
  pose proof (@X20_resolved_brick_rests_above_floor "brick_1x1" 0 groundPointer
                2 0.00 (-1) (nth 0 (bricks onePartState) rotation7Brick)
                eq_refl eq_refl) as H.
  cbn in H. cbn. destruct H as (_ & _ & H & _). exact H.
Defined.

(* ================================================================== *)
(** * Facts: the catalogue filter and the quick save *)
(* ================================================================== *)

Lemma filteredCatalog_incl f b : In b (filteredCatalog f) -> In b BRICK_CATALOG.
Proof.
  destruct f; unfold filteredCatalog; [auto| |]; intros H;
    apply filter_In in H; tauto.
Qed.

(** X21. Whatever the filter, a part offered in the catalogue panel is a
    part of the catalogue, and selecting it by its identifier resolves to
    that very part.  The two narrow filters split the catalogue: a part is
    offered under "basic" exactly when it is not offered under "technic",
    and under "technic" exactly when its category is technic. *)
Theorem X21_filter_offers_catalogue_parts (f : FilterCategory) (b : BrickTypeDefinition) :
  In b (filteredCatalog f) ->
  In b (filteredCatalog filter_all)
  /\ findType (bt_id b) = Some b
  /\ (In b (filteredCatalog filter_technic) <-> bt_category b = technic)
  /\ (In b (filteredCatalog filter_basic) <-> ~ In b (filteredCatalog filter_technic)).
Proof.
  intros H. apply filteredCatalog_incl in H.
  split; [exact H|]. split; [apply findType_catalogue, H|].
  unfold filteredCatalog. rewrite !filter_In.
  destruct (bt_category b); split; split; intros K;
    try tauto; try discriminate; try (destruct K; discriminate);
    try (split; [exact H|reflexivity]);
    try (intros [_ K']; discriminate).
Qed.

Lemma X21_filter_offers_catalogue_parts_witness :
  In (mkType "brick_2x4" "Brick 2x4" basic 2 4 1 true None) (filteredCatalog filter_basic)
  /\ findType "brick_2x4" = Some (mkType "brick_2x4" "Brick 2x4" basic 2 4 1 true None)
  /\ ~ In (mkType "brick_2x4" "Brick 2x4" basic 2 4 1 true None)
          (filteredCatalog filter_technic).
Proof.
  assert (I : In (mkType "brick_2x4" "Brick 2x4" basic 2 4 1 true None)
                (filteredCatalog filter_basic)).
  { cbn. repeat first [left; reflexivity | right]. }
  split; [exact I|].
  destruct (X21_filter_offers_catalogue_parts filter_basic _ I) as (_ & F & _ & B).
  split; [exact F|]. apply B, I.
Defined.

(** X22. Quick save then quick load restores the build.  The text stored
    by [saveToLocalStorage] is never empty, so the load does not take it
    for a missing save, even for the empty build; it parses, and the build
    loaded into any state has the same bricks in the same order, field for
    field, with numerically equal coordinates.  The load changes neither
    the selection, the tool nor the rotation. *)
Theorem X22_quick_save_load_roundtrip (s s0 : AppState) :
  Forall (fun b => decimalBrick b = true) (bricks s) ->
  saveToLocalStorage s <> EmptyString
  /\ exists s',
       loadFromLocalStorage (Some (saveToLocalStorage s)) s0 = Restored s'
       /\ Forall2 sameBrick (bricks s) (bricks s')
       /\ List.length (bricks s') = List.length (bricks s)
       /\ selectedTypeId s' = selectedTypeId s0
       /\ selectedColorId s' = selectedColorId s0
       /\ tool s' = tool s0
       /\ rotation s' = rotation s0.
Proof.
  intros D.
  assert (N : exists c r, saveToLocalStorage s = String c r).
  { unfold saveToLocalStorage, JSON.stringify, bricksToJSON.
    cbn [JSON.print string_of_list_ascii]. eauto. }
  split; [destruct N as (c & r & ->); discriminate|].
  exists (addToHistory (map normBrick (bricks s)) s0).
  split.
  - unfold loadFromLocalStorage. destruct N as (c & r & E). rewrite E, <- E.
    unfold saveToLocalStorage.
    rewrite JSONFacts.parse_stringify by (apply wf_bricksToJSON, D).
    rewrite asPlacedBricks_bricksToJSON. reflexivity.
  - cbn [addToHistory setHistoryState bricks selectedTypeId selectedColorId
         tool rotation].
    split; [apply Forall2_sameBrick_norm|]. split; [apply length_map|].
    repeat split.
Qed.

Lemma X22_quick_save_load_roundtrip_witness :
  Forall (fun b => decimalBrick b = true) (bricks twoParityState)
  /\ exists s',
       loadFromLocalStorage (Some (saveToLocalStorage twoParityState)) onePartState
         = Restored s'
       /\ Forall2 sameBrick (bricks twoParityState) (bricks s').
Proof.
  assert (D : Forall (fun b => decimalBrick b = true) (bricks twoParityState))
    by (repeat constructor).
  split; [exact D|].
  destruct (X22_quick_save_load_roundtrip twoParityState onePartState D)
    as (_ & s' & L & F & _).
  exists s'. split; [exact L|exact F].
Defined.

(* ================================================================== *)
(** * Facts: AI builds in the scene, and the holes of beams *)
(* ================================================================== *)

Section AiScene.

Variable uuidv4 : nat -> string.

Lemma convertItems_In rawData : forall calls b,
  In b (convertItems uuidv4 calls rawData) ->
  exists id item, In item rawData /\ b = convertItem id item.
Proof.
  induction rawData as [|x rest IH]; intros calls b I; [destruct I|].
  cbn [convertItems] in I. destruct I as [<-|I].
  - exists (uuidv4 calls), x. split; [left; reflexivity|reflexivity].
  - destruct (IH _ _ I) as (id & item & J & E).
    exists id, item. split; [right; exact J|exact E].
Qed.

Lemma convertItem_type id item :
  exists def, In def BRICK_CATALOG
              /\ findType (pb_typeId (convertItem id item)) = Some def.
Proof.
  unfold convertItem. cbn [pb_typeId].
  destruct (findType (partId item)) as [p|] eqn:F.
  - exists p. assert (I : In p BRICK_CATALOG).
    { unfold findType, JS.find in F. apply find_some in F. tauto. }
    split; [exact I|apply findType_catalogue, I].
  - exists BRICK_CATALOG_0. split; [left; reflexivity|reflexivity].
Qed.

Lemma convertItem_colour id item :
  exists c, In c COLORS /\ pb_color (convertItem id item) = bc_hex c.
Proof.
  unfold convertItem. cbn [pb_color].
  destruct (findColor (colorId item)) as [c|] eqn:F; cbn [option_map].
  - exists c. split.
    + unfold findColor, JS.find in F. apply find_some in F. tauto.
    + apply (findColor_hex _ F).
  - exists COLORS_0. split; [left; reflexivity|reflexivity].
Qed.

(** X23. Every brick added by an AI build is shown: whatever the records
    of the response say, the type of the brick is a part of the catalogue
    and its colour the hex value of a colour of the palette, so edit mode
    renders it with the geometry of that part and the simulation shows it
    with a body of the size of that part. *)
Theorem X23_ai_bricks_are_shown
    (aiPrompt : string) (rawData : list RawItem) (s : AppState) (brick : PlacedBrick) :
  aiPrompt <> "" ->
  In brick (convertItems uuidv4 (uuidCalls s) rawData) ->
  let s' := handleAiBuild uuidv4 aiPrompt (ResponseJSON rawData) s in
  exists def c,
    In def BRICK_CATALOG /\ In c COLORS
    /\ pb_color brick = bc_hex c
    /\ In (brick, def) (renderedBricks (bricks s'))
    /\ PhysicsBrick_rendered brick = true
    /\ In (PhysicsBrick brick) (simulationBodies (bricks s'))
    /\ turnedExtent (pb_rotation brick) (body_args (PhysicsBrick brick))
       = (inject_Z (bt_width def) * STUD_SIZE - 0.02, bt_height def * BRICK_HEIGHT,
          inject_Z (bt_depth def) * STUD_SIZE - 0.02).
Proof.
  intros P I s'.
  assert (B : In brick (bricks s')).
  { subst s'. unfold handleAiBuild. destruct aiPrompt; [contradiction|].
    cbn [generateBuildFromPrompt addToHistory setHistoryState bricks].
    apply in_or_app. right. exact I. }
  destruct (convertItems_In _ _ _ I) as (id & item & _ & ->).
  destruct (convertItem_type id item) as (def & D & F).
  destruct (convertItem_colour id item) as (c & C & H).
  exists def, c. split; [exact D|]. split; [exact C|]. split; [exact H|].
  split; [apply In_renderedBricks; auto|].
  split; [unfold PhysicsBrick_rendered; rewrite F; reflexivity|].
  split; [apply in_map, B|].
  unfold PhysicsBrick. rewrite F, nonzero_rem2_odd.
  destruct (pb_position (convertItem id item)) as [[x y] z].
  unfold turnedExtent. cbn [body_args].
  destruct (Z.odd (pb_rotation (convertItem id item))); reflexivity.
Qed.

End AiScene.

Lemma X23_ai_bricks_are_shown_witness :
  "castle"%string <> ""%string
  /\ In (convertItem (uuidSample 1) unknownPartItem)
        (convertItems uuidSample (uuidCalls onePartState) [unknownPartItem; validItem])
  /\ exists def,
       In (convertItem (uuidSample 1) unknownPartItem, def)
          (renderedBricks
             (bricks (handleAiBuild uuidSample "castle"
                        (ResponseJSON [unknownPartItem; validItem]) onePartState))).
Proof.
  assert (P : "castle"%string <> ""%string) by discriminate.
  assert (I : In (convertItem (uuidSample 1) unknownPartItem)
                (convertItems uuidSample (uuidCalls onePartState)
                   [unknownPartItem; validItem])) by (left; reflexivity).
  split; [exact P|]. split; [exact I|].
  destruct (@X23_ai_bricks_are_shown uuidSample "castle"
              [unknownPartItem; validItem] onePartState _ P I)
    as (def & _ & _ & _ & _ & R & _).
  exists def. exact R.
Defined.

Lemma In_holes type p :
  In p (holes type) <->
  bt_hasHoles type = Some true /\ bt_width type = 1%Z
  /\ exists j, (0 <= j < bt_depth type)%Z
               /\ p = {| hole_x := 0; hole_z := centred j (bt_depth type) |}.
Proof.
  unfold holes. destruct (bt_hasHoles type) as [[|]|]; cbn [truthy negb].
  - destruct (bt_width type =? 1)%Z eqn:W.
    + apply Z.eqb_eq in W. rewrite in_map_iff. split.
      * intros (j & <- & I). apply In_loop in I. eauto.
      * intros (_ & _ & j & Hj & ->). exists j. split; [reflexivity|apply In_loop, Hj].
    + apply Z.eqb_neq in W. split; [intros []|]. intros (_ & W' & _). contradiction.
  - split; [intros []|]. intros (H & _). discriminate H.
  - split; [intros []|]. intros (H & _). discriminate H.
Qed.

(** X24. The group of a part has hole meshes only when the part has holes
    and is one stud wide; there are then as many as the part is deep.
    Each is a cylinder turned to lie along X at mid height on the centre
    line; it is longer than the body is wide, so it comes out of both side
    faces, and its disc of radius 0.25 stays within the depth of the
    body. *)
Theorem X24_holes_through_beam (type : BrickTypeDefinition) (m : Mesh) :
  In m (BrickGeometry type) ->
  mesh_turnedZ m = true ->
  let w := inject_Z (bt_width type) * STUD_SIZE in
  let d := inject_Z (bt_depth type) * STUD_SIZE in
  let h := bt_height type * BRICK_HEIGHT in
  let '(x, y, z) := mesh_position m in
  bt_hasHoles type = Some true /\ bt_width type = 1%Z
  /\ List.length (holes type) = Z.to_nat (bt_depth type)
  /\ mesh_geometry m = cylinderGeometry 0.25 0.25 (w + 0.05)
  /\ x = 0 /\ y = h / 2
  /\ x - (w + 0.05) / 2 < - ((w - 0.05) / 2) /\ (w - 0.05) / 2 < x + (w + 0.05) / 2
  /\ - ((d - 0.05) / 2) <= z - 0.25 /\ z + 0.25 <= (d - 0.05) / 2.
Proof.
  intros I T w d h. unfold BrickGeometry in I. fold w d h in I.
  cbn [In app] in I. destruct I as [<-|I]; [discriminate T|].
  apply in_app_or in I. destruct I as [I|I].
  { destruct (bt_hasStuds type); [|destruct I].
    apply in_map_iff in I. destruct I as (p & <- & _). discriminate T. }
  apply in_app_or in I. destruct I as [I|I].
  - destruct (truthy (bt_hasHoles type)); [|destruct I].
    apply in_map_iff in I. destruct I as (p & <- & I). cbn [mesh_position mesh_geometry].
    pose proof I as I'. apply In_holes in I'.
    destruct I' as (H & W & j & Hj & ->). cbn [hole_x hole_z].
    destruct (centred_range Hj) as [Z1 Z2].
    split; [exact H|]. split; [exact W|]. split.
    { unfold holes. rewrite H, W. cbn [truthy negb Z.eqb Pos.eqb].
      rewrite length_map. apply loop_length. }
    split; [reflexivity|]. split; [reflexivity|]. split; [reflexivity|].
    subst w d. unfold STUD_SIZE, Qdiv in *. change (/ 2) with (1 # 2) in *.
    repeat split; lra.
  - destruct (truthy (bt_hasHoles type)); [|destruct I].
    destruct I as [<-|[]]. discriminate T.
Qed.

Lemma X24_holes_through_beam_witness :
  In {| mesh_position := (0, 1 * 1.2 / 2, centred 3 4); mesh_turnedZ := true;
        mesh_geometry := cylinderGeometry 0.25 0.25 (inject_Z 1 * 1 + 0.05) |}
     (BrickGeometry (mkType "technic_1x4" "Technic Beam 4" technic 1 4 1 false (Some true)))
  /\ List.length
       (holes (mkType "technic_1x4" "Technic Beam 4" technic 1 4 1 false (Some true)))
     = 4%nat
  /\ centred 3 4 + 0.25 <= (inject_Z 4 * 1 - 0.05) / 2.
Proof.
  assert (I : In {| mesh_position := (0, 1 * 1.2 / 2, centred 3 4);
                    mesh_turnedZ := true;
                    mesh_geometry := cylinderGeometry 0.25 0.25 (inject_Z 1 * 1 + 0.05) |}
     (BrickGeometry
        (mkType "technic_1x4" "Technic Beam 4" technic 1 4 1 false (Some true)))).
  { cbn. do 4 right. left. reflexivity. }
  split; [exact I|].
  destruct (X24_holes_through_beam I eq_refl) as (_ & _ & L & _ & _ & _ & _ & _ & _ & Z).
  split; [exact L|exact Z].
Defined.
